(** * Task manager backend: record-access (db) layer and endpoint layer

    A shallow embedding of [convex/db/*.ts], [convex/helpers/validation.ts]
    and the mutations of [convex/endpoints/tasks.ts] and
    [convex/endpoints/comments.ts], followed by the properties of the
    task/audit-trail state model.

    Conventions of the embedding.
    - The numbers of this code are integers and are kept as [Z]
      (timestamps, positions, limits, counts).  Where the code adds to a
      position, the sum is rounded as binary64 does ([number_add]); the
      one division, of the statistics, is done on primitive floats.
    - A JavaScript string is a [string]; one [ascii] stands for one UTF-16
      code unit in the range 0..255, so [String.length] is [.length].
    - An optional field [f?: T] is an [option T]; [None] is a missing key.
    - A Convex table is the list of the documents ever inserted, in
      creation order; a deleted document leaves [None] behind.  The
      document id is the index in that list, hence never reused.
    - An [async] function is a computation in the monad [M]: it threads
      the store and may stop with an [Error]; a [throw] keeps the writes
      done before it. *)

From Stdlib Require Import ZArith String Ascii List Bool Lia.
From Stdlib Require Import Floats.PrimFloat Floats.FloatOps Floats.SpecFloat.
From Stdlib Require Import Numbers.Cyclic.Int63.Uint63.
From Stdlib Require Import Sorting.Sorted.
From stdpp Require Import base list.
Import ListNotations.

Open Scope string_scope.
Open Scope Z_scope.
Open Scope list_scope.

(* ================================================================= *)
(** ** Data model ([convex/schema.ts]) *)

Abbreviation Id := nat (only parsing).
Abbreviation UserId := string (only parsing).

Inductive TaskStatus := pending | in_progress | completed.
Inductive TaskPriority := low | medium | high.

Definition TaskStatus_eqb (a b : TaskStatus) : bool :=
  match a, b with
  | pending, pending | in_progress, in_progress | completed, completed => true
  | _, _ => false
  end.

Definition TaskPriority_eqb (a b : TaskPriority) : bool :=
  match a, b with
  | low, low | medium, medium | high, high => true
  | _, _ => false
  end.

Record Task := mkTask {
  task_userId : UserId;
  task_title : string;
  task_description : option string;
  task_status : TaskStatus;
  task_priority : TaskPriority;
  task_dueDate : option Z;
  task_completedAt : option Z;
  task_position : Z;
  task_tags : option (list string);
  task_createdAt : Z;
  task_updatedAt : Z
}.

Record TaskComment := mkTaskComment {
  comment_taskId : Id;
  comment_userId : UserId;
  comment_content : string;
  comment_createdAt : Z;
  comment_updatedAt : Z
}.

Inductive TaskActivityAction :=
  | created | updated | action_completed | deleted
  | status_changed | priority_changed.

(** The [changes] payload is [any] in the source; the endpoints only ever
    store a [{from, to}] pair of statuses or of priorities. *)
Inductive Changes :=
  | StatusChange (from to : TaskStatus)
  | PriorityChange (from to : TaskPriority).

Record TaskActivityDoc := mkTaskActivity {
  activity_taskId : Id;
  activity_userId : UserId;
  activity_action : TaskActivityAction;
  activity_changes : option Changes;
  activity_createdAt : Z
}.

Inductive Theme := light | dark | system.
Inductive DefaultView := view_list | kanban.
Inductive SortBy := by_createdAt | by_dueDate | by_priority | by_position.
Inductive SortOrder := asc | desc.

Record UserPreferencesDoc := mkUserPreferences {
  pref_userId : UserId;
  pref_theme : Theme;
  pref_defaultView : DefaultView;
  pref_sortBy : SortBy;
  pref_sortOrder : SortOrder;
  pref_showCompletedTasks : bool;
  pref_notificationsEnabled : bool;
  pref_createdAt : Z;
  pref_updatedAt : Z
}.

Inductive ThreadStatus := active | archived.

Definition ThreadStatus_eqb (a b : ThreadStatus) : bool :=
  match a, b with
  | active, active | archived, archived => true
  | _, _ => false
  end.

Record Thread := mkThread {
  thread_userId : UserId;
  thread_title : option string;
  thread_status : ThreadStatus;
  thread_lastMessageAt : option Z;
  thread_createdAt : Z;
  thread_updatedAt : Z
}.

Inductive MessageRole := role_user | role_assistant | role_system.

Record Message := mkMessage {
  message_threadId : Id;
  message_userId : UserId;
  message_role : MessageRole;
  message_content : string;
  message_metadata : option string;
  message_createdAt : Z
}.

(* ================================================================= *)
(** ** The entity store *)

Abbreviation Table A := (list (option A)) (only parsing).

Record Store := mkStore {
  tasks : Table Task;
  taskComments : Table TaskComment;
  taskActivity : Table TaskActivityDoc;
  userPreferences : Table UserPreferencesDoc;
  threads : Table Thread;
  messages : Table Message
}.

Definition emptyStore : Store := mkStore [] [] [] [] [] [].

(** A table of the store, as the string argument of [ctx.db.insert] and
    [ctx.db.query] selects it. *)
Record TableRef (A : Type) := mkTableRef {
  tget : Store -> Table A;
  tset : Table A -> Store -> Store
}.
Arguments tget {A} _ _.
Arguments tset {A} _ _ _.

Definition tasksT : TableRef Task :=
  mkTableRef Task tasks
    (fun t s => mkStore t (taskComments s) (taskActivity s)
                  (userPreferences s) (threads s) (messages s)).
Definition taskCommentsT : TableRef TaskComment :=
  mkTableRef TaskComment taskComments
    (fun t s => mkStore (tasks s) t (taskActivity s)
                  (userPreferences s) (threads s) (messages s)).
Definition taskActivityT : TableRef TaskActivityDoc :=
  mkTableRef TaskActivityDoc taskActivity
    (fun t s => mkStore (tasks s) (taskComments s) t
                  (userPreferences s) (threads s) (messages s)).
Definition userPreferencesT : TableRef UserPreferencesDoc :=
  mkTableRef UserPreferencesDoc userPreferences
    (fun t s => mkStore (tasks s) (taskComments s) (taskActivity s)
                  t (threads s) (messages s)).
Definition threadsT : TableRef Thread :=
  mkTableRef Thread threads
    (fun t s => mkStore (tasks s) (taskComments s) (taskActivity s)
                  (userPreferences s) t (messages s)).
Definition messagesT : TableRef Message :=
  mkTableRef Message messages
    (fun t s => mkStore (tasks s) (taskComments s) (taskActivity s)
                  (userPreferences s) (threads s) t).

(** The document stored under [id], if it was inserted and not deleted. *)
Definition table_get {A} (t : Table A) (id : Id) : option A :=
  match t !! id with
  | Some (Some d) => Some d
  | _ => None
  end.

(** The live documents with their ids, in creation order. *)
Fixpoint table_docs_from {A} (i : Id) (t : Table A) : list (Id * A) :=
  match t with
  | [] => []
  | Some d :: t' => (i, d) :: table_docs_from (S i) t'
  | None :: t' => table_docs_from (S i) t'
  end.

Definition table_docs {A} (t : Table A) : list (Id * A) :=
  table_docs_from 0%nat t.

(* ================================================================= *)
(** ** Errors and the monad of [async] functions *)

Inductive Error :=
  | Err (msg : string)
      (** [throw new Error("...")] with a literal message *)
  | ErrRateLimit (retryAfter : Z)
      (** [`Rate limit exceeded. Retry after ${retryAfter}ms`] *)
  | ErrTaskNotFound (id : Id)
      (** [`Task ${id} not found`] *)
  | ErrReorderUnauthorized (id : Id)
      (** [`Not authorized to reorder task ${id}`] *)
  | StoreFault
      (** raised by the store itself: [patch] or [delete] of a document
          that does not exist, [take] of a negative count *).

Definition Result (A : Type) := (Error + A)%type.

Definition M (A : Type) := Store -> Result A * Store.

Definition ret {A} (a : A) : M A := fun s => (inr a, s).

Definition throw {A} (e : Error) : M A := fun s => (inl e, s).

Definition bind {A B} (m : M A) (k : A -> M B) : M B :=
  fun s =>
    match m s with
    | (inr a, s') => k a s'
    | (inl e, s') => (inl e, s')
    end.

Notation "x <- m ;; k" := (bind m (fun x => k))
  (at level 100, m at next level, right associativity).
Notation "m ;;; k" := (bind m (fun _ => k))
  (at level 100, right associativity).

(** [Promise.all(ps)]: the promises were all started when the array was
    built, so each one runs, in array order; the result is the first
    rejection if there is one. *)
Fixpoint promise_all {A} (ps : list (M A)) : M (list A) :=
  fun s =>
    match ps with
    | [] => (inr [], s)
    | p :: ps' =>
        let (r, s1) := p s in
        let (rs, s2) := promise_all ps' s1 in
        (match r, rs with
         | inl e, _ => inl e
         | inr _, inl e => inl e
         | inr a, inr l => inr (a :: l)
         end, s2)
    end.

(** *** Store primitives ([ctx.db]) *)

Definition db_insert {A} (T : TableRef A) (doc : A) : M Id :=
  fun s => (inr (length (tget T s)), tset T (tget T s ++ [Some doc]) s).

Definition db_get {A} (T : TableRef A) (id : Id) : M (option A) :=
  fun s => (inr (table_get (tget T s) id), s).

Definition db_patch {A} (T : TableRef A) (id : Id) (f : A -> A) : M unit :=
  fun s =>
    match table_get (tget T s) id with
    | Some d => (inr tt, tset T (<[id := Some (f d)]> (tget T s)) s)
    | None => (inl StoreFault, s)
    end.

Definition db_delete {A} (T : TableRef A) (id : Id) : M unit :=
  fun s =>
    match table_get (tget T s) id with
    | Some _ => (inr tt, tset T (<[id := None]> (tget T s)) s)
    | None => (inl StoreFault, s)
    end.

(** [ctx.db.query(table)] followed by [collect()]: the live documents in
    creation order.  Index selection and ordering are applied by the
    callers with [filter], [index_order] and [rev]. *)
Definition db_query {A} (T : TableRef A) : M (list (Id * A)) :=
  fun s => (inr (table_docs (tget T s)), s).

(** *** Index order

    An index orders documents by its fields and then by creation time;
    [insert_by] keeps equal keys in creation order. *)
Fixpoint insert_by {A} (leb : A -> A -> bool) (x : A) (l : list A) : list A :=
  match l with
  | [] => [x]
  | y :: l' => if leb y x then y :: insert_by leb x l' else x :: l
  end.

Definition index_order {A} (leb : A -> A -> bool) (l : list A) : list A :=
  fold_left (fun acc x => insert_by leb x acc) l [].

(** Convex orders a missing value before every number. *)
Definition optZ_leb (a b : option Z) : bool :=
  match a, b with
  | None, _ => true
  | Some _, None => false
  | Some x, Some y => x <=? y
  end.

(** [.take(n)]: the first [n] documents of a query.  The store checks the
    count before it reads anything and refuses a negative one with an
    error of its own.  A count is an integer here; the store refuses a
    fractional one as well. *)
Definition db_take {A} (n : Z) (l : list A) : M (list A) :=
  if n <? 0 then throw StoreFault else ret (firstn (Z.to_nat n) l).

(** *** The request context: identity, rate limiter, clock *)

Inductive RateLimitStatus :=
  | RateOk
  | RateDenied (retryAfter : Z).

Record Ctx := mkCtx {
  authUser : option UserId;
    (** [authComponent.getAuthUser(ctx)], reduced to the user's [_id] *)
  rateLimit : string -> UserId -> RateLimitStatus;
    (** [rateLimiter.limit(ctx, name, {key})] *)
  now : Z
    (** [Date.now()] *)
}.

(* ================================================================= *)
(** ** JavaScript idioms *)

(** Truthiness of an optional string: missing and [""] are falsy. *)
Definition truthy_string (o : option string) : bool :=
  match o with
  | Some s => negb (String.eqb s "")
  | None => false
  end.

(** Truthiness of an optional number: missing and [0] are falsy. *)
Definition truthy_number (o : option Z) : bool :=
  match o with
  | Some n => negb (n =? 0)
  | None => false
  end.

(** Truthiness of an optional array or of an optional non-empty literal:
    only a missing value is falsy. *)
Definition truthy_present {A} (o : option A) : bool :=
  match o with
  | Some _ => true
  | None => false
  end.

(** White space as [String.prototype.trim] sees it, among code units
    below 256: TAB, LF, VT, FF, CR, SPACE and NBSP. *)
Definition is_white_space (c : ascii) : bool :=
  let n := nat_of_ascii c in
  ((9 <=? n)%nat && (n <=? 13)%nat) || (n =? 32)%nat || (n =? 160)%nat.

Fixpoint trim_start (s : string) : string :=
  match s with
  | EmptyString => EmptyString
  | String c s' => if is_white_space c then trim_start s' else s
  end.

Fixpoint string_rev_onto (s acc : string) : string :=
  match s with
  | EmptyString => acc
  | String c s' => string_rev_onto s' (String c acc)
  end.

Definition string_rev (s : string) : string := string_rev_onto s EmptyString.

Definition trim (s : string) : string :=
  string_rev (trim_start (string_rev (trim_start s))).

(** [.length] of a string and of an array, as numbers. *)
Definition str_length (s : string) : Z := Z.of_nat (String.length s).
Definition arr_length {A} (l : list A) : Z := Z.of_nat (length l).

(** [errors.join(sep)] *)
Fixpoint join (sep : string) (l : list string) : string :=
  match l with
  | [] => ""
  | [x] => x
  | x :: l' => String.append x (String.append sep (join sep l'))
  end.

(** *** Addition of numbers

    A number is a binary64 value.  The positions of the tasks are kept
    as integers, and [a + b] on two of them is the exact sum rounded to
    binary64: an integer below 2^53 in magnitude is kept, a larger one is
    rounded to 53 significant bits, to the nearest and on a tie to the
    even significand.  ([binary64_round] leaves out the overflow to
    [Infinity] at 2^1024, which no sum of a binary64 integer and 1
    reaches.) *)

Definition binary64_round (z : Z) : Z :=
  let a := Z.abs z in
  let e := Z.log2 a - 52 in
  if e <=? 0 then z
  else
    let q := a / 2 ^ e in
    let r := a mod 2 ^ e in
    let half := 2 ^ (e - 1) in
    let q' := if (r <? half) || ((r =? half) && Z.even q) then q else q + 1 in
    Z.sgn z * (q' * 2 ^ e).

Definition number_add (a b : Z) : Z := binary64_round (a + b).

(** A patch leaves a field alone when its key is missing. *)
Definition patched {A} (o : option A) (old : A) : A :=
  match o with
  | Some v => v
  | None => old
  end.

Definition patched_opt {A} (o : option A) (old : option A) : option A :=
  match o with
  | Some v => Some v
  | None => old
  end.

(* ================================================================= *)
(** ** Validation helpers ([convex/helpers/validation.ts]) *)

Module Validation.

Definition isValidTaskTitle (title : string) : bool :=
  (str_length (trim title) >? 0) && (str_length title <=? 200).

Definition isValidTaskDescription (description : option string) : bool :=
  if negb (truthy_string description) then true
  else match description with
       | Some d => str_length d <=? 2000
       | None => true
       end.

(** [isValidDueDate(dueDate, allowPast = false)]; [now] is [Date.now()]. *)
Definition isValidDueDate (now : Z) (dueDate : Z) (allowPast : bool) : bool :=
  if negb allowPast && (dueDate <? now) then false else true.

Definition isValidTaskTags (tags : option (list string)) : bool :=
  match tags with
  | None => true
  | Some l =>
      if arr_length l >? 10 then false
      else forallb (fun tag => (str_length (trim tag) >? 0)
                               && (str_length tag <=? 50)) l
  end.

Definition isValidCommentContent (content : string) : bool :=
  (str_length (trim content) >? 0) && (str_length content <=? 1000).

Record TaskInput := mkTaskInput {
  in_title : string;
  in_description : option string;
  in_dueDate : option Z;
  in_tags : option (list string)
}.

Record TaskValidationResult := mkTaskValidationResult {
  valid : bool;
  errors : list string
}.

Definition title_error := "Title must be between 1 and 200 characters".
Definition description_error := "Description must be max 2000 characters".
Definition dueDate_error := "Due date must be in the future".
Definition tags_error := "Tags must be max 50 characters each, max 10 tags".

(** [errors.push] in source order; each [if] contributes its message or
    nothing. *)
Definition validateTaskInput (now : Z) (input : TaskInput)
  : TaskValidationResult :=
  let errors0 : list string := [] in
  let errors1 :=
    if negb (isValidTaskTitle (in_title input))
    then errors0 ++ [title_error] else errors0 in
  let errors2 :=
    if negb (isValidTaskDescription (in_description input))
    then errors1 ++ [description_error] else errors1 in
  let errors3 :=
    if truthy_number (in_dueDate input)
       && negb (match in_dueDate input with
                | Some d => isValidDueDate now d false
                | None => true
                end)
    then errors2 ++ [dueDate_error] else errors2 in
  let errors4 :=
    if negb (isValidTaskTags (in_tags input))
    then errors3 ++ [tags_error] else errors3 in
  mkTaskValidationResult (arr_length errors4 =? 0) errors4.

End Validation.

(* ================================================================= *)
(** ** Record access layer: tasks ([convex/db/tasks.ts]) *)

Module Tasks.

Record CreateTaskArgs := mkCreateTaskArgs {
  c_userId : UserId;
  c_title : string;
  c_description : option string;
  c_status : option TaskStatus;
  c_priority : option TaskPriority;
  c_dueDate : option Z;
  c_position : Z;
  c_tags : option (list string)
}.

Record UpdateTaskArgs := mkUpdateTaskArgs {
  u_title : option string;
  u_description : option string;
  u_status : option TaskStatus;
  u_priority : option TaskPriority;
  u_dueDate : option Z;
  u_completedAt : option Z;
  u_position : option Z;
  u_tags : option (list string)
}.

(** [{...args, updatedAt}] merged into a stored task by [ctx.db.patch]. *)
Definition patch_task (args : UpdateTaskArgs) (updatedAt : Z) (t : Task) : Task :=
  mkTask (task_userId t)
         (patched (u_title args) (task_title t))
         (patched_opt (u_description args) (task_description t))
         (patched (u_status args) (task_status t))
         (patched (u_priority args) (task_priority t))
         (patched_opt (u_dueDate args) (task_dueDate t))
         (patched_opt (u_completedAt args) (task_completedAt t))
         (patched (u_position args) (task_position t))
         (patched_opt (u_tags args) (task_tags t))
         (task_createdAt t)
         updatedAt.

Definition no_update : UpdateTaskArgs :=
  mkUpdateTaskArgs None None None None None None None None.

Definition createTask (ctx : Ctx) (args : CreateTaskArgs) : M Id :=
  let now := now ctx in
  db_insert tasksT
    (mkTask (c_userId args) (c_title args) (c_description args)
            (patched (c_status args) pending)
            (patched (c_priority args) medium)
            (c_dueDate args) None (c_position args) (c_tags args)
            now now).

Definition getTaskById (ctx : Ctx) (id : Id) : M (option Task) :=
  db_get tasksT id.

Definition getTasksByUser (ctx : Ctx) (userId : UserId) : M (list (Id * Task)) :=
  docs <- db_query tasksT ;;
  ret (rev (List.filter (fun d => String.eqb (task_userId (snd d)) userId) docs)).

Definition getTasksByUserAndStatus (ctx : Ctx) (userId : UserId)
    (status : TaskStatus) : M (list (Id * Task)) :=
  docs <- db_query tasksT ;;
  ret (rev (List.filter
              (fun d => String.eqb (task_userId (snd d)) userId
                        && TaskStatus_eqb (task_status (snd d)) status) docs)).

Definition getTasksByUserAndPosition (ctx : Ctx) (userId : UserId)
  : M (list (Id * Task)) :=
  docs <- db_query tasksT ;;
  ret (index_order
         (fun a b => task_position (snd a) <=? task_position (snd b))
         (List.filter (fun d => String.eqb (task_userId (snd d)) userId) docs)).

Definition getTasksByDueDate (ctx : Ctx) (maxDueDate : option Z)
  : M (list (Id * Task)) :=
  docs <- db_query tasksT ;;
  let query :=
    index_order
      (fun a b => optZ_leb (task_dueDate (snd a)) (task_dueDate (snd b)))
      docs in
  if truthy_number maxDueDate then
    ret (List.filter
           (fun d => match task_dueDate (snd d), maxDueDate with
                     | Some due, Some m => due <=? m
                     | _, _ => false
                     end) query)
  else
    ret (List.filter (fun d => truthy_present (task_dueDate (snd d))) query).

Definition getOverdueTasksByUser (ctx : Ctx) (userId : UserId)
    (currentTime : Z) : M (list (Id * Task)) :=
  allTasks <- getTasksByUser ctx userId ;;
  ret (List.filter
         (fun d => truthy_number (task_dueDate (snd d))
                   && match task_dueDate (snd d) with
                      | Some due => due <? currentTime
                      | None => false
                      end
                   && negb (TaskStatus_eqb (task_status (snd d)) completed))
         allTasks).

Definition getTaskCountByUserAndStatus (ctx : Ctx) (userId : UserId)
    (status : TaskStatus) : M Z :=
  tasks <- getTasksByUserAndStatus ctx userId status ;;
  ret (arr_length tasks).

(** [Math.max(...xs)] of a non-empty array [x :: xs]. *)
Definition math_max (x : Z) (xs : list Z) : Z := fold_left Z.max xs x.

Definition getMaxPositionForUser (ctx : Ctx) (userId : UserId) : M Z :=
  tasks <- getTasksByUser ctx userId ;;
  match map (fun d => task_position (snd d)) tasks with
  | [] => ret 0
  | p :: ps => ret (math_max p ps)
  end.

Definition updateTask (ctx : Ctx) (id : Id) (args : UpdateTaskArgs) : M unit :=
  db_patch tasksT id (patch_task args (now ctx)).

Definition completeTask (ctx : Ctx) (id : Id) : M unit :=
  db_patch tasksT id
    (patch_task
       (mkUpdateTaskArgs None None (Some completed) None None
                         (Some (now ctx)) None None)
       (now ctx)).

Definition updateTaskPosition (ctx : Ctx) (id : Id) (newPosition : Z) : M unit :=
  db_patch tasksT id
    (patch_task
       (mkUpdateTaskArgs None None None None None None (Some newPosition) None)
       (now ctx)).

Definition batchUpdateTaskPositions (ctx : Ctx) (updates : list (Id * Z))
  : M unit :=
  let now := now ctx in
  promise_all
    (map (fun update =>
            db_patch tasksT (fst update)
              (patch_task
                 (mkUpdateTaskArgs None None None None None None
                                   (Some (snd update)) None)
                 now))
         updates) ;;;
  ret tt.

Definition deleteTask (ctx : Ctx) (id : Id) : M unit :=
  db_delete tasksT id.

Definition deleteCompletedTasksByUser (ctx : Ctx) (userId : UserId) : M Z :=
  completedTasks <- getTasksByUserAndStatus ctx userId completed ;;
  promise_all (map (fun task => db_delete tasksT (fst task)) completedTasks) ;;;
  ret (arr_length completedTasks).

End Tasks.

(* ================================================================= *)
(** ** Record access layer: comments ([convex/db/taskComments.ts]) *)

Module TaskComments.

Record CreateTaskCommentArgs := mkCreateTaskCommentArgs {
  c_taskId : Id;
  c_userId : UserId;
  c_content : string
}.

Definition createTaskComment (ctx : Ctx) (args : CreateTaskCommentArgs) : M Id :=
  let now := now ctx in
  db_insert taskCommentsT
    (mkTaskComment (c_taskId args) (c_userId args) (c_content args) now now).

Definition getTaskCommentById (ctx : Ctx) (id : Id) : M (option TaskComment) :=
  db_get taskCommentsT id.

Definition getTaskCommentsByTask (ctx : Ctx) (taskId : Id)
  : M (list (Id * TaskComment)) :=
  docs <- db_query taskCommentsT ;;
  ret (rev (List.filter (fun d => Nat.eqb (comment_taskId (snd d)) taskId) docs)).

Definition getTaskCommentsByUser (ctx : Ctx) (userId : UserId)
  : M (list (Id * TaskComment)) :=
  docs <- db_query taskCommentsT ;;
  ret (rev (List.filter (fun d => String.eqb (comment_userId (snd d)) userId) docs)).

Definition getTaskCommentCount (ctx : Ctx) (taskId : Id) : M Z :=
  comments <- getTaskCommentsByTask ctx taskId ;;
  ret (arr_length comments).

(** [UpdateTaskCommentArgs] has the single field [content]. *)
Definition updateTaskComment (ctx : Ctx) (id : Id) (content : string) : M unit :=
  db_patch taskCommentsT id
    (fun c => mkTaskComment (comment_taskId c) (comment_userId c) content
                            (comment_createdAt c) (now ctx)).

Definition deleteTaskComment (ctx : Ctx) (id : Id) : M unit :=
  db_delete taskCommentsT id.

Definition deleteTaskCommentsByTask (ctx : Ctx) (taskId : Id) : M Z :=
  comments <- getTaskCommentsByTask ctx taskId ;;
  promise_all
    (map (fun comment => db_delete taskCommentsT (fst comment)) comments) ;;;
  ret (arr_length comments).

End TaskComments.

(* ================================================================= *)
(** ** Record access layer: audit trail ([convex/db/taskActivity.ts]) *)

Module TaskActivity.

Record CreateTaskActivityArgs := mkCreateTaskActivityArgs {
  c_taskId : Id;
  c_userId : UserId;
  c_action : TaskActivityAction;
  c_changes : option Changes
}.

Definition createTaskActivity (ctx : Ctx) (args : CreateTaskActivityArgs) : M Id :=
  db_insert taskActivityT
    (mkTaskActivity (c_taskId args) (c_userId args) (c_action args)
                    (c_changes args) (now ctx)).

Definition getTaskActivityById (ctx : Ctx) (id : Id)
  : M (option TaskActivityDoc) :=
  db_get taskActivityT id.

Definition getTaskActivityByTask (ctx : Ctx) (taskId : Id)
  : M (list (Id * TaskActivityDoc)) :=
  docs <- db_query taskActivityT ;;
  ret (rev (List.filter (fun d => Nat.eqb (activity_taskId (snd d)) taskId) docs)).

Definition getTaskActivityByUser (ctx : Ctx) (userId : UserId)
  : M (list (Id * TaskActivityDoc)) :=
  docs <- db_query taskActivityT ;;
  ret (rev (List.filter (fun d => String.eqb (activity_userId (snd d)) userId) docs)).

Definition getTaskActivityByTaskAndTime (ctx : Ctx) (taskId : Id)
    (limit : option Z) : M (list (Id * TaskActivityDoc)) :=
  docs <- db_query taskActivityT ;;
  let query :=
    rev (index_order
           (fun a b => activity_createdAt (snd a) <=? activity_createdAt (snd b))
           (List.filter (fun d => Nat.eqb (activity_taskId (snd d)) taskId) docs)) in
  if truthy_number limit then
    match limit with
    | Some n => db_take n query
    | None => ret query
    end
  else ret query.

(** [limit: number = 20]: a missing argument takes the default. *)
Definition getRecentActivityByUser (ctx : Ctx) (userId : UserId)
    (limit : option Z) : M (list (Id * TaskActivityDoc)) :=
  let limit := patched limit 20 in
  docs <- db_query taskActivityT ;;
  db_take limit
    (rev (List.filter
            (fun d => String.eqb (activity_userId (snd d)) userId) docs)).

Definition deleteTaskActivity (ctx : Ctx) (id : Id) : M unit :=
  db_delete taskActivityT id.

Definition deleteTaskActivityByTask (ctx : Ctx) (taskId : Id) : M Z :=
  activities <- getTaskActivityByTask ctx taskId ;;
  promise_all
    (map (fun activity => db_delete taskActivityT (fst activity)) activities) ;;;
  ret (arr_length activities).

End TaskActivity.

(* ================================================================= *)
(** ** Record access layer: preferences ([convex/db/userPreferences.ts]) *)

Module UserPreferences.

Record CreateUserPreferencesArgs := mkCreateUserPreferencesArgs {
  c_userId : UserId;
  c_theme : option Theme;
  c_defaultView : option DefaultView;
  c_sortBy : option SortBy;
  c_sortOrder : option SortOrder;
  c_showCompletedTasks : option bool;
  c_notificationsEnabled : option bool
}.

Record UpdateUserPreferencesArgs := mkUpdateUserPreferencesArgs {
  u_theme : option Theme;
  u_defaultView : option DefaultView;
  u_sortBy : option SortBy;
  u_sortOrder : option SortOrder;
  u_showCompletedTasks : option bool;
  u_notificationsEnabled : option bool
}.

Definition patch_preferences (args : UpdateUserPreferencesArgs)
    (updatedAt : Z) (p : UserPreferencesDoc) : UserPreferencesDoc :=
  mkUserPreferences (pref_userId p)
    (patched (u_theme args) (pref_theme p))
    (patched (u_defaultView args) (pref_defaultView p))
    (patched (u_sortBy args) (pref_sortBy p))
    (patched (u_sortOrder args) (pref_sortOrder p))
    (patched (u_showCompletedTasks args) (pref_showCompletedTasks p))
    (patched (u_notificationsEnabled args) (pref_notificationsEnabled p))
    (pref_createdAt p)
    updatedAt.

Definition createUserPreferences (ctx : Ctx)
    (args : CreateUserPreferencesArgs) : M Id :=
  let now := now ctx in
  db_insert userPreferencesT
    (mkUserPreferences (c_userId args)
       (patched (c_theme args) system)
       (patched (c_defaultView args) view_list)
       (patched (c_sortBy args) by_position)
       (patched (c_sortOrder args) asc)
       (patched (c_showCompletedTasks args) false)
       (patched (c_notificationsEnabled args) true)
       now now).

Definition getUserPreferencesById (ctx : Ctx) (id : Id)
  : M (option UserPreferencesDoc) :=
  db_get userPreferencesT id.

(** [.first()] *)
Definition getUserPreferencesByUser (ctx : Ctx) (userId : UserId)
  : M (option (Id * UserPreferencesDoc)) :=
  docs <- db_query userPreferencesT ;;
  ret (head (List.filter (fun d => String.eqb (pref_userId (snd d)) userId) docs)).

(** The source ends with [return preferences!]; the assertion is erased
    at run time, so the function returns whatever [ctx.db.get] gave. *)
Definition getOrCreateUserPreferences (ctx : Ctx) (userId : UserId)
  : M (option (Id * UserPreferencesDoc)) :=
  docs <- db_query userPreferencesT ;;
  match head (List.filter (fun d => String.eqb (pref_userId (snd d)) userId) docs) with
  | Some existing => ret (Some existing)
  | None =>
      preferencesId <-
        createUserPreferences ctx
          (mkCreateUserPreferencesArgs userId None None None None None None) ;;
      preferences <- db_get userPreferencesT preferencesId ;;
      ret (option_map (fun p => (preferencesId, p)) preferences)
  end.

Definition updateUserPreferences (ctx : Ctx) (id : Id)
    (args : UpdateUserPreferencesArgs) : M unit :=
  db_patch userPreferencesT id (patch_preferences args (now ctx)).

Definition updateUserPreferencesByUser (ctx : Ctx) (userId : UserId)
    (args : UpdateUserPreferencesArgs) : M unit :=
  preferences <- getUserPreferencesByUser ctx userId ;;
  match preferences with
  | None => throw (Err "User preferences not found")
  | Some p => updateUserPreferences ctx (fst p) args
  end.

Definition deleteUserPreferences (ctx : Ctx) (id : Id) : M unit :=
  db_delete userPreferencesT id.

End UserPreferences.

(* ================================================================= *)
(** ** Record access layer: threads ([convex/db/threads.ts]) *)

Module Threads.

Record CreateThreadArgs := mkCreateThreadArgs {
  c_userId : UserId;
  c_title : option string;
  c_status : option ThreadStatus
}.

Record UpdateThreadArgs := mkUpdateThreadArgs {
  u_title : option string;
  u_status : option ThreadStatus;
  u_lastMessageAt : option Z
}.

Definition patch_thread (args : UpdateThreadArgs) (updatedAt : Z)
    (t : Thread) : Thread :=
  mkThread (thread_userId t)
    (patched_opt (u_title args) (thread_title t))
    (patched (u_status args) (thread_status t))
    (patched_opt (u_lastMessageAt args) (thread_lastMessageAt t))
    (thread_createdAt t)
    updatedAt.

Definition createThread (ctx : Ctx) (args : CreateThreadArgs) : M Id :=
  let now := now ctx in
  db_insert threadsT
    (mkThread (c_userId args) (c_title args)
              (patched (c_status args) active) None now now).

Definition getThreadById (ctx : Ctx) (id : Id) : M (option Thread) :=
  db_get threadsT id.

Definition getThreadsByUser (ctx : Ctx) (userId : UserId)
  : M (list (Id * Thread)) :=
  docs <- db_query threadsT ;;
  ret (rev (List.filter (fun d => String.eqb (thread_userId (snd d)) userId) docs)).

Definition getThreadsByUserAndStatus (ctx : Ctx) (userId : UserId)
    (status : ThreadStatus) : M (list (Id * Thread)) :=
  docs <- db_query threadsT ;;
  ret (rev (List.filter
              (fun d => String.eqb (thread_userId (snd d)) userId
                        && ThreadStatus_eqb (thread_status (snd d)) status) docs)).

Definition getActiveThreadsByUser (ctx : Ctx) (userId : UserId)
  : M (list (Id * Thread)) :=
  getThreadsByUserAndStatus ctx userId active.

Definition getThreadsByUserOrderedByLastMessage (ctx : Ctx) (userId : UserId)
  : M (list (Id * Thread)) :=
  docs <- db_query threadsT ;;
  ret (rev (index_order
              (fun a b => optZ_leb (thread_lastMessageAt (snd a))
                                   (thread_lastMessageAt (snd b)))
              (List.filter (fun d => String.eqb (thread_userId (snd d)) userId) docs))).

(** [limit: number = 10] *)
Definition getRecentThreadsByUser (ctx : Ctx) (userId : UserId)
    (limit : option Z) : M (list (Id * Thread)) :=
  let limit := patched limit 10 in
  docs <- db_query threadsT ;;
  db_take limit
    (rev (index_order
            (fun a b => optZ_leb (thread_lastMessageAt (snd a))
                                 (thread_lastMessageAt (snd b)))
            (List.filter
               (fun d => String.eqb (thread_userId (snd d)) userId) docs))).

Definition updateThread (ctx : Ctx) (id : Id) (args : UpdateThreadArgs) : M unit :=
  db_patch threadsT id (patch_thread args (now ctx)).

Definition updateThreadLastMessage (ctx : Ctx) (id : Id) (lastMessageAt : Z)
  : M unit :=
  db_patch threadsT id
    (patch_thread (mkUpdateThreadArgs None None (Some lastMessageAt)) (now ctx)).

Definition archiveThread (ctx : Ctx) (id : Id) : M unit :=
  db_patch threadsT id
    (patch_thread (mkUpdateThreadArgs None (Some archived) None) (now ctx)).

Definition deleteThread (ctx : Ctx) (id : Id) : M unit :=
  db_delete threadsT id.

End Threads.

(* ================================================================= *)
(** ** Record access layer: messages ([convex/db/messages.ts]) *)

Module Messages.

Record CreateMessageArgs := mkCreateMessageArgs {
  c_threadId : Id;
  c_userId : UserId;
  c_role : MessageRole;
  c_content : string;
  c_metadata : option string
}.

Definition createMessage (ctx : Ctx) (args : CreateMessageArgs) : M Id :=
  db_insert messagesT
    (mkMessage (c_threadId args) (c_userId args) (c_role args)
               (c_content args) (c_metadata args) (now ctx)).

Definition getMessageById (ctx : Ctx) (id : Id) : M (option Message) :=
  db_get messagesT id.

Definition getMessagesByThread (ctx : Ctx) (threadId : Id)
  : M (list (Id * Message)) :=
  docs <- db_query messagesT ;;
  ret (List.filter (fun d => Nat.eqb (message_threadId (snd d)) threadId) docs).

Definition getMessagesByThreadOrdered (ctx : Ctx) (threadId : Id)
  : M (list (Id * Message)) :=
  docs <- db_query messagesT ;;
  ret (index_order
         (fun a b => message_createdAt (snd a) <=? message_createdAt (snd b))
         (List.filter (fun d => Nat.eqb (message_threadId (snd d)) threadId) docs)).

(** [limit: number = 50] *)
Definition getRecentMessagesByThread (ctx : Ctx) (threadId : Id)
    (limit : option Z) : M (list (Id * Message)) :=
  let limit := patched limit 50 in
  docs <- db_query messagesT ;;
  db_take limit
    (rev (index_order
            (fun a b => message_createdAt (snd a) <=? message_createdAt (snd b))
            (List.filter
               (fun d => Nat.eqb (message_threadId (snd d)) threadId) docs))).

Definition getMessageCountByThread (ctx : Ctx) (threadId : Id) : M Z :=
  messages <- getMessagesByThread ctx threadId ;;
  ret (arr_length messages).

Definition deleteMessage (ctx : Ctx) (id : Id) : M unit :=
  db_delete messagesT id.

Definition deleteMessagesByThread (ctx : Ctx) (threadId : Id) : M Z :=
  messages <- getMessagesByThread ctx threadId ;;
  promise_all
    (map (fun message => db_delete messagesT (fst message)) messages) ;;;
  ret (arr_length messages).

End Messages.

(* ================================================================= *)
(** ** Endpoint layer: task mutations ([convex/endpoints/tasks.ts]) *)

Module TasksEndpoint.

Record CreateArgs := mkCreateArgs {
  c_title : string;
  c_description : option string;
  c_priority : option TaskPriority;
  c_dueDate : option Z;
  c_tags : option (list string)
}.

Record UpdateArgs := mkUpdateArgs {
  u_id : Id;
  u_title : option string;
  u_description : option string;
  u_status : option TaskStatus;
  u_priority : option TaskPriority;
  u_dueDate : option Z;
  u_tags : option (list string)
}.

(** [const changes: any = {}] with its two possible keys. *)
Record ChangeSet := mkChangeSet {
  ch_status : option Changes;
  ch_priority : option Changes
}.

(** [args.status === "completed"] *)
Definition is_completed_arg (status : option TaskStatus) : bool :=
  match status with
  | Some st => TaskStatus_eqb st completed
  | None => false
  end.

Definition create (ctx : Ctx) (args : CreateArgs) : M Id :=
  match authUser ctx with
  | None => throw (Err "Not authenticated")
  | Some authUser =>
  (* Rate limiting *)
  match rateLimit ctx "createTask" authUser with
  | RateDenied retryAfter => throw (ErrRateLimit retryAfter)
  | RateOk =>
  (* Validation *)
  let validation :=
    Validation.validateTaskInput (now ctx)
      (Validation.mkTaskInput (c_title args) (c_description args)
                              (c_dueDate args) (c_tags args)) in
  if negb (Validation.valid validation)
  then throw (Err (join ", " (Validation.errors validation)))
  else
  (* Get next position *)
  maxPosition <- Tasks.getMaxPositionForUser ctx authUser ;;
  (* Create task *)
  taskId <- Tasks.createTask ctx
              (Tasks.mkCreateTaskArgs authUser (c_title args)
                 (c_description args) None (c_priority args)
                 (c_dueDate args) (number_add maxPosition 1) (c_tags args)) ;;
  (* Log activity *)
  TaskActivity.createTaskActivity ctx
    (TaskActivity.mkCreateTaskActivityArgs taskId authUser created None) ;;;
  ret taskId
  end end.

Definition update (ctx : Ctx) (args : UpdateArgs) : M Id :=
  match authUser ctx with
  | None => throw (Err "Not authenticated")
  | Some authUser =>
  (* Rate limiting *)
  match rateLimit ctx "updateTask" authUser with
  | RateDenied retryAfter => throw (ErrRateLimit retryAfter)
  | RateOk =>
  (* Verify ownership *)
  task <- Tasks.getTaskById ctx (u_id args) ;;
  match task with
  | None => throw (Err "Task not found")
  | Some task =>
  if negb (String.eqb (task_userId task) authUser)
  then throw (Err "Not authorized to update this task")
  else
  (* Validation *)
  (if truthy_string (u_title args) || truthy_string (u_description args)
      || truthy_number (u_dueDate args) || truthy_present (u_tags args)
   then
     let validation :=
       Validation.validateTaskInput (now ctx)
         (Validation.mkTaskInput
            (if truthy_string (u_title args)
             then patched (u_title args) (task_title task)
             else task_title task)
            (u_description args) (u_dueDate args) (u_tags args)) in
     if negb (Validation.valid validation)
     then throw (Err (join ", " (Validation.errors validation)))
     else ret tt
   else ret tt) ;;;
  (* Track changes for activity log *)
  let changes :=
    mkChangeSet
      (match u_status args with
       | Some st => if negb (TaskStatus_eqb st (task_status task))
                    then Some (StatusChange (task_status task) st) else None
       | None => None
       end)
      (match u_priority args with
       | Some pr => if negb (TaskPriority_eqb pr (task_priority task))
                    then Some (PriorityChange (task_priority task) pr) else None
       | None => None
       end) in
  (* Update task *)
  let id := u_id args in
  let updateData :=
    Tasks.mkUpdateTaskArgs (u_title args) (u_description args)
      (u_status args) (u_priority args) (u_dueDate args)
      (if is_completed_arg (u_status args)
          && negb (TaskStatus_eqb (task_status task) completed)
       then Some (now ctx) else None)
      None (u_tags args) in
  Tasks.updateTask ctx id updateData ;;;
  (* Log activity *)
  (if is_completed_arg (u_status args) then
     TaskActivity.createTaskActivity ctx
       (TaskActivity.mkCreateTaskActivityArgs id authUser action_completed None)
   else match ch_status changes with
   | Some c =>
     TaskActivity.createTaskActivity ctx
       (TaskActivity.mkCreateTaskActivityArgs id authUser status_changed (Some c))
   | None =>
   match ch_priority changes with
   | Some c =>
     TaskActivity.createTaskActivity ctx
       (TaskActivity.mkCreateTaskActivityArgs id authUser priority_changed (Some c))
   | None =>
     TaskActivity.createTaskActivity ctx
       (TaskActivity.mkCreateTaskActivityArgs id authUser updated None)
   end end) ;;;
  ret id
  end end end.

Definition complete (ctx : Ctx) (id : Id) : M Id :=
  match authUser ctx with
  | None => throw (Err "Not authenticated")
  | Some authUser =>
  match rateLimit ctx "updateTask" authUser with
  | RateDenied retryAfter => throw (ErrRateLimit retryAfter)
  | RateOk =>
  (* Verify ownership *)
  task <- Tasks.getTaskById ctx id ;;
  match task with
  | None => throw (Err "Task not found")
  | Some task =>
  if negb (String.eqb (task_userId task) authUser)
  then throw (Err "Not authorized to complete this task")
  else
  (* Complete task *)
  Tasks.completeTask ctx id ;;;
  (* Log activity *)
  TaskActivity.createTaskActivity ctx
    (TaskActivity.mkCreateTaskActivityArgs id authUser action_completed None) ;;;
  ret id
  end end end.

(** The [for ... of] loop of [reorder] that checks every update. *)
Fixpoint verify_ownership (ctx : Ctx) (authUser : UserId)
    (updates : list (Id * Z)) : M unit :=
  match updates with
  | [] => ret tt
  | update :: rest =>
      task <- Tasks.getTaskById ctx (fst update) ;;
      match task with
      | None => throw (ErrTaskNotFound (fst update))
      | Some task =>
          if negb (String.eqb (task_userId task) authUser)
          then throw (ErrReorderUnauthorized (fst update))
          else verify_ownership ctx authUser rest
      end
  end.

(** Returns [{ success: true }], rendered as [true]. *)
Definition reorder (ctx : Ctx) (updates : list (Id * Z)) : M bool :=
  match authUser ctx with
  | None => throw (Err "Not authenticated")
  | Some authUser =>
  match rateLimit ctx "batchUpdatePositions" authUser with
  | RateDenied retryAfter => throw (ErrRateLimit retryAfter)
  | RateOk =>
  (* Verify ownership of all tasks *)
  verify_ownership ctx authUser updates ;;;
  (* Batch update positions *)
  Tasks.batchUpdateTaskPositions ctx updates ;;;
  ret true
  end end.

(** Returns [{ success: true }], rendered as [true]. *)
Definition remove (ctx : Ctx) (id : Id) : M bool :=
  match authUser ctx with
  | None => throw (Err "Not authenticated")
  | Some authUser =>
  match rateLimit ctx "deleteTask" authUser with
  | RateDenied retryAfter => throw (ErrRateLimit retryAfter)
  | RateOk =>
  (* Verify ownership *)
  task <- Tasks.getTaskById ctx id ;;
  match task with
  | None => throw (Err "Task not found")
  | Some task =>
  if negb (String.eqb (task_userId task) authUser)
  then throw (Err "Not authorized to delete this task")
  else
  (* Log activity before deletion *)
  TaskActivity.createTaskActivity ctx
    (TaskActivity.mkCreateTaskActivityArgs id authUser deleted None) ;;;
  (* Delete task *)
  Tasks.deleteTask ctx id ;;;
  ret true
  end end end.

(** Returns [{ deletedCount }]. *)
Definition deleteCompleted (ctx : Ctx) : M Z :=
  match authUser ctx with
  | None => throw (Err "Not authenticated")
  | Some authUser =>
  match rateLimit ctx "deleteTask" authUser with
  | RateDenied retryAfter => throw (ErrRateLimit retryAfter)
  | RateOk =>
  deletedCount <- Tasks.deleteCompletedTasksByUser ctx authUser ;;
  ret deletedCount
  end end.

End TasksEndpoint.

(* ================================================================= *)
(** ** Endpoint layer: comment mutations ([convex/endpoints/comments.ts]) *)

Module CommentsEndpoint.

Definition content_error :=
  "Comment content must be between 1 and 1000 characters".

Definition create (ctx : Ctx) (taskId : Id) (content : string) : M Id :=
  match authUser ctx with
  | None => throw (Err "Not authenticated")
  | Some authUser =>
  match rateLimit ctx "createComment" authUser with
  | RateDenied retryAfter => throw (ErrRateLimit retryAfter)
  | RateOk =>
  (* Verify user owns the task *)
  task <- Tasks.getTaskById ctx taskId ;;
  match task with
  | None => throw (Err "Task not found")
  | Some task =>
  if negb (String.eqb (task_userId task) authUser)
  then throw (Err "Not authorized to comment on this task")
  else
  (* Validation *)
  if negb (Validation.isValidCommentContent content)
  then throw (Err content_error)
  else
  (* Create comment *)
  commentId <- TaskComments.createTaskComment ctx
                 (TaskComments.mkCreateTaskCommentArgs taskId authUser content) ;;
  ret commentId
  end end end.

Definition update (ctx : Ctx) (id : Id) (content : string) : M Id :=
  match authUser ctx with
  | None => throw (Err "Not authenticated")
  | Some authUser =>
  match rateLimit ctx "updateComment" authUser with
  | RateDenied retryAfter => throw (ErrRateLimit retryAfter)
  | RateOk =>
  (* Verify ownership *)
  comment <- TaskComments.getTaskCommentById ctx id ;;
  match comment with
  | None => throw (Err "Comment not found")
  | Some comment =>
  if negb (String.eqb (comment_userId comment) authUser)
  then throw (Err "Not authorized to update this comment")
  else
  (* Validation *)
  if negb (Validation.isValidCommentContent content)
  then throw (Err content_error)
  else
  (* Update comment *)
  TaskComments.updateTaskComment ctx id content ;;;
  ret id
  end end end.

(** Returns [{ success: true }], rendered as [true]. *)
Definition remove (ctx : Ctx) (id : Id) : M bool :=
  match authUser ctx with
  | None => throw (Err "Not authenticated")
  | Some authUser =>
  match rateLimit ctx "deleteComment" authUser with
  | RateDenied retryAfter => throw (ErrRateLimit retryAfter)
  | RateOk =>
  (* Verify ownership *)
  comment <- TaskComments.getTaskCommentById ctx id ;;
  match comment with
  | None => throw (Err "Comment not found")
  | Some comment =>
  if negb (String.eqb (comment_userId comment) authUser)
  then throw (Err "Not authorized to delete this comment")
  else
  (* Delete comment *)
  TaskComments.deleteTaskComment ctx id ;;;
  ret true
  end end end.

End CommentsEndpoint.

(* ================================================================= *)
(** ** Vocabulary of the properties *)

(** The outcome of a call, with the value it returned forgotten. *)
Definition failure {A} (r : Result A) : option Error :=
  match r with
  | inl e => Some e
  | inr _ => None
  end.

(** The "not authorized" failures of the endpoint layer. *)
Definition is_unauthorized (e : Error) : bool :=
  match e with
  | Err msg =>
      String.eqb msg "Not authorized to update this task"
      || String.eqb msg "Not authorized to complete this task"
      || String.eqb msg "Not authorized to delete this task"
      || String.eqb msg "Not authorized to comment on this task"
      || String.eqb msg "Not authorized to update this comment"
      || String.eqb msg "Not authorized to delete this comment"
  | ErrReorderUnauthorized _ => true
  | _ => false
  end.

(** The mutations that target one existing record. *)
Inductive Mutation :=
  | TaskUpdate (args : TasksEndpoint.UpdateArgs)
  | TaskComplete (id : Id)
  | TaskRemove (id : Id)
  | CommentCreate (taskId : Id) (content : string)
  | CommentUpdate (id : Id) (content : string)
  | CommentRemove (id : Id).

Definition outcome {A} (m : M A) (s : Store) : option Error * Store :=
  (failure (fst (m s)), snd (m s)).

Definition run_mutation (ctx : Ctx) (op : Mutation) (s : Store)
  : option Error * Store :=
  match op with
  | TaskUpdate args => outcome (TasksEndpoint.update ctx args) s
  | TaskComplete id => outcome (TasksEndpoint.complete ctx id) s
  | TaskRemove id => outcome (TasksEndpoint.remove ctx id) s
  | CommentCreate taskId content =>
      outcome (CommentsEndpoint.create ctx taskId content) s
  | CommentUpdate id content => outcome (CommentsEndpoint.update ctx id content) s
  | CommentRemove id => outcome (CommentsEndpoint.remove ctx id) s
  end.

(** The named bucket each mutation hands to the rate limiter. *)
Definition bucket (op : Mutation) : string :=
  match op with
  | TaskUpdate _ | TaskComplete _ => "updateTask"
  | TaskRemove _ => "deleteTask"
  | CommentCreate _ _ => "createComment"
  | CommentUpdate _ _ => "updateComment"
  | CommentRemove _ => "deleteComment"
  end.

(** The owner of the record a mutation references, when it exists. *)
Definition target_owner (s : Store) (op : Mutation) : option UserId :=
  match op with
  | TaskUpdate args =>
      option_map task_userId (table_get (tasks s) (TasksEndpoint.u_id args))
  | TaskComplete id | TaskRemove id | CommentCreate id _ =>
      option_map task_userId (table_get (tasks s) id)
  | CommentUpdate id _ | CommentRemove id =>
      option_map comment_userId (table_get (taskComments s) id)
  end.

(** The ownership check as the specification words it: no mention of
    the rate limiter. *)
Definition ownership_check_unconditional : Prop :=
  forall (ctx : Ctx) (u owner : UserId) (op : Mutation) (s : Store),
    authUser ctx = Some u ->
    target_owner s op = Some owner ->
    owner <> u ->
    exists e, run_mutation ctx op s = (Some e, s) /\ is_unauthorized e = true.

(** The data-model invariant on one task. *)
Definition completion_invariant (t : Task) : Prop :=
  task_completedAt t <> None <-> task_status t = completed.

(** [u] owns no task of [s]. *)
Definition owns_no_task (s : Store) (u : UserId) : Prop :=
  forall id t, table_get (tasks s) id = Some t -> task_userId t <> u.

(** [m] is the largest position among the tasks of [u] in [s]. *)
Definition is_max_position (s : Store) (u : UserId) (m : Z) : Prop :=
  (exists id t, table_get (tasks s) id = Some t
                /\ task_userId t = u /\ task_position t = m)
  /\ (forall id t, table_get (tasks s) id = Some t ->
                   task_userId t = u -> task_position t <= m).

(** The position rule of [create] as the specification words it. *)
Definition create_position_claim : Prop :=
  forall (ctx : Ctx) (args : TasksEndpoint.CreateArgs) (s s' : Store)
         (taskId : Id),
    TasksEndpoint.create ctx args s = (inr taskId, s') ->
    exists u t,
      authUser ctx = Some u
      /\ table_get (tasks s) taskId = None
      /\ table_get (tasks s') taskId = Some t
      /\ task_userId t = u
      /\ ((owns_no_task s u /\ task_position t = 1)
          \/ (exists m, is_max_position s u m /\ task_position t = m + 1)).

(** A reorder entry whose task is missing or is not the caller's. *)
Definition not_owned (ctx : Ctx) (s : Store) (update : Id * Z) : Prop :=
  match table_get (tasks s) (fst update) with
  | None => True
  | Some t => authUser ctx <> Some (task_userId t)
  end.

(** One call of a function of the record-access layer: a constructor per
    exported function of [convex/db/*.ts], with its arguments. *)
Inductive DbCall :=
  (* tasks.ts *)
  | Call_createTask (args : Tasks.CreateTaskArgs)
  | Call_getTaskById (id : Id)
  | Call_getTasksByUser (userId : UserId)
  | Call_getTasksByUserAndStatus (userId : UserId) (status : TaskStatus)
  | Call_getTasksByUserAndPosition (userId : UserId)
  | Call_getTasksByDueDate (maxDueDate : option Z)
  | Call_getOverdueTasksByUser (userId : UserId) (currentTime : Z)
  | Call_getTaskCountByUserAndStatus (userId : UserId) (status : TaskStatus)
  | Call_getMaxPositionForUser (userId : UserId)
  | Call_updateTask (id : Id) (args : Tasks.UpdateTaskArgs)
  | Call_completeTask (id : Id)
  | Call_updateTaskPosition (id : Id) (newPosition : Z)
  | Call_batchUpdateTaskPositions (updates : list (Id * Z))
  | Call_deleteTask (id : Id)
  | Call_deleteCompletedTasksByUser (userId : UserId)
  (* taskComments.ts *)
  | Call_createTaskComment (args : TaskComments.CreateTaskCommentArgs)
  | Call_getTaskCommentById (id : Id)
  | Call_getTaskCommentsByTask (taskId : Id)
  | Call_getTaskCommentsByUser (userId : UserId)
  | Call_getTaskCommentCount (taskId : Id)
  | Call_updateTaskComment (id : Id) (content : string)
  | Call_deleteTaskComment (id : Id)
  | Call_deleteTaskCommentsByTask (taskId : Id)
  (* taskActivity.ts *)
  | Call_createTaskActivity (args : TaskActivity.CreateTaskActivityArgs)
  | Call_getTaskActivityById (id : Id)
  | Call_getTaskActivityByTask (taskId : Id)
  | Call_getTaskActivityByUser (userId : UserId)
  | Call_getTaskActivityByTaskAndTime (taskId : Id) (limit : option Z)
  | Call_getRecentActivityByUser (userId : UserId) (limit : option Z)
  | Call_deleteTaskActivity (id : Id)
  | Call_deleteTaskActivityByTask (taskId : Id)
  (* userPreferences.ts *)
  | Call_createUserPreferences (args : UserPreferences.CreateUserPreferencesArgs)
  | Call_getUserPreferencesById (id : Id)
  | Call_getUserPreferencesByUser (userId : UserId)
  | Call_getOrCreateUserPreferences (userId : UserId)
  | Call_updateUserPreferences (id : Id)
      (args : UserPreferences.UpdateUserPreferencesArgs)
  | Call_updateUserPreferencesByUser (userId : UserId)
      (args : UserPreferences.UpdateUserPreferencesArgs)
  | Call_deleteUserPreferences (id : Id)
  (* threads.ts *)
  | Call_createThread (args : Threads.CreateThreadArgs)
  | Call_getThreadById (id : Id)
  | Call_getThreadsByUser (userId : UserId)
  | Call_getThreadsByUserAndStatus (userId : UserId) (status : ThreadStatus)
  | Call_getActiveThreadsByUser (userId : UserId)
  | Call_getThreadsByUserOrderedByLastMessage (userId : UserId)
  | Call_getRecentThreadsByUser (userId : UserId) (limit : option Z)
  | Call_updateThread (id : Id) (args : Threads.UpdateThreadArgs)
  | Call_updateThreadLastMessage (id : Id) (lastMessageAt : Z)
  | Call_archiveThread (id : Id)
  | Call_deleteThread (id : Id)
  (* messages.ts *)
  | Call_createMessage (args : Messages.CreateMessageArgs)
  | Call_getMessageById (id : Id)
  | Call_getMessagesByThread (threadId : Id)
  | Call_getMessagesByThreadOrdered (threadId : Id)
  | Call_getRecentMessagesByThread (threadId : Id) (limit : option Z)
  | Call_getMessageCountByThread (threadId : Id)
  | Call_deleteMessage (id : Id)
  | Call_deleteMessagesByThread (threadId : Id).

(** The value a call of the record-access layer returns, reduced to its
    shape. *)
Inductive DbValue :=
  | V_id (id : Id)           (** the id of the document just inserted *)
  | V_null                   (** [null] *)
  | V_doc (id : Id)          (** the document stored under [id] *)
  | V_docs (ids : list Id)   (** an array of documents *)
  | V_number (n : Z)         (** a count, or a position *)
  | V_void                   (** nothing: the result of a patch or delete *).

Definition shape_of_get {A} (id : Id) (o : option A) : DbValue :=
  match o with
  | Some _ => V_doc id
  | None => V_null
  end.

Definition shape_of_first {A} (o : option (Id * A)) : DbValue :=
  match o with
  | Some d => V_doc (fst d)
  | None => V_null
  end.

Definition shape_of_docs {A} (l : list (Id * A)) : DbValue :=
  V_docs (map fst l).

Definition returning {A} (f : A -> DbValue) (m : M A) : M DbValue :=
  x <- m ;; ret (f x).

(** Running one call of the layer. *)
Definition run_db_call (ctx : Ctx) (c : DbCall) : M DbValue :=
  match c with
  | Call_createTask args => returning V_id (Tasks.createTask ctx args)
  | Call_getTaskById id =>
      returning (shape_of_get id) (Tasks.getTaskById ctx id)
  | Call_getTasksByUser u => returning shape_of_docs (Tasks.getTasksByUser ctx u)
  | Call_getTasksByUserAndStatus u st =>
      returning shape_of_docs (Tasks.getTasksByUserAndStatus ctx u st)
  | Call_getTasksByUserAndPosition u =>
      returning shape_of_docs (Tasks.getTasksByUserAndPosition ctx u)
  | Call_getTasksByDueDate m =>
      returning shape_of_docs (Tasks.getTasksByDueDate ctx m)
  | Call_getOverdueTasksByUser u t =>
      returning shape_of_docs (Tasks.getOverdueTasksByUser ctx u t)
  | Call_getTaskCountByUserAndStatus u st =>
      returning V_number (Tasks.getTaskCountByUserAndStatus ctx u st)
  | Call_getMaxPositionForUser u =>
      returning V_number (Tasks.getMaxPositionForUser ctx u)
  | Call_updateTask id args =>
      returning (fun _ => V_void) (Tasks.updateTask ctx id args)
  | Call_completeTask id =>
      returning (fun _ => V_void) (Tasks.completeTask ctx id)
  | Call_updateTaskPosition id p =>
      returning (fun _ => V_void) (Tasks.updateTaskPosition ctx id p)
  | Call_batchUpdateTaskPositions updates =>
      returning (fun _ => V_void) (Tasks.batchUpdateTaskPositions ctx updates)
  | Call_deleteTask id => returning (fun _ => V_void) (Tasks.deleteTask ctx id)
  | Call_deleteCompletedTasksByUser u =>
      returning V_number (Tasks.deleteCompletedTasksByUser ctx u)
  | Call_createTaskComment args =>
      returning V_id (TaskComments.createTaskComment ctx args)
  | Call_getTaskCommentById id =>
      returning (shape_of_get id) (TaskComments.getTaskCommentById ctx id)
  | Call_getTaskCommentsByTask t =>
      returning shape_of_docs (TaskComments.getTaskCommentsByTask ctx t)
  | Call_getTaskCommentsByUser u =>
      returning shape_of_docs (TaskComments.getTaskCommentsByUser ctx u)
  | Call_getTaskCommentCount t =>
      returning V_number (TaskComments.getTaskCommentCount ctx t)
  | Call_updateTaskComment id content =>
      returning (fun _ => V_void) (TaskComments.updateTaskComment ctx id content)
  | Call_deleteTaskComment id =>
      returning (fun _ => V_void) (TaskComments.deleteTaskComment ctx id)
  | Call_deleteTaskCommentsByTask t =>
      returning V_number (TaskComments.deleteTaskCommentsByTask ctx t)
  | Call_createTaskActivity args =>
      returning V_id (TaskActivity.createTaskActivity ctx args)
  | Call_getTaskActivityById id =>
      returning (shape_of_get id) (TaskActivity.getTaskActivityById ctx id)
  | Call_getTaskActivityByTask t =>
      returning shape_of_docs (TaskActivity.getTaskActivityByTask ctx t)
  | Call_getTaskActivityByUser u =>
      returning shape_of_docs (TaskActivity.getTaskActivityByUser ctx u)
  | Call_getTaskActivityByTaskAndTime t l =>
      returning shape_of_docs (TaskActivity.getTaskActivityByTaskAndTime ctx t l)
  | Call_getRecentActivityByUser u l =>
      returning shape_of_docs (TaskActivity.getRecentActivityByUser ctx u l)
  | Call_deleteTaskActivity id =>
      returning (fun _ => V_void) (TaskActivity.deleteTaskActivity ctx id)
  | Call_deleteTaskActivityByTask t =>
      returning V_number (TaskActivity.deleteTaskActivityByTask ctx t)
  | Call_createUserPreferences args =>
      returning V_id (UserPreferences.createUserPreferences ctx args)
  | Call_getUserPreferencesById id =>
      returning (shape_of_get id) (UserPreferences.getUserPreferencesById ctx id)
  | Call_getUserPreferencesByUser u =>
      returning shape_of_first (UserPreferences.getUserPreferencesByUser ctx u)
  | Call_getOrCreateUserPreferences u =>
      returning shape_of_first
        (UserPreferences.getOrCreateUserPreferences ctx u)
  | Call_updateUserPreferences id args =>
      returning (fun _ => V_void)
        (UserPreferences.updateUserPreferences ctx id args)
  | Call_updateUserPreferencesByUser u args =>
      returning (fun _ => V_void)
        (UserPreferences.updateUserPreferencesByUser ctx u args)
  | Call_deleteUserPreferences id =>
      returning (fun _ => V_void) (UserPreferences.deleteUserPreferences ctx id)
  | Call_createThread args => returning V_id (Threads.createThread ctx args)
  | Call_getThreadById id =>
      returning (shape_of_get id) (Threads.getThreadById ctx id)
  | Call_getThreadsByUser u =>
      returning shape_of_docs (Threads.getThreadsByUser ctx u)
  | Call_getThreadsByUserAndStatus u st =>
      returning shape_of_docs (Threads.getThreadsByUserAndStatus ctx u st)
  | Call_getActiveThreadsByUser u =>
      returning shape_of_docs (Threads.getActiveThreadsByUser ctx u)
  | Call_getThreadsByUserOrderedByLastMessage u =>
      returning shape_of_docs
        (Threads.getThreadsByUserOrderedByLastMessage ctx u)
  | Call_getRecentThreadsByUser u l =>
      returning shape_of_docs (Threads.getRecentThreadsByUser ctx u l)
  | Call_updateThread id args =>
      returning (fun _ => V_void) (Threads.updateThread ctx id args)
  | Call_updateThreadLastMessage id t =>
      returning (fun _ => V_void) (Threads.updateThreadLastMessage ctx id t)
  | Call_archiveThread id =>
      returning (fun _ => V_void) (Threads.archiveThread ctx id)
  | Call_deleteThread id =>
      returning (fun _ => V_void) (Threads.deleteThread ctx id)
  | Call_createMessage args => returning V_id (Messages.createMessage ctx args)
  | Call_getMessageById id =>
      returning (shape_of_get id) (Messages.getMessageById ctx id)
  | Call_getMessagesByThread t =>
      returning shape_of_docs (Messages.getMessagesByThread ctx t)
  | Call_getMessagesByThreadOrdered t =>
      returning shape_of_docs (Messages.getMessagesByThreadOrdered ctx t)
  | Call_getRecentMessagesByThread t l =>
      returning shape_of_docs (Messages.getRecentMessagesByThread ctx t l)
  | Call_getMessageCountByThread t =>
      returning V_number (Messages.getMessageCountByThread ctx t)
  | Call_deleteMessage id =>
      returning (fun _ => V_void) (Messages.deleteMessage ctx id)
  | Call_deleteMessagesByThread t =>
      returning V_number (Messages.deleteMessagesByThread ctx t)
  end.

(** A null or empty result: [null], the empty array, or 0. *)
Definition null_or_empty (v : DbValue) : bool :=
  match v with
  | V_null | V_docs [] => true
  | V_number n => n =? 0
  | _ => false
  end.

(** No document is stored under [id]. *)
Definition missing {A} (T : TableRef A) (id : Id) (s : Store) : bool :=
  match table_get (tget T s) id with
  | Some _ => false
  | None => true
  end.

(** No stored document has the key [p] asks for. *)
Definition no_such {A} (T : TableRef A) (p : Id * A -> bool) (s : Store)
  : bool :=
  negb (existsb p (table_docs (tget T s))).

(** What the functions of the layer do with the store. *)
Inductive DbKind :=
  | Inserts        (** [create...]: one [insert] *)
  | Reads          (** [get...]: queries only *)
  | WritesOne      (** [patch] or [delete] of the documents named by id *)
  | DeletesAll     (** [delete...By...]: deletes what a query returns *)
  | GetsOrCreates  (** [getOrCreateUserPreferences] *)
  | UpdatesByUser  (** [updateUserPreferencesByUser] *).

Definition db_kind (c : DbCall) : DbKind :=
  match c with
  | Call_createTask _ | Call_createTaskComment _ | Call_createTaskActivity _
  | Call_createUserPreferences _ | Call_createThread _ | Call_createMessage _ =>
      Inserts
  | Call_updateTask _ _ | Call_completeTask _ | Call_updateTaskPosition _ _
  | Call_batchUpdateTaskPositions _ | Call_deleteTask _
  | Call_updateTaskComment _ _ | Call_deleteTaskComment _
  | Call_deleteTaskActivity _
  | Call_updateUserPreferences _ _ | Call_deleteUserPreferences _
  | Call_updateThread _ _ | Call_updateThreadLastMessage _ _
  | Call_archiveThread _ | Call_deleteThread _ | Call_deleteMessage _ =>
      WritesOne
  | Call_deleteCompletedTasksByUser _ | Call_deleteTaskCommentsByTask _
  | Call_deleteTaskActivityByTask _ | Call_deleteMessagesByThread _ =>
      DeletesAll
  | Call_getOrCreateUserPreferences _ => GetsOrCreates
  | Call_updateUserPreferencesByUser _ _ => UpdatesByUser
  | _ => Reads
  end.

(** The records a call refers to are absent: no document under the id
    (under one of the ids, for a batch), or no document of the user, the
    task or the thread the call names; [getTasksByDueDate] names no key
    and refers to every task.  An insert refers to no stored record. *)
Definition db_absent (c : DbCall) (s : Store) : bool :=
  match c with
  | Call_createTask _ | Call_createTaskComment _ | Call_createTaskActivity _
  | Call_createUserPreferences _ | Call_createThread _ | Call_createMessage _ =>
      false
  | Call_getTaskById id | Call_updateTask id _ | Call_completeTask id
  | Call_updateTaskPosition id _ | Call_deleteTask id =>
      missing tasksT id s
  | Call_batchUpdateTaskPositions updates =>
      existsb (fun update => missing tasksT (fst update) s) updates
  | Call_getTasksByUser u | Call_getTasksByUserAndStatus u _
  | Call_getTasksByUserAndPosition u | Call_getOverdueTasksByUser u _
  | Call_getTaskCountByUserAndStatus u _ | Call_getMaxPositionForUser u
  | Call_deleteCompletedTasksByUser u =>
      no_such tasksT (fun d => String.eqb (task_userId (snd d)) u) s
  | Call_getTasksByDueDate _ => no_such tasksT (fun _ => true) s
  | Call_getTaskCommentById id | Call_updateTaskComment id _
  | Call_deleteTaskComment id =>
      missing taskCommentsT id s
  | Call_getTaskCommentsByTask t | Call_getTaskCommentCount t
  | Call_deleteTaskCommentsByTask t =>
      no_such taskCommentsT (fun d => Nat.eqb (comment_taskId (snd d)) t) s
  | Call_getTaskCommentsByUser u =>
      no_such taskCommentsT (fun d => String.eqb (comment_userId (snd d)) u) s
  | Call_getTaskActivityById id | Call_deleteTaskActivity id =>
      missing taskActivityT id s
  | Call_getTaskActivityByTask t | Call_getTaskActivityByTaskAndTime t _
  | Call_deleteTaskActivityByTask t =>
      no_such taskActivityT (fun d => Nat.eqb (activity_taskId (snd d)) t) s
  | Call_getTaskActivityByUser u | Call_getRecentActivityByUser u _ =>
      no_such taskActivityT (fun d => String.eqb (activity_userId (snd d)) u) s
  | Call_getUserPreferencesById id | Call_updateUserPreferences id _
  | Call_deleteUserPreferences id =>
      missing userPreferencesT id s
  | Call_getUserPreferencesByUser u | Call_getOrCreateUserPreferences u
  | Call_updateUserPreferencesByUser u _ =>
      no_such userPreferencesT (fun d => String.eqb (pref_userId (snd d)) u) s
  | Call_getThreadById id | Call_updateThread id _
  | Call_updateThreadLastMessage id _ | Call_archiveThread id
  | Call_deleteThread id =>
      missing threadsT id s
  | Call_getThreadsByUser u | Call_getThreadsByUserAndStatus u _
  | Call_getActiveThreadsByUser u | Call_getThreadsByUserOrderedByLastMessage u
  | Call_getRecentThreadsByUser u _ =>
      no_such threadsT (fun d => String.eqb (thread_userId (snd d)) u) s
  | Call_getMessageById id | Call_deleteMessage id => missing messagesT id s
  | Call_getMessagesByThread t | Call_getMessagesByThreadOrdered t
  | Call_getRecentMessagesByThread t _ | Call_getMessageCountByThread t
  | Call_deleteMessagesByThread t =>
      no_such messagesT (fun d => Nat.eqb (message_threadId (snd d)) t) s
  end.

(** The call hands a negative count to [take]. *)
Definition db_bad_limit (c : DbCall) : bool :=
  match c with
  | Call_getTaskActivityByTaskAndTime _ limit => patched limit 0 <? 0
  | Call_getRecentActivityByUser _ limit => patched limit 20 <? 0
  | Call_getRecentThreadsByUser _ limit => patched limit 10 <? 0
  | Call_getRecentMessagesByThread _ limit => patched limit 50 <? 0
  | _ => false
  end.

(** The record-access layer as the specification words it: no call
    fails, and a call whose records are absent returns a null or empty
    result. *)
Definition db_layer_raises_nothing : Prop :=
  forall (ctx : Ctx) (c : DbCall) (s : Store),
    exists v,
      fst (run_db_call ctx c s) = inr v
      /\ (db_absent c s = true -> null_or_empty v = true).

(* ================================================================= *)
(** ** Sample contexts and stores *)

Definition allow_all : string -> UserId -> RateLimitStatus :=
  fun _ _ => RateOk.

Definition deny_all (retryAfter : Z) : string -> UserId -> RateLimitStatus :=
  fun _ _ => RateDenied retryAfter.

Definition ctx_alice (now : Z) : Ctx := mkCtx (Some "alice") allow_all now.
Definition ctx_bob (now : Z) : Ctx := mkCtx (Some "bob") allow_all now.
Definition ctx_alice_limited : Ctx := mkCtx (Some "alice") (deny_all 750) 5000.

Definition buy_milk : TasksEndpoint.CreateArgs :=
  TasksEndpoint.mkCreateArgs "Buy milk" None (Some high) None None.

Definition set_status (id : Id) (st : TaskStatus) : TasksEndpoint.UpdateArgs :=
  TasksEndpoint.mkUpdateArgs id None None (Some st) None None None.

(** Alice has created one task at time 1000. *)
Definition store_one_task : Store :=
  snd (TasksEndpoint.create (ctx_alice 1000) buy_milk emptyStore).

(** ... and has completed it at time 2000. *)
Definition store_completed : Store :=
  snd (TasksEndpoint.update (ctx_alice 2000) (set_status 0%nat completed)
         store_one_task).

(** ... and has commented on it at time 2500. *)
Definition store_commented : Store :=
  snd (CommentsEndpoint.create (ctx_alice 2500) 0%nat "with oat milk too"
         store_completed).

(** Alice has moved her one task to position 2^53 at time 1500. *)
Definition store_far_position : Store :=
  snd (TasksEndpoint.reorder (ctx_alice 1500) [(0%nat, 9007199254740992)]
         store_one_task).

(** Bob has created a task of his own at time 1500, next to Alice's. *)
Definition store_two_owners : Store :=
  snd (TasksEndpoint.create (ctx_bob 1500)
         (TasksEndpoint.mkCreateArgs "Walk the dog" None None None None)
         store_one_task).

(* ================================================================= *)
(** ** Numbers that leave the integers

    [completed / total] is a binary64 division, so the percentage of the
    statistics is computed on primitive floats.  [to_float] is exact for
    the counts it is applied to (below 2^53); [math_round] is
    [Math.round] on a finite value: the nearest integer, a tie going
    up. *)

Definition to_float (n : Z) : PrimFloat.float :=
  PrimFloat.of_uint63 (Uint63.of_Z n).

Definition math_round (f : PrimFloat.float) : Z :=
  match FloatOps.Prim2SF f with
  | SpecFloat.S754_finite sign m e =>
      let num := if sign then Z.neg m else Z.pos m in
      if 0 <=? e then num * 2 ^ e
      else (2 * num + 2 ^ (- e)) / 2 ^ (1 - e)
  | _ => 0
  end.

(** [total > 0 ? Math.round((completed / total) * 100) : 0] *)
Definition completion_rate (completed total : Z) : Z :=
  if total >? 0
  then math_round
         (PrimFloat.mul (PrimFloat.div (to_float completed) (to_float total))
                        (to_float 100))
  else 0.

(** [Promise.all([a, b])] on two promises of different types. *)
Definition par {A B} (a : M A) (b : M B) : M (A * B) :=
  fun s =>
    let (ra, s1) := a s in
    let (rb, s2) := b s1 in
    (match ra, rb with
     | inl e, _ => inl e
     | inr _, inl e => inl e
     | inr x, inr y => inr (x, y)
     end, s2).

(** [Array.prototype.sort(compare)]: stable, [compare(a, b) <= 0] keeps
    [a] before [b]. *)
Definition js_sort {A} (compare : A -> A -> Z) (l : list A) : list A :=
  index_order (fun a b => compare a b <=? 0) l.

(** [array.slice(0, n)] for a non-negative literal [n]. *)
Definition slice0 {A} (n : nat) (l : list A) : list A := firstn n l.

(* ================================================================= *)
(** ** Endpoint layer: task queries ([convex/endpoints/tasks.ts]) *)

Module TasksQueries.

Definition list (ctx : Ctx) : M (list (Id * Task)) :=
  match authUser ctx with
  | None => throw (Err "Not authenticated")
  | Some authUser => Tasks.getTasksByUser ctx authUser
  end.

Definition listByStatus (ctx : Ctx) (status : TaskStatus)
  : M (Datatypes.list (Id * Task)) :=
  match authUser ctx with
  | None => throw (Err "Not authenticated")
  | Some authUser => Tasks.getTasksByUserAndStatus ctx authUser status
  end.

Definition listByPosition (ctx : Ctx) : M (Datatypes.list (Id * Task)) :=
  match authUser ctx with
  | None => throw (Err "Not authenticated")
  | Some authUser => Tasks.getTasksByUserAndPosition ctx authUser
  end.

Definition get (ctx : Ctx) (id : Id) : M Task :=
  match authUser ctx with
  | None => throw (Err "Not authenticated")
  | Some authUser =>
  task <- Tasks.getTaskById ctx id ;;
  match task with
  | None => throw (Err "Task not found")
  | Some task =>
  (* Verify ownership *)
  if negb (String.eqb (task_userId task) authUser)
  then throw (Err "Not authorized to view this task")
  else ret task
  end end.

Definition listOverdue (ctx : Ctx) : M (Datatypes.list (Id * Task)) :=
  match authUser ctx with
  | None => throw (Err "Not authenticated")
  | Some authUser => Tasks.getOverdueTasksByUser ctx authUser (now ctx)
  end.

Record Stats := mkStats {
  total : Z;
  pending_count : Z;
  inProgress : Z;
  completed_count : Z;
  overdue : Z;
  completionRate : Z
}.

Definition getStats (ctx : Ctx) : M Stats :=
  match authUser ctx with
  | None => throw (Err "Not authenticated")
  | Some authUser =>
  counts <-
    par (Tasks.getTaskCountByUserAndStatus ctx authUser pending)
      (par (Tasks.getTaskCountByUserAndStatus ctx authUser in_progress)
         (par (Tasks.getTaskCountByUserAndStatus ctx authUser completed)
            (Tasks.getOverdueTasksByUser ctx authUser (now ctx)))) ;;
  let '(n_pending, (n_inProgress, (n_completed, overdueTasks))) := counts in
  let total := n_pending + n_inProgress + n_completed in
  ret (mkStats total n_pending n_inProgress n_completed
               (arr_length overdueTasks)
               (completion_rate n_completed total))
  end.

End TasksQueries.

(* ================================================================= *)
(** ** Endpoint layer: audit-trail queries ([convex/endpoints/activity.ts]) *)

Module ActivityEndpoint.

Definition listByTask (ctx : Ctx) (taskId : Id) (limit : option Z)
  : M (list (Id * TaskActivityDoc)) :=
  match authUser ctx with
  | None => throw (Err "Not authenticated")
  | Some authUser =>
  (* Verify user owns the task *)
  task <- Tasks.getTaskById ctx taskId ;;
  match task with
  | None => throw (Err "Task not found")
  | Some task =>
  if negb (String.eqb (task_userId task) authUser)
  then throw (Err "Not authorized to view activity for this task")
  else TaskActivity.getTaskActivityByTaskAndTime ctx taskId limit
  end end.

(** [args.limit ?? 20] *)
Definition listRecent (ctx : Ctx) (limit : option Z)
  : M (list (Id * TaskActivityDoc)) :=
  match authUser ctx with
  | None => throw (Err "Not authenticated")
  | Some authUser =>
      TaskActivity.getRecentActivityByUser ctx authUser
        (Some (patched limit 20))
  end.

Definition get (ctx : Ctx) (id : Id) : M TaskActivityDoc :=
  match authUser ctx with
  | None => throw (Err "Not authenticated")
  | Some authUser =>
  activity <- TaskActivity.getTaskActivityById ctx id ;;
  match activity with
  | None => throw (Err "Activity not found")
  | Some activity =>
  (* Verify ownership *)
  if negb (String.eqb (activity_userId activity) authUser)
  then throw (Err "Not authorized to view this activity")
  else ret activity
  end end.

End ActivityEndpoint.

(* ================================================================= *)
(** ** Endpoint layer: dashboard ([convex/endpoints/dashboard.ts]) *)

Module Dashboard.

Record TaskSummary := mkTaskSummary {
  total : Z;
  pending_count : Z;
  inProgress : Z;
  completed_count : Z;
  overdue : Z;
  completionRate : Z
}.

(** [{ tasks: {...}, threads: { active } }] *)
Record Summary := mkSummary {
  summary_tasks : TaskSummary;
  threads_active : Z
}.

Definition summary (ctx : Ctx) : M Summary :=
  match authUser ctx with
  | None => throw (Err "Not authenticated")
  | Some authUser =>
  (* Get task counts by status *)
  counts <-
    par (Tasks.getTaskCountByUserAndStatus ctx authUser pending)
      (par (Tasks.getTaskCountByUserAndStatus ctx authUser in_progress)
         (Tasks.getTaskCountByUserAndStatus ctx authUser completed)) ;;
  let '(n_pending, (n_inProgress, n_completed)) := counts in
  (* Get overdue tasks *)
  overdueTasks <- Tasks.getOverdueTasksByUser ctx authUser (now ctx) ;;
  (* Get active threads *)
  activeThreads <- Threads.getActiveThreadsByUser ctx authUser ;;
  (* Calculate totals *)
  let totalTasks := n_pending + n_inProgress + n_completed in
  let rate := completion_rate n_completed totalTasks in
  ret (mkSummary
         (mkTaskSummary totalTasks n_pending n_inProgress n_completed
                        (arr_length overdueTasks) rate)
         (arr_length activeThreads))
  end.

Definition recent (ctx : Ctx) : M (list (Id * Task)) :=
  match authUser ctx with
  | None => throw (Err "Not authenticated")
  | Some authUser =>
  allTasks <- Tasks.getTasksByUser ctx authUser ;;
  ret (slice0 10 allTasks)
  end.

Definition recentActivity (ctx : Ctx) : M (list (Id * TaskActivityDoc)) :=
  match authUser ctx with
  | None => throw (Err "Not authenticated")
  | Some authUser => TaskActivity.getRecentActivityByUser ctx authUser (Some 10)
  end.

Definition upcoming (ctx : Ctx) : M (list (Id * Task)) :=
  match authUser ctx with
  | None => throw (Err "Not authenticated")
  | Some authUser =>
  allTasks <- Tasks.getTasksByUser ctx authUser ;;
  (* Filter for non-completed tasks with due dates *)
  let upcomingTasks :=
    js_sort
      (fun a b => patched (task_dueDate (snd a)) 0
                  - patched (task_dueDate (snd b)) 0)
      (List.filter
         (fun task => negb (TaskStatus_eqb (task_status (snd task)) completed)
                      && truthy_number (task_dueDate (snd task)))
         allTasks) in
  ret (slice0 10 upcomingTasks)
  end.

Definition highPriority (ctx : Ctx) : M (list (Id * Task)) :=
  match authUser ctx with
  | None => throw (Err "Not authenticated")
  | Some authUser =>
  allTasks <- Tasks.getTasksByUser ctx authUser ;;
  (* Filter for high priority, non-completed tasks *)
  let highPriorityTasks :=
    js_sort
      (fun a b => task_createdAt (snd b) - task_createdAt (snd a))
      (List.filter
         (fun task => TaskPriority_eqb (task_priority (snd task)) high
                      && negb (TaskStatus_eqb (task_status (snd task)) completed))
         allTasks) in
  ret (slice0 10 highPriorityTasks)
  end.

(** [{ created, completed }] of one time window. *)
Record Window := mkWindow {
  window_created : Z;
  window_completed : Z
}.

Record Productivity := mkProductivity {
  today : Window;
  thisWeek : Window
}.

Definition productivityStats (ctx : Ctx) : M Productivity :=
  match authUser ctx with
  | None => throw (Err "Not authenticated")
  | Some authUser =>
  let now := now ctx in
  let oneDayAgo := now - 24 * 60 * 60 * 1000 in
  let oneWeekAgo := now - 7 * 24 * 60 * 60 * 1000 in
  (* Get all tasks *)
  allTasks <- Tasks.getTasksByUser ctx authUser ;;
  let createdToday :=
    arr_length
      (List.filter (fun task => task_createdAt (snd task) >=? oneDayAgo)
                   allTasks) in
  let completedToday :=
    arr_length
      (List.filter
         (fun task => truthy_number (task_completedAt (snd task))
                      && (patched (task_completedAt (snd task)) 0 >=? oneDayAgo))
         allTasks) in
  let createdThisWeek :=
    arr_length
      (List.filter (fun task => task_createdAt (snd task) >=? oneWeekAgo)
                   allTasks) in
  let completedThisWeek :=
    arr_length
      (List.filter
         (fun task => truthy_number (task_completedAt (snd task))
                      && (patched (task_completedAt (snd task)) 0 >=? oneWeekAgo))
         allTasks) in
  ret (mkProductivity (mkWindow createdToday completedToday)
                      (mkWindow createdThisWeek completedThisWeek))
  end.

End Dashboard.

(* ================================================================= *)
(** ** Validation helpers used by the assistant endpoints
    ([convex/helpers/validation.ts]) *)

Module ValidationExtra.

Definition isValidMessageContent (content : string) : bool :=
  (str_length (trim content) >? 0) && (str_length content <=? 10000).

Definition isValidThreadTitle (title : option string) : bool :=
  if negb (truthy_string title) then true
  else match title with
       | Some t => str_length t <=? 100
       | None => true
       end.

End ValidationExtra.

(* ================================================================= *)
(** ** Endpoint layer: preferences ([convex/endpoints/preferences.ts]) *)

Module PreferencesEndpoint.

(** What [get] returns: the stored document, or the defaults with
    [_id: null] and no timestamps. *)
Record PreferencesView := mkPreferencesView {
  view_id : option Id;
  view_userId : UserId;
  view_theme : Theme;
  view_defaultView : DefaultView;
  view_sortBy : SortBy;
  view_sortOrder : SortOrder;
  view_showCompletedTasks : bool;
  view_notificationsEnabled : bool;
  view_createdAt : option Z;
  view_updatedAt : option Z
}.

Definition view_of_doc (d : Id * UserPreferencesDoc) : PreferencesView :=
  mkPreferencesView (Some (fst d)) (pref_userId (snd d)) (pref_theme (snd d))
    (pref_defaultView (snd d)) (pref_sortBy (snd d)) (pref_sortOrder (snd d))
    (pref_showCompletedTasks (snd d)) (pref_notificationsEnabled (snd d))
    (Some (pref_createdAt (snd d))) (Some (pref_updatedAt (snd d))).

Definition get (ctx : Ctx) : M PreferencesView :=
  match authUser ctx with
  | None => throw (Err "Not authenticated")
  | Some authUser =>
  preferences <- UserPreferences.getUserPreferencesByUser ctx authUser ;;
  match preferences with
  | None =>
      ret (mkPreferencesView None authUser system view_list by_position asc
                             false true None None)
  | Some preferences => ret (view_of_doc preferences)
  end
  end.

Definition initialize (ctx : Ctx) : M Id :=
  match authUser ctx with
  | None => throw (Err "Not authenticated")
  | Some authUser =>
  (* Check if preferences already exist *)
  existing <- UserPreferences.getUserPreferencesByUser ctx authUser ;;
  match existing with
  | Some existing => ret (fst existing)
  | None =>
  (* Create default preferences *)
  preferencesId <-
    UserPreferences.createUserPreferences ctx
      (UserPreferences.mkCreateUserPreferencesArgs
         authUser None None None None None None) ;;
  ret preferencesId
  end
  end.

(** Reading [preferences._id] of [null] is a [TypeError]. *)
Definition null_id_error : Error :=
  Err "TypeError: Cannot read properties of null (reading '_id')".

Definition update (ctx : Ctx)
    (args : UserPreferences.UpdateUserPreferencesArgs) : M Id :=
  match authUser ctx with
  | None => throw (Err "Not authenticated")
  | Some authUser =>
  match rateLimit ctx "updatePreferences" authUser with
  | RateDenied retryAfter => throw (ErrRateLimit retryAfter)
  | RateOk =>
  (* Get or create preferences *)
  preferences <- UserPreferences.getOrCreateUserPreferences ctx authUser ;;
  match preferences with
  | None => throw null_id_error
  | Some preferences =>
  (* Update preferences *)
  UserPreferences.updateUserPreferences ctx (fst preferences) args ;;;
  ret (fst preferences)
  end end end.

Definition updateTheme (ctx : Ctx) (theme : Theme) : M Id :=
  match authUser ctx with
  | None => throw (Err "Not authenticated")
  | Some authUser =>
  match rateLimit ctx "updatePreferences" authUser with
  | RateDenied retryAfter => throw (ErrRateLimit retryAfter)
  | RateOk =>
  preferences <- UserPreferences.getOrCreateUserPreferences ctx authUser ;;
  match preferences with
  | None => throw null_id_error
  | Some preferences =>
  UserPreferences.updateUserPreferences ctx (fst preferences)
    (UserPreferences.mkUpdateUserPreferencesArgs
       (Some theme) None None None None None) ;;;
  ret (fst preferences)
  end end end.

Definition updateDefaultView (ctx : Ctx) (defaultView : DefaultView) : M Id :=
  match authUser ctx with
  | None => throw (Err "Not authenticated")
  | Some authUser =>
  match rateLimit ctx "updatePreferences" authUser with
  | RateDenied retryAfter => throw (ErrRateLimit retryAfter)
  | RateOk =>
  preferences <- UserPreferences.getOrCreateUserPreferences ctx authUser ;;
  match preferences with
  | None => throw null_id_error
  | Some preferences =>
  UserPreferences.updateUserPreferences ctx (fst preferences)
    (UserPreferences.mkUpdateUserPreferencesArgs
       None (Some defaultView) None None None None) ;;;
  ret (fst preferences)
  end end end.

End PreferencesEndpoint.

(* ================================================================= *)
(** ** Endpoint layer: assistant threads and messages
    ([convex/endpoints/agent.ts]) *)

Module AgentEndpoint.

Definition title_error := "Thread title must be max 100 characters".
Definition content_error :=
  "Message content must be between 1 and 10000 characters".

Definition listThreads (ctx : Ctx) : M (list (Id * Thread)) :=
  match authUser ctx with
  | None => throw (Err "Not authenticated")
  | Some authUser => Threads.getThreadsByUserOrderedByLastMessage ctx authUser
  end.

Definition listActiveThreads (ctx : Ctx) : M (list (Id * Thread)) :=
  match authUser ctx with
  | None => throw (Err "Not authenticated")
  | Some authUser => Threads.getActiveThreadsByUser ctx authUser
  end.

Definition getThread (ctx : Ctx) (threadId : Id) : M Thread :=
  match authUser ctx with
  | None => throw (Err "Not authenticated")
  | Some authUser =>
  thread <- Threads.getThreadById ctx threadId ;;
  match thread with
  | None => throw (Err "Thread not found")
  | Some thread =>
  if negb (String.eqb (thread_userId thread) authUser)
  then throw (Err "Not authorized to view this thread")
  else ret thread
  end end.

Definition listMessages (ctx : Ctx) (threadId : Id) : M (list (Id * Message)) :=
  match authUser ctx with
  | None => throw (Err "Not authenticated")
  | Some authUser =>
  thread <- Threads.getThreadById ctx threadId ;;
  match thread with
  | None => throw (Err "Thread not found")
  | Some thread =>
  if negb (String.eqb (thread_userId thread) authUser)
  then throw (Err "Not authorized to view messages in this thread")
  else Messages.getMessagesByThreadOrdered ctx threadId
  end end.

(** [args.limit ?? 50] *)
Definition listRecentMessages (ctx : Ctx) (threadId : Id) (limit : option Z)
  : M (list (Id * Message)) :=
  match authUser ctx with
  | None => throw (Err "Not authenticated")
  | Some authUser =>
  thread <- Threads.getThreadById ctx threadId ;;
  match thread with
  | None => throw (Err "Thread not found")
  | Some thread =>
  if negb (String.eqb (thread_userId thread) authUser)
  then throw (Err "Not authorized to view messages in this thread")
  else Messages.getRecentMessagesByThread ctx threadId (Some (patched limit 50))
  end end.

Definition createThread (ctx : Ctx) (title : option string) : M Id :=
  match authUser ctx with
  | None => throw (Err "Not authenticated")
  | Some authUser =>
  match rateLimit ctx "createThread" authUser with
  | RateDenied retryAfter => throw (ErrRateLimit retryAfter)
  | RateOk =>
  (* Validation *)
  if truthy_string title && negb (ValidationExtra.isValidThreadTitle title)
  then throw (Err title_error)
  else
  threadId <- Threads.createThread ctx
                (Threads.mkCreateThreadArgs authUser title None) ;;
  ret threadId
  end end.

Definition updateThread (ctx : Ctx) (threadId : Id) (title : option string)
    (status : option ThreadStatus) : M Id :=
  match authUser ctx with
  | None => throw (Err "Not authenticated")
  | Some authUser =>
  (* Verify ownership *)
  thread <- Threads.getThreadById ctx threadId ;;
  match thread with
  | None => throw (Err "Thread not found")
  | Some thread =>
  if negb (String.eqb (thread_userId thread) authUser)
  then throw (Err "Not authorized to update this thread")
  else
  (* Validation *)
  if truthy_string title && negb (ValidationExtra.isValidThreadTitle title)
  then throw (Err title_error)
  else
  Threads.updateThread ctx threadId
    (Threads.mkUpdateThreadArgs title status None) ;;;
  ret threadId
  end end.

(** Returns [{ success: true }], rendered as [true]. *)
Definition archiveThread (ctx : Ctx) (threadId : Id) : M bool :=
  match authUser ctx with
  | None => throw (Err "Not authenticated")
  | Some authUser =>
  thread <- Threads.getThreadById ctx threadId ;;
  match thread with
  | None => throw (Err "Thread not found")
  | Some thread =>
  if negb (String.eqb (thread_userId thread) authUser)
  then throw (Err "Not authorized to archive this thread")
  else
  Threads.archiveThread ctx threadId ;;;
  ret true
  end end.

(** Returns [{ success: true }], rendered as [true]. *)
Definition deleteThread (ctx : Ctx) (threadId : Id) : M bool :=
  match authUser ctx with
  | None => throw (Err "Not authenticated")
  | Some authUser =>
  thread <- Threads.getThreadById ctx threadId ;;
  match thread with
  | None => throw (Err "Thread not found")
  | Some thread =>
  if negb (String.eqb (thread_userId thread) authUser)
  then throw (Err "Not authorized to delete this thread")
  else
  (* Delete all messages in thread *)
  Messages.deleteMessagesByThread ctx threadId ;;;
  (* Delete thread *)
  Threads.deleteThread ctx threadId ;;;
  ret true
  end end.

Definition sendMessage (ctx : Ctx) (threadId : Id) (content : string) : M Id :=
  match authUser ctx with
  | None => throw (Err "Not authenticated")
  | Some authUser =>
  match rateLimit ctx "sendMessage" authUser with
  | RateDenied retryAfter => throw (ErrRateLimit retryAfter)
  | RateOk =>
  (* Verify user owns the thread *)
  thread <- Threads.getThreadById ctx threadId ;;
  match thread with
  | None => throw (Err "Thread not found")
  | Some thread =>
  if negb (String.eqb (thread_userId thread) authUser)
  then throw (Err "Not authorized to send messages in this thread")
  else
  (* Validation *)
  if negb (ValidationExtra.isValidMessageContent content)
  then throw (Err content_error)
  else
  (* Create user message *)
  messageId <- Messages.createMessage ctx
                 (Messages.mkCreateMessageArgs threadId authUser role_user
                                               content None) ;;
  (* Update thread's last message timestamp *)
  Threads.updateThreadLastMessage ctx threadId (now ctx) ;;;
  ret messageId
  end end end.

Definition storeAssistantMessage (ctx : Ctx) (threadId : Id)
    (content : string) (metadata : option string) : M Id :=
  match authUser ctx with
  | None => throw (Err "Not authenticated")
  | Some authUser =>
  thread <- Threads.getThreadById ctx threadId ;;
  match thread with
  | None => throw (Err "Thread not found")
  | Some thread =>
  if negb (String.eqb (thread_userId thread) authUser)
  then throw (Err "Not authorized")
  else
  (* Create assistant message *)
  messageId <- Messages.createMessage ctx
                 (Messages.mkCreateMessageArgs threadId authUser role_assistant
                                               content metadata) ;;
  Threads.updateThreadLastMessage ctx threadId (now ctx) ;;;
  ret messageId
  end end.

End AgentEndpoint.

(* ================================================================= *)
(** ** Formatting helpers ([convex/helpers/formatting.ts]) *)

Module Formatting.

(** [currentTime: number = Date.now()] *)
Definition isOverdue (now : Z) (dueDate : Z) (currentTime : option Z) : bool :=
  dueDate <? patched currentTime now.

(** [text.substring(0, end)]: [end] is clamped to [0 .. text.length]. *)
Definition substring0 (text : string) (end_ : Z) : string :=
  String.substring 0 (Z.to_nat end_) text.

Definition truncateText (text : string) (maxLength : Z) : string :=
  if str_length text <=? maxLength then text
  else String.append (substring0 text (maxLength - 3)) "...".

Definition formatTags (tags : list string) : string :=
  join " " (map (fun tag => String.append "#" tag) tags).

(** [String.prototype.toLowerCase] on code units below 256: A-Z and the
    Latin-1 capitals move up by 32. *)
Definition to_lower_unit (c : ascii) : ascii :=
  let n := nat_of_ascii c in
  if ((65 <=? n)%nat && (n <=? 90)%nat)
     || ((192 <=? n)%nat && (n <=? 214)%nat)
     || ((216 <=? n)%nat && (n <=? 222)%nat)
  then ascii_of_nat (n + 32) else c.

Fixpoint toLowerCase (s : string) : string :=
  match s with
  | EmptyString => EmptyString
  | String c s' => String (to_lower_unit c) (toLowerCase s')
  end.

(** A code unit that [/[^a-z0-9\s-]/] does not match. *)
Definition tag_unit (c : ascii) : bool :=
  let n := nat_of_ascii c in
  ((97 <=? n)%nat && (n <=? 122)%nat)
  || ((48 <=? n)%nat && (n <=? 57)%nat)
  || is_white_space c
  || (n =? 45)%nat.

(** [.replace(/[^a-z0-9\s-]/g, "")] *)
Fixpoint strip_special (s : string) : string :=
  match s with
  | EmptyString => EmptyString
  | String c s' =>
      if tag_unit c then String c (strip_special s') else strip_special s'
  end.

(** [.replace(/\s+/g, "-")]: each maximal run of white space becomes one
    hyphen; [in_run] tells that the run has already been replaced. *)
Fixpoint hyphenate_from (in_run : bool) (s : string) : string :=
  match s with
  | EmptyString => EmptyString
  | String c s' =>
      if is_white_space c
      then if in_run then hyphenate_from true s'
           else String "-" (hyphenate_from true s')
      else String c (hyphenate_from false s')
  end.

Definition hyphenate_spaces (s : string) : string := hyphenate_from false s.

Definition normalizeTag (tag : string) : string :=
  hyphenate_spaces (strip_special (trim (toLowerCase tag))).

End Formatting.

(* ================================================================= *)
(** ** Constants ([convex/helpers/constants.ts]) *)

Module Constants.

(** [TASK_STATUS]: the string of each status. *)
Definition status_string (st : TaskStatus) : string :=
  match st with
  | pending => "pending"
  | in_progress => "in_progress"
  | completed => "completed"
  end.

Definition VALID_STATUS_TRANSITIONS (from : TaskStatus) : list string :=
  match from with
  | pending => [status_string in_progress; status_string completed]
  | in_progress => [status_string pending; status_string completed]
  | completed => [status_string pending; status_string in_progress]
  end.

(** [VALID_STATUS_TRANSITIONS[from].includes(to)] *)
Definition isValidStatusTransition (from : TaskStatus) (to : string) : bool :=
  existsb (String.eqb to) (VALID_STATUS_TRANSITIONS from).

End Constants.

(* ================================================================= *)
(** ** Vocabulary of the further properties *)

(** What makes a [TableRef] a table of the store: writing then reading
    gives what was written, a second write overrides the first, and
    writing back what was read changes nothing. *)
Record TableLaws {A} (T : TableRef A) : Prop := mkTableLaws {
  get_set : forall t s, tget T (tset T t s) = t;
  set_set : forall t t' s, tset T t (tset T t' s) = tset T t s;
  set_get : forall s, tset T (tget T s) s = s
}.

(** The table after [ctx.db.delete] of each id of a list. *)
Definition delete_all {A} (ids : list Id) (t : Table A) : Table A :=
  fold_left (fun acc id => <[id := None]> acc) ids t.

(** The caller owns the task and it is completed. *)
Definition is_completed_task_of (u : UserId) (t : Task) : bool :=
  String.eqb (task_userId t) u && TaskStatus_eqb (task_status t) completed.

(** Every mutation of the endpoint layer, with its arguments. *)
Inductive EndpointMutation :=
  | M_task_create (args : TasksEndpoint.CreateArgs)
  | M_task_update (args : TasksEndpoint.UpdateArgs)
  | M_task_complete (id : Id)
  | M_task_reorder (updates : list (Id * Z))
  | M_task_remove (id : Id)
  | M_task_deleteCompleted
  | M_comment_create (taskId : Id) (content : string)
  | M_comment_update (id : Id) (content : string)
  | M_comment_remove (id : Id)
  | M_pref_initialize
  | M_pref_update (args : UserPreferences.UpdateUserPreferencesArgs)
  | M_pref_updateTheme (theme : Theme)
  | M_pref_updateDefaultView (defaultView : DefaultView)
  | M_agent_createThread (title : option string)
  | M_agent_updateThread (threadId : Id) (title : option string)
      (status : option ThreadStatus)
  | M_agent_archiveThread (threadId : Id)
  | M_agent_deleteThread (threadId : Id)
  | M_agent_sendMessage (threadId : Id) (content : string)
  | M_agent_storeAssistantMessage (threadId : Id) (content : string)
      (metadata : option string).

Definition run_endpoint (ctx : Ctx) (op : EndpointMutation) (s : Store)
  : option Error * Store :=
  match op with
  | M_task_create args => outcome (TasksEndpoint.create ctx args) s
  | M_task_update args => outcome (TasksEndpoint.update ctx args) s
  | M_task_complete id => outcome (TasksEndpoint.complete ctx id) s
  | M_task_reorder updates => outcome (TasksEndpoint.reorder ctx updates) s
  | M_task_remove id => outcome (TasksEndpoint.remove ctx id) s
  | M_task_deleteCompleted => outcome (TasksEndpoint.deleteCompleted ctx) s
  | M_comment_create taskId content =>
      outcome (CommentsEndpoint.create ctx taskId content) s
  | M_comment_update id content =>
      outcome (CommentsEndpoint.update ctx id content) s
  | M_comment_remove id => outcome (CommentsEndpoint.remove ctx id) s
  | M_pref_initialize => outcome (PreferencesEndpoint.initialize ctx) s
  | M_pref_update args => outcome (PreferencesEndpoint.update ctx args) s
  | M_pref_updateTheme theme =>
      outcome (PreferencesEndpoint.updateTheme ctx theme) s
  | M_pref_updateDefaultView v =>
      outcome (PreferencesEndpoint.updateDefaultView ctx v) s
  | M_agent_createThread title => outcome (AgentEndpoint.createThread ctx title) s
  | M_agent_updateThread threadId title status =>
      outcome (AgentEndpoint.updateThread ctx threadId title status) s
  | M_agent_archiveThread threadId =>
      outcome (AgentEndpoint.archiveThread ctx threadId) s
  | M_agent_deleteThread threadId =>
      outcome (AgentEndpoint.deleteThread ctx threadId) s
  | M_agent_sendMessage threadId content =>
      outcome (AgentEndpoint.sendMessage ctx threadId content) s
  | M_agent_storeAssistantMessage threadId content metadata =>
      outcome (AgentEndpoint.storeAssistantMessage ctx threadId content metadata) s
  end.

(** The bucket a mutation hands to the rate limiter, if it consults it. *)
Definition endpoint_bucket (op : EndpointMutation) : option string :=
  match op with
  | M_task_create _ => Some "createTask"
  | M_task_update _ | M_task_complete _ => Some "updateTask"
  | M_task_reorder _ => Some "batchUpdatePositions"
  | M_task_remove _ | M_task_deleteCompleted => Some "deleteTask"
  | M_comment_create _ _ => Some "createComment"
  | M_comment_update _ _ => Some "updateComment"
  | M_comment_remove _ => Some "deleteComment"
  | M_pref_initialize => None
  | M_pref_update _ | M_pref_updateTheme _ | M_pref_updateDefaultView _ =>
      Some "updatePreferences"
  | M_agent_createThread _ => Some "createThread"
  | M_agent_sendMessage _ _ => Some "sendMessage"
  | M_agent_updateThread _ _ _ | M_agent_archiveThread _
  | M_agent_deleteThread _ | M_agent_storeAssistantMessage _ _ _ => None
  end.

(** At most one preferences document per user. *)
Definition preferences_unique (s : Store) : Prop :=
  forall id1 id2 p1 p2,
    table_get (userPreferences s) id1 = Some p1 ->
    table_get (userPreferences s) id2 = Some p2 ->
    pref_userId p1 = pref_userId p2 -> id1 = id2.

(** A string holds a code unit that is not white space. *)
Fixpoint has_visible_unit (s : string) : bool :=
  match s with
  | EmptyString => false
  | String c s' => negb (is_white_space c) || has_visible_unit s'
  end.

(** Every code unit of a string satisfies a test. *)
Fixpoint all_units (p : ascii -> bool) (s : string) : bool :=
  match s with
  | EmptyString => true
  | String c s' => p c && all_units p s'
  end.

(** The code units a normalized tag is made of: a-z, 0-9 and the hyphen. *)
Definition tag_letter (c : ascii) : bool :=
  let n := nat_of_ascii c in
  ((97 <=? n)%nat && (n <=? 122)%nat)
  || ((48 <=? n)%nat && (n <=? 57)%nat)
  || (n =? 45)%nat.

(** Carol has never used the application; Alice has a thread with one
    message in [store_chat]. *)
Definition ctx_carol (now : Z) : Ctx := mkCtx (Some "carol") allow_all now.

Definition store_thread : Store :=
  snd (AgentEndpoint.createThread (ctx_alice 4000) (Some "Groceries")
         store_commented).

Definition store_chat : Store :=
  snd (AgentEndpoint.sendMessage (ctx_alice 4500) 0%nat "what is left to buy?"
         store_thread).

(** Alice's preferences exist, with the dark theme. *)
Definition store_prefs : Store :=
  snd (PreferencesEndpoint.updateTheme (ctx_alice 5000) dark store_chat).

(** Alice has three tasks: one completed, two open with due dates. *)
Definition store_three_tasks : Store :=
  snd (TasksEndpoint.create (ctx_alice 1200)
         (TasksEndpoint.mkCreateArgs "File taxes" None (Some high)
                                     (Some 9000) None)
         (snd (TasksEndpoint.create (ctx_alice 1100)
                 (TasksEndpoint.mkCreateArgs "Call the bank" None None
                                             (Some 7000) None)
                 store_completed))).

(** A task that is in both stores has kept its owner and its creation
    time. *)
Definition task_history_kept (s s' : Store) : Prop :=
  forall id t t',
    table_get (tasks s) id = Some t ->
    table_get (tasks s') id = Some t' ->
    task_userId t' = task_userId t /\ task_createdAt t' = task_createdAt t.

(** A call either fails and returns the store it was given, or succeeds
    and keeps the history of every task. *)
Definition settles {A} (m : M A) (s : Store) : Prop :=
  (exists e, m s = (inl e, s))
  \/ (exists a s', m s = (inr a, s') /\ task_history_kept s s').

(** The mutations of [convex/endpoints/preferences.ts]. *)
Definition is_preferences_mutation (op : EndpointMutation) : bool :=
  match op with
  | M_pref_initialize | M_pref_update _
  | M_pref_updateTheme _ | M_pref_updateDefaultView _ => true
  | _ => false
  end.

(** The user has no preferences document. *)
Definition no_preferences (s : Store) (u : UserId) : Prop :=
  forall id p, table_get (userPreferences s) id = Some p -> pref_userId p <> u.

(** The thread a mutation of the assistant endpoints works on. *)
Definition thread_target (op : EndpointMutation) : option Id :=
  match op with
  | M_agent_updateThread threadId _ _ | M_agent_archiveThread threadId
  | M_agent_deleteThread threadId | M_agent_sendMessage threadId _
  | M_agent_storeAssistantMessage threadId _ _ => Some threadId
  | _ => None
  end.

(** The "not authorized" failures of the assistant endpoints. *)
Definition is_thread_unauthorized (e : Error) : bool :=
  match e with
  | Err msg =>
      String.eqb msg "Not authorized to update this thread"
      || String.eqb msg "Not authorized to archive this thread"
      || String.eqb msg "Not authorized to delete this thread"
      || String.eqb msg "Not authorized to send messages in this thread"
      || String.eqb msg "Not authorized"
  | _ => false
  end.

(** The bucket of a mutation, if it has one, admits the caller. *)
Definition bucket_admits (ctx : Ctx) (u : UserId) (op : EndpointMutation)
  : Prop :=
  match endpoint_bucket op with
  | Some name => rateLimit ctx name u = RateOk
  | None => True
  end.

(* ================================================================= *)
(** ** Lemmas on tables *)

Section TableLemmas.
Context {A : Type}.
Implicit Types (t : Table A) (d : A) (id : Id).

Lemma table_get_Some_lt t id d :
  table_get t id = Some d -> (id < length t)%nat.
Proof.
  unfold table_get. destruct (t !! id) as [o|] eqn:E; [|discriminate].
  intros _. eapply lookup_lt_Some, E.
Qed.

Lemma table_get_length t : table_get t (length t) = None.
Proof.
  unfold table_get. rewrite lookup_ge_None_2; [reflexivity | lia].
Qed.

Lemma table_get_insert_eq t id (x : option A) :
  (id < length t)%nat -> table_get (<[id := x]> t) id = x.
Proof.
  intros H. unfold table_get. rewrite list_lookup_insert_eq by exact H.
  destruct x; reflexivity.
Qed.

Lemma table_get_insert_ne t id id' (x : option A) :
  id <> id' -> table_get (<[id := x]> t) id' = table_get t id'.
Proof.
  intros H. unfold table_get. rewrite list_lookup_insert_ne by exact H.
  reflexivity.
Qed.

Lemma table_get_snoc_new t d : table_get (t ++ [Some d]) (length t) = Some d.
Proof.
  unfold table_get. rewrite list_lookup_middle; reflexivity.
Qed.

Lemma table_get_snoc_old t (x : option A) id d :
  table_get t id = Some d -> table_get (t ++ [x]) id = Some d.
Proof.
  intros H. pose proof (table_get_Some_lt _ _ _ H) as Hlt.
  unfold table_get in *. rewrite lookup_app_l by exact Hlt. exact H.
Qed.

Lemma table_docs_from_spec t : forall (i id : Id) d,
  In (id, d) (table_docs_from i t)
  <-> (i <= id)%nat /\ table_get t (id - i) = Some d.
Proof.
  induction t as [|o t IH]; intros i id d; simpl.
  - split; [tauto | intros [_ H]; discriminate].
  - assert (Hstep : In (id, d) (table_docs_from (S i) t)
                    <-> (S i <= id)%nat
                        /\ table_get (o :: t) (id - i) = Some d).
    { rewrite IH. split; intros [Hle Hget]; split; try lia.
      - replace (id - i)%nat with (S (id - S i)) by lia. exact Hget.
      - replace (id - i)%nat with (S (id - S i)) in Hget by lia. exact Hget. }
    destruct o as [d0|]; simpl.
    + rewrite Hstep. split.
      * intros [Heq | [Hle Hget]].
        -- inversion Heq; subst. split; [lia|].
           replace (id - id)%nat with 0%nat by lia. reflexivity.
        -- split; [lia | exact Hget].
      * intros [Hle Hget].
        destruct (Nat.eq_dec i id) as [->|Hne].
        -- left. replace (id - id)%nat with 0%nat in Hget by lia.
           unfold table_get in Hget; simpl in Hget. congruence.
        -- right. split; [lia | exact Hget].
    + rewrite Hstep. split.
      * intros [Hle Hget]. split; [lia | exact Hget].
      * intros [Hle Hget].
        destruct (Nat.eq_dec i id) as [->|Hne].
        -- replace (id - id)%nat with 0%nat in Hget by lia.
           unfold table_get in Hget; simpl in Hget. discriminate.
        -- split; [lia | exact Hget].
Qed.

Lemma table_docs_spec t id d :
  In (id, d) (table_docs t) <-> table_get t id = Some d.
Proof.
  unfold table_docs. rewrite table_docs_from_spec.
  replace (id - 0)%nat with id by lia.
  split; [tauto | intros H; split; [lia | exact H]].
Qed.
End TableLemmas.

(** [Math.max(...)] of a non-empty array is one of its elements and
    bounds them all. *)
Lemma math_max_spec (xs : list Z) : forall x,
  In (Tasks.math_max x xs) (x :: xs)
  /\ (forall y, In y (x :: xs) -> y <= Tasks.math_max x xs).
Proof.
  unfold Tasks.math_max.
  induction xs as [|z xs IH]; intros x; simpl.
  - split; [tauto | intros y [->|[]]; lia].
  - destruct (IH (Z.max x z)) as [Hin Hub]. simpl in Hin. split.
    + destruct Hin as [Heq | Hin].
      * rewrite <- Heq.
        destruct (Z.max_spec x z) as [[_ ->]|[_ ->]]; tauto.
      * tauto.
    + intros y Hy.
      assert (Hm : Z.max x z <= fold_left Z.max xs (Z.max x z))
        by (apply Hub; left; reflexivity).
      destruct Hy as [->|[->|Hy]]; [lia | lia |].
      apply Hub. right. exact Hy.
Qed.

(* ================================================================= *)
(** ** Properties of the endpoint layer *)

(** C3.  A [create] call that the [createTask] bucket denies fails with
    the rate-limit error carrying the bucket's retry-after duration, and
    leaves the whole store as it was: no task and no activity record is
    inserted. *)
Theorem create_rate_limited_no_mutation
    (ctx : Ctx) (u : UserId) (retryAfter : Z)
    (args : TasksEndpoint.CreateArgs) (s : Store) :
  authUser ctx = Some u ->
  rateLimit ctx "createTask" u = RateDenied retryAfter ->
  TasksEndpoint.create ctx args s = (inl (ErrRateLimit retryAfter), s).
Proof.
  intros Hauth Hrate. unfold TasksEndpoint.create.
  rewrite Hauth, Hrate. reflexivity.
Qed.

Lemma create_rate_limited_no_mutation_witness :
  TasksEndpoint.create ctx_alice_limited buy_milk store_one_task
  = (inl (ErrRateLimit 750), store_one_task).
Proof.
  apply (create_rate_limited_no_mutation ctx_alice_limited "alice" 750);
    reflexivity.
Defined.

(** C2, as worded, fails: the rate limiter is consulted before the
    record is fetched, so a caller whose bucket is empty gets the
    rate-limit error, not "not authorized", even though the task he
    names belongs to somebody else. *)
Lemma ownership_check_unconditional_fails : ~ ownership_check_unconditional.
Proof.
  intros H.
  destruct (H (mkCtx (Some "bob") (deny_all 750) 5000) "bob" "alice"
              (TaskComplete 0%nat) store_one_task
              eq_refl eq_refl ltac:(discriminate))
    as [e [Hrun Hunauth]].
  vm_compute in Hrun. inversion Hrun; subst e. discriminate Hunauth.
Qed.

(** C2 (amended).  When the caller is authenticated and the bucket of the
    mutation admits the call, each of task update, complete, delete and
    comment create, update, delete that references an existing record
    owned by another user fails with its "not authorized" error and
    returns the store it was given. *)
Theorem foreign_record_unauthorized_no_mutation
    (ctx : Ctx) (u owner : UserId) (op : Mutation) (s : Store) :
  authUser ctx = Some u ->
  rateLimit ctx (bucket op) u = RateOk ->
  target_owner s op = Some owner ->
  owner <> u ->
  exists e, run_mutation ctx op s = (Some e, s) /\ is_unauthorized e = true.
Proof.
  intros Hauth Hrate Howner Hne.
  destruct op; simpl in Hrate, Howner |- *;
    unfold outcome,
      TasksEndpoint.update, TasksEndpoint.complete, TasksEndpoint.remove,
      CommentsEndpoint.create, CommentsEndpoint.update, CommentsEndpoint.remove,
      bind, Tasks.getTaskById, TaskComments.getTaskCommentById, db_get;
    rewrite Hauth, Hrate; simpl;
    match type of Howner with
    | option_map _ ?g = _ => destruct g as [r|]; [|discriminate]
    end;
    simpl in Howner; injection Howner as Howner;
    apply String.eqb_neq in Hne; rewrite Howner, Hne; simpl;
    eexists; split; reflexivity.
Qed.

Lemma foreign_record_unauthorized_no_mutation_witness :
  exists e,
    run_mutation (ctx_bob 3000) (CommentRemove 0%nat) store_commented
    = (Some e, store_commented)
    /\ is_unauthorized e = true.
Proof.
  apply (foreign_record_unauthorized_no_mutation
           (ctx_bob 3000) "bob" "alice" (CommentRemove 0%nat) store_commented);
    [reflexivity | reflexivity | reflexivity | discriminate].
Defined.

(** The ownership loop of [reorder] only reads. *)
Lemma verify_ownership_reads_only (ctx : Ctx) (u : UserId) (s : Store) :
  forall updates, snd (TasksEndpoint.verify_ownership ctx u updates s) = s.
Proof.
  induction updates as [|update rest IH]; simpl; [reflexivity|].
  unfold bind, Tasks.getTaskById, db_get; simpl.
  destruct (table_get (tasks s) (fst update)) as [t|]; [|reflexivity].
  destruct (negb (String.eqb (task_userId t) u)); [reflexivity | exact IH].
Qed.

Lemma verify_ownership_rejects (ctx : Ctx) (u : UserId) (s : Store) :
  authUser ctx = Some u ->
  forall updates,
    Exists (not_owned ctx s) updates ->
    exists e, TasksEndpoint.verify_ownership ctx u updates s = (inl e, s).
Proof.
  intros Hauth updates Hex. unfold not_owned in Hex.
  induction updates as [|update rest IH]; [inversion Hex|].
  simpl. unfold bind, Tasks.getTaskById, db_get; simpl.
  destruct (table_get (tasks s) (fst update)) as [t|] eqn:Hget;
    [|eexists; reflexivity].
  destruct (String.eqb (task_userId t) u) eqn:Hown; simpl;
    [|eexists; reflexivity].
  apply IH. inversion Hex as [? ? Hhead | ? ? Htail]; subst; [|exact Htail].
  rewrite Hget in Hhead. apply String.eqb_eq in Hown.
  exfalso. apply Hhead. rewrite Hauth, Hown. reflexivity.
Qed.

Lemma verify_ownership_accepts (ctx : Ctx) (u : UserId) (s : Store) :
  forall updates s',
    TasksEndpoint.verify_ownership ctx u updates s = (inr tt, s') ->
    Forall (fun update =>
              exists t, table_get (tasks s) (fst update) = Some t
                        /\ task_userId t = u) updates.
Proof.
  induction updates as [|update rest IH]; intros s' Hrun; [constructor|].
  simpl in Hrun. unfold bind, Tasks.getTaskById, db_get in Hrun; simpl in Hrun.
  destruct (table_get (tasks s) (fst update)) as [t|] eqn:Hget;
    [|discriminate].
  destruct (String.eqb (task_userId t) u) eqn:Hown; simpl in Hrun;
    [|discriminate].
  constructor.
  - exists t. split; [exact Hget | apply String.eqb_eq, Hown].
  - eapply IH, Hrun.
Qed.

(** C6.  When a reorder batch names a task that is missing or that is not
    the caller's, [reorder] fails and returns the store it was given: no
    position is written, also not for the caller's own tasks of the
    batch. *)
Theorem reorder_rejects_before_writing
    (ctx : Ctx) (updates : list (Id * Z)) (s : Store) :
  Exists (not_owned ctx s) updates ->
  exists e, TasksEndpoint.reorder ctx updates s = (inl e, s).
Proof.
  intros Hex. unfold TasksEndpoint.reorder.
  destruct (authUser ctx) as [u|] eqn:Hauth; [|eexists; reflexivity].
  destruct (rateLimit ctx "batchUpdatePositions" u); [|eexists; reflexivity].
  destruct (verify_ownership_rejects ctx u s Hauth updates Hex) as [e He].
  exists e. unfold bind. rewrite He. reflexivity.
Qed.

Lemma reorder_rejects_before_writing_witness :
  exists e,
    TasksEndpoint.reorder (ctx_alice 3000) [(0%nat, 5); (1%nat, 7)]
      store_two_owners
    = (inl e, store_two_owners).
Proof.
  apply (reorder_rejects_before_writing
           (ctx_alice 3000) [(0%nat, 5); (1%nat, 7)] store_two_owners).
  apply Exists_cons_tl, Exists_cons_hd. vm_compute. discriminate.
Defined.

(** A reorder that goes through has found every task of the batch and
    found it owned by the caller. *)
Lemma reorder_success_all_owned
    (ctx : Ctx) (updates : list (Id * Z)) (s s' : Store) (r : bool) :
  TasksEndpoint.reorder ctx updates s = (inr r, s') ->
  exists u, authUser ctx = Some u
    /\ Forall (fun update =>
                 exists t, table_get (tasks s) (fst update) = Some t
                           /\ task_userId t = u) updates.
Proof.
  unfold TasksEndpoint.reorder. intros Hrun.
  destruct (authUser ctx) as [u|]; [|discriminate].
  destruct (rateLimit ctx "batchUpdatePositions" u); [|discriminate].
  exists u. split; [reflexivity|].
  unfold bind in Hrun.
  destruct (TasksEndpoint.verify_ownership ctx u updates s) as [[e|[]] s1] eqn:Hv;
    [discriminate|].
  eapply verify_ownership_accepts, Hv.
Qed.

(** What [getTasksByUser] lists: exactly the live tasks of the user. *)
Lemma getTasksByUser_spec (ctx : Ctx) (u : UserId) (s : Store) :
  exists l, Tasks.getTasksByUser ctx u s = (inr l, s)
    /\ forall id t, In (id, t) l
                    <-> table_get (tasks s) id = Some t /\ task_userId t = u.
Proof.
  eexists. split; [reflexivity|].
  intros id t. rewrite <- in_rev, filter_In, table_docs_spec. simpl.
  rewrite String.eqb_eq. reflexivity.
Qed.

Lemma getMaxPositionForUser_spec (ctx : Ctx) (u : UserId) (s : Store) :
  exists m, Tasks.getMaxPositionForUser ctx u s = (inr m, s)
    /\ ((owns_no_task s u /\ m = 0) \/ is_max_position s u m).
Proof.
  destruct (getTasksByUser_spec ctx u s) as [l [Hrun Hl]].
  unfold Tasks.getMaxPositionForUser, bind. rewrite Hrun.
  destruct (map (fun d : nat * Task => task_position (snd d)) l)
    as [|p ps] eqn:Hmap.
  - exists 0. split; [reflexivity|]. left. split; [|reflexivity].
    intros id t Hget Hown.
    apply map_eq_nil in Hmap. subst l.
    apply (proj2 (Hl id t)). split; assumption.
  - exists (Tasks.math_max p ps). split; [reflexivity|]. right.
    destruct (math_max_spec ps p) as [Hin Hub]. rewrite <- Hmap in Hin, Hub.
    split.
    + apply in_map_iff in Hin. destruct Hin as [[id t] [Hpos Hd]].
      apply Hl in Hd. destruct Hd as [Hget Hown].
      exists id, t. auto.
    + intros id t Hget Hown. apply Hub.
      apply in_map_iff. exists (id, t). split; [reflexivity|].
      apply Hl. split; assumption.
Qed.

(** [binary64_round] keeps the integers up to 2^53 in magnitude. *)
Lemma binary64_round_exact (z : Z) :
  - 9007199254740992 <= z <= 9007199254740992 -> binary64_round z = z.
Proof.
  intros Hz. unfold binary64_round.
  destruct (Z.eq_dec (Z.abs z) 9007199254740992) as [Hedge|Hin].
  - assert (Hcases : z = 9007199254740992 \/ z = - 9007199254740992) by lia.
    destruct Hcases as [-> | ->]; reflexivity.
  - assert (Hlog : Z.log2 (Z.abs z) - 52 <= 0).
    { destruct (Z.eq_dec (Z.abs z) 0) as [Hzero|Hpos].
      - rewrite Hzero. simpl. lia.
      - assert (Hlt : Z.log2 (Z.abs z) < 53); [|lia].
        apply Z.log2_lt_pow2; [lia|].
        change (2 ^ 53) with 9007199254740992. lia. }
    apply Z.leb_le in Hlog. rewrite Hlog. reflexivity.
Qed.

(** Below 2^53, adding one to a position is exact. *)
Lemma number_add_one_exact (m : Z) :
  - 9007199254740992 <= m < 9007199254740992 -> number_add m 1 = m + 1.
Proof.
  intros Hm. unfold number_add. apply binary64_round_exact. lia.
Qed.

(** [number_add] is the addition of binary64 numbers: checked against
    the primitive floats on both sides of 2^53 and 2^54, where the
    rounding starts and where its step doubles. *)
Lemma number_add_agrees_with_binary64 :
  forallb
    (fun ab : Z * Z =>
       math_round (PrimFloat.add (to_float (fst ab)) (to_float (snd ab)))
       =? number_add (fst ab) (snd ab))
    [ (0, 1); (41, 1);
      (9007199254740990, 1); (9007199254740991, 1); (9007199254740992, 1);
      (9007199254740992, 2); (9007199254740992, 3); (9007199254740994, 1);
      (9007199254740994, 3); (9007199254740996, 1);
      (18014398509481982, 1); (18014398509481984, 1);
      (18014398509481984, 2); (18014398509481984, 6);
      (18014398509481988, 2); (4611686018427387904, 1) ]
  = true.
Proof. vm_compute. reflexivity. Qed.

(** C4, as worded, fails.  Alice moves her task to position 2^53 with
    [reorder] and creates another task: the sum of 2^53 and 1 rounds to
    2^53, so the new task gets the position of the first, not one more. *)
Lemma create_position_claim_fails : ~ create_position_claim.
Proof.
  intros Hclaim.
  destruct (Hclaim (ctx_alice 2000) buy_milk store_far_position
              (snd (TasksEndpoint.create (ctx_alice 2000) buy_milk
                      store_far_position))
              1%nat eq_refl)
    as (u & t & Hauth & _ & Hget & _ & Hposition).
  injection Hauth as <-.
  vm_compute in Hget. injection Hget as <-.
  cbn [task_position] in Hposition.
  destruct Hposition as [[Hnone _] | [m [[_ Hbound] Hm]]].
  - apply (Hnone 0%nat
             (mkTask "alice" "Buy milk" None pending high None None
                     9007199254740992 None 1000 1500)); reflexivity.
  - specialize (Hbound 0%nat
                  (mkTask "alice" "Buy milk" None pending high None None
                          9007199254740992 None 1000 1500)
                  eq_refl eq_refl).
    cbn [task_position] in Hbound. lia.
Qed.

(** C4 (amended).  A successful [create] inserts a task that was not
    there before, owned by the caller; its position is 1 when the caller
    owned no task, and otherwise the binary64 sum of 1 and the largest
    position [m] among the caller's tasks, which is [m + 1] whenever [m]
    lies between -2^53 and 2^53 - 1 (positions are integers here). *)
Theorem create_position_is_max_plus_one
    (ctx : Ctx) (args : TasksEndpoint.CreateArgs) (s s' : Store) (taskId : Id) :
  TasksEndpoint.create ctx args s = (inr taskId, s') ->
  exists u t,
    authUser ctx = Some u
    /\ table_get (tasks s) taskId = None
    /\ table_get (tasks s') taskId = Some t
    /\ task_userId t = u
    /\ ((owns_no_task s u /\ task_position t = 1)
        \/ (exists m,
              is_max_position s u m
              /\ task_position t = number_add m 1
              /\ (- 9007199254740992 <= m < 9007199254740992 ->
                  task_position t = m + 1))).
Proof.
  unfold TasksEndpoint.create. intros Hrun.
  destruct (authUser ctx) as [u|]; [|discriminate].
  destruct (rateLimit ctx "createTask" u); [|discriminate].
  destruct (negb _); [discriminate|].
  destruct (getMaxPositionForUser_spec ctx u s) as [m [Hmax Hm]].
  unfold bind in Hrun. rewrite Hmax in Hrun.
  unfold Tasks.createTask, TaskActivity.createTaskActivity, db_insert, ret
    in Hrun.
  cbn [fst snd tget tset tasksT taskActivityT Tasks.c_userId Tasks.c_title
       Tasks.c_description Tasks.c_status Tasks.c_priority Tasks.c_dueDate
       Tasks.c_position Tasks.c_tags tasks] in Hrun.
  injection Hrun as <- <-. cbn [tasks].
  eexists u, _. split; [reflexivity|].
  split; [apply table_get_length|].
  split; [apply table_get_snoc_new|].
  split; [reflexivity|]. cbn [task_position].
  destruct Hm as [[Hnone ->] | Hm].
  - left. split; [exact Hnone | reflexivity].
  - right. exists m. split; [exact Hm|]. split; [reflexivity|].
    apply number_add_one_exact.
Qed.

Lemma create_position_is_max_plus_one_witness :
  exists u t,
    authUser (ctx_alice 1200) = Some u
    /\ table_get (tasks store_one_task) 1%nat = None
    /\ table_get
         (tasks (snd (TasksEndpoint.create (ctx_alice 1200) buy_milk
                        store_one_task))) 1%nat = Some t
    /\ task_userId t = u
    /\ ((owns_no_task store_one_task u /\ task_position t = 1)
        \/ (exists m,
              is_max_position store_one_task u m
              /\ task_position t = number_add m 1
              /\ (- 9007199254740992 <= m < 9007199254740992 ->
                  task_position t = m + 1))).
Proof.
  apply (create_position_is_max_plus_one (ctx_alice 1200) buy_milk
           store_one_task
           (snd (TasksEndpoint.create (ctx_alice 1200) buy_milk store_one_task))
           1%nat).
  reflexivity.
Defined.

Arguments Validation.validateTaskInput : simpl never.

(** The validation step of [update] either stops the call or leaves the
    store alone. *)
Ltac step_update_validation H :=
  match type of H with
  | context [if ?c then _ else ret tt] =>
      destruct c;
      [ match type of H with
        | context [if negb ?v then _ else ret tt] =>
            destruct v; simpl in H; [|discriminate H]
        end
      | ]
  end.

(** C5.  A successful [update] whose [status] argument differs from the
    stored status appends exactly one record to the audit trail: with
    action [completed] when the new status is [completed], and otherwise
    with action [status_changed] and the payload [{from, to}] of the
    stored and the new status. *)
Theorem update_status_change_logs_once
    (ctx : Ctx) (args : TasksEndpoint.UpdateArgs) (s s' : Store)
    (id : Id) (task : Task) (st : TaskStatus) :
  TasksEndpoint.update ctx args s = (inr id, s') ->
  table_get (tasks s) (TasksEndpoint.u_id args) = Some task ->
  TasksEndpoint.u_status args = Some st ->
  st <> task_status task ->
  exists u,
    authUser ctx = Some u
    /\ taskActivity s'
       = taskActivity s
         ++ [Some (mkTaskActivity (TasksEndpoint.u_id args) u
                     (if TaskStatus_eqb st completed
                      then action_completed else status_changed)
                     (if TaskStatus_eqb st completed
                      then None else Some (StatusChange (task_status task) st))
                     (now ctx))].
Proof.
  unfold TasksEndpoint.update. intros Hrun Hget Hst Hne.
  destruct (authUser ctx) as [u|]; [|discriminate].
  destruct (rateLimit ctx "updateTask" u); [|discriminate].
  exists u. split; [reflexivity|].
  unfold bind, Tasks.getTaskById, db_get in Hrun. simpl in Hrun.
  rewrite Hget in Hrun.
  destruct (negb (String.eqb (task_userId task) u)); [discriminate|].
  unfold Tasks.updateTask, TaskActivity.createTaskActivity,
    db_patch, db_insert, TasksEndpoint.is_completed_arg in Hrun.
  rewrite Hst in Hrun.
  step_update_validation Hrun; simpl in Hrun; rewrite Hget in Hrun;
    destruct st, (task_status task); try congruence;
    simpl in Hrun; injection Hrun as <- <-; reflexivity.
Qed.

Lemma update_status_change_logs_once_witness :
  exists u,
    authUser (ctx_alice 2000) = Some u
    /\ taskActivity
         (snd (TasksEndpoint.update (ctx_alice 2000)
                 (set_status 0%nat in_progress) store_one_task))
       = taskActivity store_one_task
         ++ [Some (mkTaskActivity 0%nat u status_changed
                     (Some (StatusChange pending in_progress)) 2000)].
Proof.
  apply (update_status_change_logs_once
           (ctx_alice 2000) (set_status 0%nat in_progress) store_one_task _
           0%nat
           (mkTask "alice" "Buy milk" None pending high None None 1 None
                   1000 1000)
           in_progress);
    [reflexivity | reflexivity | reflexivity | discriminate].
Defined.

(** C10.  On a task of the caller that is already completed, an [update]
    with status [completed] that goes through appends one audit record
    with action [completed] and leaves [completedAt] as it was; and the
    call does go through when it carries no other field to validate. *)
Theorem update_completed_again
    (ctx : Ctx) (u : UserId) (args : TasksEndpoint.UpdateArgs)
    (s : Store) (task : Task) :
  authUser ctx = Some u ->
  rateLimit ctx "updateTask" u = RateOk ->
  table_get (tasks s) (TasksEndpoint.u_id args) = Some task ->
  task_userId task = u ->
  task_status task = completed ->
  TasksEndpoint.u_status args = Some completed ->
  (forall id s',
      TasksEndpoint.update ctx args s = (inr id, s') ->
      id = TasksEndpoint.u_id args
      /\ taskActivity s'
         = taskActivity s
           ++ [Some (mkTaskActivity (TasksEndpoint.u_id args) u
                       action_completed None (now ctx))]
      /\ exists task',
           table_get (tasks s') (TasksEndpoint.u_id args) = Some task'
           /\ task_status task' = completed
           /\ task_completedAt task' = task_completedAt task)
  /\ (TasksEndpoint.u_title args = None ->
      TasksEndpoint.u_description args = None ->
      TasksEndpoint.u_dueDate args = None ->
      TasksEndpoint.u_tags args = None ->
      exists s', TasksEndpoint.update ctx args s
                 = (inr (TasksEndpoint.u_id args), s')).
Proof.
  intros Hauth Hrate Hget Hown Hdone Hst.
  pose proof (table_get_Some_lt _ _ _ Hget) as Hlt.
  apply String.eqb_eq in Hown.
  unfold TasksEndpoint.update. rewrite Hauth, Hrate.
  unfold bind, Tasks.getTaskById, db_get. simpl. rewrite Hget, Hown. simpl.
  unfold Tasks.updateTask, TaskActivity.createTaskActivity,
    db_patch, db_insert, TasksEndpoint.is_completed_arg.
  rewrite Hst, Hdone. simpl. split.
  - intros id s' Hrun.
    step_update_validation Hrun; simpl in Hrun; rewrite Hget in Hrun;
      simpl in Hrun; injection Hrun as <- <-; simpl;
      (split; [reflexivity|]); (split; [reflexivity|]);
      eexists; (split; [apply table_get_insert_eq, Hlt|]);
      split; reflexivity.
  - intros -> -> -> ->. simpl. rewrite Hget. eexists. reflexivity.
Qed.

Lemma update_completed_again_witness :
  exists s',
    TasksEndpoint.update (ctx_alice 3000) (set_status 0%nat completed)
      store_completed = (inr 0%nat, s')
    /\ taskActivity s'
       = taskActivity store_completed
         ++ [Some (mkTaskActivity 0%nat "alice" action_completed None 3000)]
    /\ exists task',
         table_get (tasks s') 0%nat = Some task'
         /\ task_status task' = completed
         /\ task_completedAt task' = Some 2000.
Proof.
  destruct (update_completed_again
              (ctx_alice 3000) "alice" (set_status 0%nat completed)
              store_completed
              (mkTask "alice" "Buy milk" None completed high None (Some 2000) 1
                      None 1000 2000)
              eq_refl eq_refl eq_refl eq_refl eq_refl eq_refl)
    as [Hprops Hruns].
  destruct (Hruns eq_refl eq_refl eq_refl eq_refl) as [s' Hs'].
  exists s'. split; [exact Hs'|].
  destruct (Hprops _ _ Hs') as [_ Hrest]. exact Hrest.
Defined.

(** *** Completion timestamp *)

(** [complete] leaves the task completed and stamped. *)
Lemma complete_establishes_invariant
    (ctx : Ctx) (id id' : Id) (s s' : Store) :
  TasksEndpoint.complete ctx id s = (inr id', s') ->
  exists t, table_get (tasks s') id = Some t /\ completion_invariant t.
Proof.
  unfold TasksEndpoint.complete. intros Hrun.
  destruct (authUser ctx) as [u|]; [|discriminate].
  destruct (rateLimit ctx "updateTask" u); [|discriminate].
  unfold bind, Tasks.getTaskById, db_get in Hrun. simpl in Hrun.
  destruct (table_get (tasks s) id) as [task|] eqn:Hget; [|discriminate].
  destruct (negb (String.eqb (task_userId task) u)); [discriminate|].
  unfold Tasks.completeTask, TaskActivity.createTaskActivity,
    db_patch, db_insert in Hrun.
  simpl in Hrun. rewrite Hget in Hrun. simpl in Hrun.
  injection Hrun as <- <-. simpl.
  eexists. split.
  - apply table_get_insert_eq. eapply table_get_Some_lt, Hget.
  - unfold completion_invariant. simpl. split; [reflexivity | discriminate].
Qed.

(** [update] keeps one half of the invariant: a task that is completed
    after the call carries a completion timestamp, provided that held
    before the call. *)
Lemma update_keeps_completed_stamped
    (ctx : Ctx) (args : TasksEndpoint.UpdateArgs) (s s' : Store)
    (id : Id) (task : Task) :
  TasksEndpoint.update ctx args s = (inr id, s') ->
  table_get (tasks s) (TasksEndpoint.u_id args) = Some task ->
  (task_status task = completed -> task_completedAt task <> None) ->
  exists task',
    table_get (tasks s') (TasksEndpoint.u_id args) = Some task'
    /\ (task_status task' = completed -> task_completedAt task' <> None).
Proof.
  unfold TasksEndpoint.update. intros Hrun Hget Hinv.
  pose proof (table_get_Some_lt _ _ _ Hget) as Hlt.
  destruct (authUser ctx) as [u|]; [|discriminate].
  destruct (rateLimit ctx "updateTask" u); [|discriminate].
  unfold bind, Tasks.getTaskById, db_get in Hrun. simpl in Hrun.
  rewrite Hget in Hrun.
  destruct (negb (String.eqb (task_userId task) u)); [discriminate|].
  unfold Tasks.updateTask, TaskActivity.createTaskActivity,
    db_patch, db_insert, TasksEndpoint.is_completed_arg in Hrun.
  step_update_validation Hrun; simpl in Hrun; rewrite Hget in Hrun;
    simpl in Hrun;
    destruct (TasksEndpoint.u_status args) as [[]|];
    destruct (task_status task) eqn:Hstatus;
    destruct (TasksEndpoint.u_priority args) as [[]|];
    destruct (task_priority task); simpl in Hrun;
    injection Hrun as <- <-; simpl;
    (eexists; split; [apply table_get_insert_eq, Hlt|]);
    simpl; rewrite ?Hstatus; simpl;
    intros Hc; try discriminate; auto.
Qed.

(** C1, at the input where the code departs from it: Alice creates a
    task, completes it at time 2000 and sets it back to [pending] at time
    3000 through [update].  The call succeeds, the task is [pending], and
    its [completedAt] is still the stamp of time 2000. *)
Theorem update_away_from_completed_keeps_completedAt :
  exists s' t,
    TasksEndpoint.update (ctx_alice 3000) (set_status 0%nat pending)
      store_completed = (inr 0%nat, s')
    /\ table_get (tasks s') 0%nat = Some t
    /\ task_status t = pending
    /\ task_completedAt t = Some 2000
    /\ ~ completion_invariant t.
Proof.
  eexists _, _. split; [vm_compute; reflexivity|].
  split; [vm_compute; reflexivity|].
  split; [reflexivity|]. split; [reflexivity|].
  unfold completion_invariant. simpl. intros [H _].
  discriminate H. discriminate.
Qed.

(** *** Audit trail of deletions *)

(** The sibling path: [remove] logs a [deleted] record before it deletes
    the task. *)
Lemma remove_logs_deleted (ctx : Ctx) (id : Id) (s s' : Store) (r : bool) :
  TasksEndpoint.remove ctx id s = (inr r, s') ->
  exists u,
    authUser ctx = Some u
    /\ taskActivity s'
       = taskActivity s ++ [Some (mkTaskActivity id u deleted None (now ctx))]
    /\ table_get (tasks s') id = None.
Proof.
  unfold TasksEndpoint.remove. intros Hrun.
  destruct (authUser ctx) as [u|]; [|discriminate].
  destruct (rateLimit ctx "deleteTask" u); [|discriminate].
  unfold bind, Tasks.getTaskById, db_get in Hrun. simpl in Hrun.
  destruct (table_get (tasks s) id) as [task|] eqn:Hget; [|discriminate].
  destruct (negb (String.eqb (task_userId task) u)); [discriminate|].
  unfold Tasks.deleteTask, TaskActivity.createTaskActivity,
    db_delete, db_insert in Hrun.
  simpl in Hrun. rewrite Hget in Hrun. simpl in Hrun.
  injection Hrun as _ <-. simpl.
  exists u. repeat split.
  apply table_get_insert_eq. eapply table_get_Some_lt, Hget.
Qed.

Lemma delete_tasks_keep_activity {B : Type} (l : list (Id * B)) :
  forall s,
    taskActivity
      (snd (promise_all (map (fun task => db_delete tasksT (fst task)) l) s))
    = taskActivity s.
Proof.
  induction l as [|task l IH]; intros s; simpl; [reflexivity|].
  destruct (db_delete tasksT (fst task) s) as [r s1] eqn:Hdel.
  specialize (IH s1).
  destruct (promise_all _ s1) as [rs s2]. simpl in IH |- *.
  rewrite IH. unfold db_delete in Hdel. simpl in Hdel.
  destruct (table_get (tasks s) (fst task));
    injection Hdel as _ <-; reflexivity.
Qed.

(** The bulk path never writes to the audit trail, whatever it deletes. *)
Lemma deleteCompleted_keeps_activity (ctx : Ctx) (s : Store) :
  taskActivity (snd (TasksEndpoint.deleteCompleted ctx s)) = taskActivity s.
Proof.
  unfold TasksEndpoint.deleteCompleted.
  destruct (authUser ctx) as [u|]; [|reflexivity].
  destruct (rateLimit ctx "deleteTask" u); [|reflexivity].
  unfold bind, Tasks.deleteCompletedTasksByUser, bind,
    Tasks.getTasksByUserAndStatus, bind, db_query, ret. simpl.
  match goal with
  | |- context [promise_all (map ?f ?l) s] =>
      pose proof (delete_tasks_keep_activity l s) as Hkeep;
      destruct (promise_all (map f l) s) as [[e|rs] s1]
  end; exact Hkeep.
Qed.

(** C7, at the input where the code departs from it: Alice owns one
    completed task, with two audit records (created, completed).
    [deleteCompleted] reports one deletion, the task is gone, and the
    audit trail has not received any record for it. *)
Theorem deleteCompleted_logs_nothing :
  exists s' t,
    TasksEndpoint.deleteCompleted (ctx_alice 3000) store_completed
    = (inr 1, s')
    /\ table_get (tasks store_completed) 0%nat = Some t
    /\ task_status t = completed
    /\ table_get (tasks s') 0%nat = None
    /\ taskActivity s' = taskActivity store_completed.
Proof.
  eexists _, _. split; [vm_compute; reflexivity|].
  split; [vm_compute; reflexivity|].
  repeat split.
Qed.

(** *** Validation on update *)

(** When [update] runs the validator and the validator objects, the call
    fails with the joined messages and the store is untouched. *)
Lemma update_rejects_invalid_fields
    (ctx : Ctx) (u : UserId) (args : TasksEndpoint.UpdateArgs)
    (s : Store) (task : Task) :
  authUser ctx = Some u ->
  rateLimit ctx "updateTask" u = RateOk ->
  table_get (tasks s) (TasksEndpoint.u_id args) = Some task ->
  task_userId task = u ->
  truthy_string (TasksEndpoint.u_title args)
  || truthy_string (TasksEndpoint.u_description args)
  || truthy_number (TasksEndpoint.u_dueDate args)
  || truthy_present (TasksEndpoint.u_tags args) = true ->
  forall validation,
    validation
    = Validation.validateTaskInput (now ctx)
        (Validation.mkTaskInput
           (if truthy_string (TasksEndpoint.u_title args)
            then patched (TasksEndpoint.u_title args) (task_title task)
            else task_title task)
           (TasksEndpoint.u_description args)
           (TasksEndpoint.u_dueDate args)
           (TasksEndpoint.u_tags args)) ->
    Validation.valid validation = false ->
    TasksEndpoint.update ctx args s
    = (inl (Err (join ", " (Validation.errors validation))), s).
Proof.
  intros Hauth Hrate Hget Hown Hany validation -> Hbad.
  apply String.eqb_eq in Hown.
  unfold TasksEndpoint.update. rewrite Hauth, Hrate.
  unfold bind, Tasks.getTaskById, db_get. cbn.
  rewrite Hget, Hown. cbn. rewrite Hany, Hbad. reflexivity.
Qed.

(** C9, at the input where the code departs from it: an [update] whose
    only field is the empty title.  The empty string is falsy, so the
    validator is not run; the call succeeds and stores the empty title,
    which [isValidTaskTitle] rejects. *)
Theorem update_accepts_empty_title :
  exists s' t,
    TasksEndpoint.update (ctx_alice 2000)
      (TasksEndpoint.mkUpdateArgs 0%nat (Some "") None None None None None)
      store_one_task
    = (inr 0%nat, s')
    /\ table_get (tasks s') 0%nat = Some t
    /\ task_title t = ""
    /\ Validation.isValidTaskTitle (task_title t) = false.
Proof.
  eexists _, _. split; [vm_compute; reflexivity|].
  split; [vm_compute; reflexivity|].
  split; reflexivity.
Qed.

(** The same title is refused by [create], which always validates. *)
Lemma create_rejects_empty_title (ctx : Ctx) (u : UserId) (s : Store) :
  authUser ctx = Some u ->
  rateLimit ctx "createTask" u = RateOk ->
  TasksEndpoint.create ctx
    (TasksEndpoint.mkCreateArgs "" None None None None) s
  = (inl (Err Validation.title_error), s).
Proof.
  intros Hauth Hrate. unfold TasksEndpoint.create.
  rewrite Hauth, Hrate. reflexivity.
Qed.

(* ================================================================= *)
(** ** Further lemmas on tables and on [Promise.all] *)

Lemma tasksT_laws : TableLaws tasksT.
Proof. split; intros; try destruct s; reflexivity. Qed.

Lemma taskCommentsT_laws : TableLaws taskCommentsT.
Proof. split; intros; try destruct s; reflexivity. Qed.

Lemma taskActivityT_laws : TableLaws taskActivityT.
Proof. split; intros; try destruct s; reflexivity. Qed.

Lemma userPreferencesT_laws : TableLaws userPreferencesT.
Proof. split; intros; try destruct s; reflexivity. Qed.

Lemma threadsT_laws : TableLaws threadsT.
Proof. split; intros; try destruct s; reflexivity. Qed.

Lemma messagesT_laws : TableLaws messagesT.
Proof. split; intros; try destruct s; reflexivity. Qed.

Lemma table_get_insert_None {A} (t : Table A) (id : Id) :
  table_get (<[id := None]> t) id = None.
Proof.
  destruct (Nat.lt_ge_cases id (length t)) as [Hlt|Hge].
  - apply table_get_insert_eq, Hlt.
  - unfold table_get. rewrite lookup_ge_None_2; [reflexivity|].
    rewrite length_insert. exact Hge.
Qed.

Lemma table_get_delete_all {A} (ids : list Id) :
  forall (t : Table A) (id : Id),
    table_get (delete_all ids t) id
    = if existsb (Nat.eqb id) ids then None else table_get t id.
Proof.
  unfold delete_all.
  induction ids as [|a ids IH]; intros t id; simpl; [reflexivity|].
  rewrite IH. destruct (existsb (Nat.eqb id) ids).
  - rewrite orb_true_r. reflexivity.
  - rewrite orb_false_r. destruct (Nat.eqb_spec id a) as [->|Hne].
    + apply table_get_insert_None.
    + apply table_get_insert_ne. congruence.
Qed.

(** Deleting distinct live documents together succeeds and removes
    exactly them. *)
Lemma promise_all_delete {A X} (T : TableRef A) (HT : TableLaws T)
    (key : X -> Id) (l : list X) :
  forall s,
    List.NoDup (map key l) ->
    (forall x, In x l -> table_get (tget T s) (key x) <> None) ->
    promise_all (map (fun x => db_delete T (key x)) l) s
    = (inr (map (fun _ => tt) l),
       tset T (delete_all (map key l) (tget T s)) s).
Proof.
  induction l as [|a l IH]; intros s Hnd Hlive; simpl.
  - unfold delete_all. simpl. rewrite (set_get T HT). reflexivity.
  - inversion Hnd as [|? ? Hnotin Hnd']; subst.
    unfold db_delete at 1.
    destruct (table_get (tget T s) (key a)) as [d|] eqn:Hget;
      [|exfalso; eapply Hlive; [left; reflexivity | exact Hget]].
    rewrite IH; [| exact Hnd' |].
    + rewrite (get_set T HT), (set_set T HT). reflexivity.
    + intros x Hx. rewrite (get_set T HT).
      rewrite table_get_insert_ne.
      * apply Hlive. right. exact Hx.
      * intros Heq. apply Hnotin. rewrite Heq. apply in_map, Hx.
Qed.

(** Patching live documents together succeeds; a document outside the
    batch is untouched, a document inside it is related to what it was by
    any preorder that each patch respects, and with distinct ids each
    document is the patch of what it was. *)
Lemma promise_all_patch {A X} (T : TableRef A) (HT : TableLaws T)
    (key : X -> Id) (g : X -> A -> A) (R : A -> A -> Prop)
    (Rrefl : forall d, R d d)
    (Rtrans : forall d1 d2 d3, R d1 d2 -> R d2 d3 -> R d1 d3)
    (Rg : forall x d, R d (g x d)) (l : list X) :
  forall s,
    (forall x, In x l -> table_get (tget T s) (key x) <> None) ->
    exists t',
      promise_all (map (fun x => db_patch T (key x) (g x)) l) s
      = (inr (map (fun _ => tt) l), tset T t' s)
      /\ (forall id, ~ In id (map key l) ->
                     table_get t' id = table_get (tget T s) id)
      /\ (forall id d, table_get (tget T s) id = Some d ->
                       exists d', table_get t' id = Some d' /\ R d d')
      /\ (forall id, table_get (tget T s) id = None -> table_get t' id = None)
      /\ (List.NoDup (map key l) ->
          forall x d, In x l -> table_get (tget T s) (key x) = Some d ->
                      table_get t' (key x) = Some (g x d)).
Proof.
  induction l as [|a l IH]; intros s Hlive; simpl.
  - exists (tget T s). rewrite (set_get T HT).
    split; [reflexivity|]. split; [reflexivity|].
    split; [intros id d Hd; exists d; auto|].
    split; [auto|]. intros _ x d [].
  - unfold db_patch at 1.
    destruct (table_get (tget T s) (key a)) as [da|] eqn:Hget;
      [|exfalso; eapply Hlive; [left; reflexivity | exact Hget]].
    pose proof (table_get_Some_lt _ _ _ Hget) as Hlt.
    set (t1 := <[key a := Some (g a da)]> (tget T s)).
    assert (Hold : forall id, id <> key a ->
                     table_get t1 id = table_get (tget T s) id).
    { intros id Hne. apply table_get_insert_ne. congruence. }
    assert (Hnew : table_get t1 (key a) = Some (g a da)).
    { apply table_get_insert_eq, Hlt. }
    destruct (IH (tset T t1 s)) as [t' (Hrun & Hout & Hrel & Hnone & Hdistinct)].
    { intros x Hx. rewrite (get_set T HT).
      destruct (Nat.eq_dec (key x) (key a)) as [Heq|Hne].
      - rewrite Heq, Hnew. discriminate.
      - rewrite Hold by exact Hne. apply Hlive. right. exact Hx. }
    rewrite (get_set T HT) in Hout, Hrel, Hnone, Hdistinct.
    exists t'. rewrite Hrun, (set_set T HT).
    split; [reflexivity|]. split; [|split; [|split]].
    + intros id Hid. simpl in Hid.
      rewrite Hout by tauto. apply Hold. intuition congruence.
    + intros id d Hd. destruct (Nat.eq_dec id (key a)) as [->|Hne].
      * destruct (Hrel _ _ Hnew) as [d' [Hd' HR]].
        exists d'. split; [exact Hd'|].
        rewrite Hget in Hd. injection Hd as <-.
        eapply Rtrans; [apply Rg | exact HR].
      * apply Hrel. rewrite Hold by exact Hne. exact Hd.
    + intros id Hid. apply Hnone.
      destruct (Nat.eq_dec id (key a)) as [->|Hne]; [congruence|].
      rewrite Hold by exact Hne. exact Hid.
    + intros Hnd x d [<-|Hx] Hd.
      * inversion Hnd as [|? ? Hnotin _]; subst.
        rewrite Hout by exact Hnotin. rewrite Hget in Hd.
        injection Hd as <-. exact Hnew.
      * inversion Hnd as [|? ? Hnotin Hnd']; subst.
        apply (Hdistinct Hnd' x d Hx).
        rewrite Hold; [exact Hd|].
        intros Heq. apply Hnotin. rewrite <- Heq. apply in_map, Hx.
Qed.

Lemma table_docs_from_snoc {A} (t : Table A) (x : option A) :
  forall i,
    table_docs_from i (t ++ [x])
    = table_docs_from i t
      ++ match x with
         | Some d => [((i + length t)%nat, d)]
         | None => []
         end.
Proof.
  induction t as [|o t IH]; intros i; simpl.
  - rewrite Nat.add_0_r. destruct x; reflexivity.
  - rewrite IH. replace (S i + length t)%nat with (i + S (length t))%nat by lia.
    destruct o; reflexivity.
Qed.

Lemma table_docs_snoc {A} (t : Table A) (d : A) :
  table_docs (t ++ [Some d]) = table_docs t ++ [(length t, d)].
Proof. unfold table_docs. rewrite table_docs_from_snoc. reflexivity. Qed.

(* ================================================================= *)
(** ** Further properties of the task mutations *)

(** X1.  [complete] by the owner, admitted by the rate limiter, always
    succeeds: the task becomes completed and its [completedAt] becomes
    the time of the call, also when the task was already completed at an
    earlier time; the other fields but [updatedAt] are kept, no other
    task changes, and one [completed] audit record is appended. *)
Theorem complete_restamps
    (ctx : Ctx) (u : UserId) (id : Id) (s : Store) (t : Task) :
  authUser ctx = Some u ->
  rateLimit ctx "updateTask" u = RateOk ->
  table_get (tasks s) id = Some t ->
  task_userId t = u ->
  exists s',
    TasksEndpoint.complete ctx id s = (inr id, s')
    /\ table_get (tasks s') id
       = Some (mkTask (task_userId t) (task_title t) (task_description t)
                      completed (task_priority t) (task_dueDate t)
                      (Some (now ctx)) (task_position t) (task_tags t)
                      (task_createdAt t) (now ctx))
    /\ (forall id', id' <> id ->
                    table_get (tasks s') id' = table_get (tasks s) id')
    /\ taskActivity s'
       = taskActivity s
         ++ [Some (mkTaskActivity id u action_completed None (now ctx))].
Proof.
  intros Hauth Hrate Hget Hown.
  pose proof (table_get_Some_lt _ _ _ Hget) as Hlt.
  apply String.eqb_eq in Hown.
  unfold TasksEndpoint.complete. rewrite Hauth, Hrate.
  unfold bind, Tasks.getTaskById, db_get. simpl. rewrite Hget, Hown. simpl.
  unfold Tasks.completeTask, TaskActivity.createTaskActivity,
    db_patch, db_insert. simpl. rewrite Hget. simpl.
  eexists. split; [reflexivity|]. simpl.
  split; [apply table_get_insert_eq, Hlt|].
  split; [|reflexivity].
  intros id' Hne. apply table_get_insert_ne. congruence.
Qed.

Lemma complete_restamps_witness :
  exists s',
    TasksEndpoint.complete (ctx_alice 3000) 0%nat store_completed
    = (inr 0%nat, s')
    /\ table_get (tasks s') 0%nat
       = Some (mkTask "alice" "Buy milk" None completed high None
                      (Some 3000) 1 None 1000 3000)
    /\ (forall id', id' <> 0%nat ->
                    table_get (tasks s') id'
                    = table_get (tasks store_completed) id')
    /\ taskActivity s'
       = taskActivity store_completed
         ++ [Some (mkTaskActivity 0%nat "alice" action_completed None 3000)].
Proof.
  apply (complete_restamps (ctx_alice 3000) "alice" 0%nat store_completed
           (mkTask "alice" "Buy milk" None completed high None (Some 2000) 1
                   None 1000 2000));
    reflexivity.
Defined.

(** X2.  [remove] by the owner, admitted by the rate limiter, always
    succeeds: the task is gone and no other task changes; the [deleted]
    audit record is the first one that [getTaskActivityByTask] lists for
    the id of the deleted task, before the records it listed already; and
    the comments table is left as it was, so the comments on the task
    stay. *)
Theorem remove_keeps_audit_and_comments
    (ctx : Ctx) (u : UserId) (id : Id) (s : Store) (t : Task)
    (before : list (Id * TaskActivityDoc)) :
  authUser ctx = Some u ->
  rateLimit ctx "deleteTask" u = RateOk ->
  table_get (tasks s) id = Some t ->
  task_userId t = u ->
  TaskActivity.getTaskActivityByTask ctx id s = (inr before, s) ->
  exists s',
    TasksEndpoint.remove ctx id s = (inr true, s')
    /\ table_get (tasks s') id = None
    /\ (forall id', id' <> id ->
                    table_get (tasks s') id' = table_get (tasks s) id')
    /\ TaskActivity.getTaskActivityByTask ctx id s'
       = (inr ((length (taskActivity s),
                mkTaskActivity id u deleted None (now ctx)) :: before), s')
    /\ taskComments s' = taskComments s.
Proof.
  intros Hauth Hrate Hget Hown Hbefore.
  pose proof (table_get_Some_lt _ _ _ Hget) as Hlt.
  apply String.eqb_eq in Hown.
  unfold TasksEndpoint.remove. rewrite Hauth, Hrate.
  unfold bind, Tasks.getTaskById, db_get. simpl. rewrite Hget, Hown. simpl.
  unfold Tasks.deleteTask, TaskActivity.createTaskActivity,
    db_delete, db_insert. simpl. rewrite Hget. simpl.
  eexists. split; [reflexivity|]. simpl.
  split; [apply table_get_insert_eq, Hlt|].
  split; [intros id' Hne; apply table_get_insert_ne; congruence|].
  split; [|reflexivity].
  unfold TaskActivity.getTaskActivityByTask, bind, db_query, ret in *.
  cbn [tget taskActivityT taskActivity] in *. injection Hbefore as <-.
  rewrite table_docs_snoc, List.filter_app, rev_app_distr.
  cbn [List.filter snd activity_taskId]. rewrite Nat.eqb_refl. reflexivity.
Qed.

Lemma remove_keeps_audit_and_comments_witness :
  exists s',
    TasksEndpoint.remove (ctx_alice 3000) 0%nat store_commented
    = (inr true, s')
    /\ table_get (tasks s') 0%nat = None
    /\ (forall id', id' <> 0%nat ->
                    table_get (tasks s') id'
                    = table_get (tasks store_commented) id')
    /\ TaskActivity.getTaskActivityByTask (ctx_alice 3000) 0%nat s'
       = (inr [(2%nat, mkTaskActivity 0%nat "alice" deleted None 3000);
               (1%nat, mkTaskActivity 0%nat "alice" action_completed None 2000);
               (0%nat, mkTaskActivity 0%nat "alice" created None 1000)], s')
    /\ taskComments s' = taskComments store_commented.
Proof.
  apply (remove_keeps_audit_and_comments
           (ctx_alice 3000) "alice" 0%nat store_commented
           (mkTask "alice" "Buy milk" None completed high None (Some 2000) 1
                   None 1000 2000)
           [(1%nat, mkTaskActivity 0%nat "alice" action_completed None 2000);
            (0%nat, mkTaskActivity 0%nat "alice" created None 1000)]);
    reflexivity.
Defined.

Lemma table_docs_from_ids_ge {A} (t : Table A) :
  forall i id, In id (map fst (table_docs_from i t)) -> (i <= id)%nat.
Proof.
  intros i id Hin. apply in_map_iff in Hin. destruct Hin as [[id' d] [<- Hin]].
  apply table_docs_from_spec in Hin. simpl. tauto.
Qed.

Lemma table_docs_from_NoDup {A} (t : Table A) :
  forall i, List.NoDup (map fst (table_docs_from i t)).
Proof.
  induction t as [|o t IH]; intros i; simpl; [constructor|].
  destruct o as [d|]; [|apply IH]. simpl. constructor; [|apply IH].
  intros Hin. apply table_docs_from_ids_ge in Hin. lia.
Qed.

Lemma NoDup_map_fst_filter {A B} (p : A * B -> bool) (l : list (A * B)) :
  List.NoDup (map fst l) -> List.NoDup (map fst (List.filter p l)).
Proof.
  induction l as [|x l IH]; simpl; intros Hnd; [constructor|].
  inversion Hnd as [|? ? Hnotin Hnd']; subst.
  destruct (p x); simpl; [|auto]. constructor; [|auto].
  intros Hin. apply Hnotin. apply in_map_iff in Hin.
  destruct Hin as [y [Hy Hin]]. apply filter_In in Hin.
  apply in_map_iff. exists y. tauto.
Qed.

(** The ids of the documents a query selects are distinct, in either
    order. *)
Lemma query_ids_NoDup {A} (p : Id * A -> bool) (t : Table A) :
  List.NoDup (map fst (rev (List.filter p (table_docs t)))).
Proof.
  rewrite map_rev. apply List.NoDup_rev, NoDup_map_fst_filter.
  apply table_docs_from_NoDup.
Qed.

Lemma existsb_query_ids {A} (p : Id * A -> bool) (q : A -> bool)
    (t : Table A) (id : Id) :
  (forall i d, p (i, d) = q d) ->
  existsb (Nat.eqb id) (map fst (rev (List.filter p (table_docs t))))
  = match table_get t id with
    | Some d => q d
    | None => false
    end.
Proof.
  intros Hpq. apply eq_true_iff_eq. rewrite existsb_exists. split.
  - intros [id' [Hin Heq]]. apply Nat.eqb_eq in Heq. subst id'.
    apply in_map_iff in Hin. destruct Hin as [[i d] [Hi Hin]].
    simpl in Hi. subst i. apply in_rev, filter_In in Hin.
    destruct Hin as [Hdoc Hp]. apply table_docs_spec in Hdoc.
    rewrite Hdoc. rewrite <- Hpq with (i := id). exact Hp.
  - destruct (table_get t id) as [d|] eqn:Hget; [|discriminate].
    intros Hq. exists id. split; [|apply Nat.eqb_refl].
    apply in_map_iff. exists (id, d). split; [reflexivity|].
    apply in_rev. rewrite rev_involutive. apply filter_In.
    split; [apply table_docs_spec, Hget | rewrite Hpq; exact Hq].
Qed.

Lemma deleteCompleted_run
    (ctx : Ctx) (u : UserId) (s : Store) :
  authUser ctx = Some u ->
  rateLimit ctx "deleteTask" u = RateOk ->
  exists s',
    TasksEndpoint.deleteCompleted ctx s
    = (inr (arr_length
              (List.filter (fun d => is_completed_task_of u (snd d))
                           (table_docs (tasks s)))), s')
    /\ (forall id,
          table_get (tasks s') id
          = match table_get (tasks s) id with
            | Some t => if is_completed_task_of u t then None else Some t
            | None => None
            end)
    /\ taskActivity s' = taskActivity s
    /\ taskComments s' = taskComments s.
Proof.
  intros Hauth Hrate.
  unfold TasksEndpoint.deleteCompleted. rewrite Hauth, Hrate.
  unfold Tasks.deleteCompletedTasksByUser, Tasks.getTasksByUserAndStatus.
  unfold bind, db_query, ret. cbn [tget tasksT].
  set (p := fun d : nat * Task =>
              String.eqb (task_userId (snd d)) u
              && TaskStatus_eqb (task_status (snd d)) completed).
  set (l := rev (List.filter p (table_docs (tasks s)))).
  rewrite (promise_all_delete tasksT tasksT_laws fst l s).
  - eexists. split.
    + unfold arr_length, l. rewrite length_rev. reflexivity.
    + cbn [tget tset tasksT tasks taskActivity taskComments].
      split; [|split; reflexivity].
      intros id. rewrite table_get_delete_all. unfold l.
      rewrite (existsb_query_ids p (is_completed_task_of u)) by reflexivity.
      destruct (table_get (tasks s) id) as [t|]; reflexivity.
  - apply query_ids_NoDup.
  - intros [id t] Hin. apply in_rev, filter_In in Hin.
    destruct Hin as [Hdoc _]. apply table_docs_spec in Hdoc.
    simpl. cbn [tget tasksT]. rewrite Hdoc. discriminate.
Qed.

(** X3.  [deleteCompleted], for an authenticated caller whom the bucket
    admits, always succeeds: it returns the number of the caller's
    completed tasks, deletes exactly those, and leaves every other task,
    the audit trail and the comments as they were. *)
Theorem deleteCompleted_deletes_exactly
    (ctx : Ctx) (u : UserId) (s : Store) :
  authUser ctx = Some u ->
  rateLimit ctx "deleteTask" u = RateOk ->
  exists s',
    TasksEndpoint.deleteCompleted ctx s
    = (inr (arr_length
              (List.filter (fun d => is_completed_task_of u (snd d))
                           (table_docs (tasks s)))), s')
    /\ (forall id,
          table_get (tasks s') id
          = match table_get (tasks s) id with
            | Some t => if is_completed_task_of u t then None else Some t
            | None => None
            end)
    /\ taskActivity s' = taskActivity s
    /\ taskComments s' = taskComments s.
Proof. exact (deleteCompleted_run ctx u s). Qed.

Lemma deleteCompleted_deletes_exactly_witness :
  exists s',
    TasksEndpoint.deleteCompleted (ctx_alice 6000) store_three_tasks
    = (inr 1, s')
    /\ (forall id,
          table_get (tasks s') id
          = match table_get (tasks store_three_tasks) id with
            | Some t => if is_completed_task_of "alice" t then None else Some t
            | None => None
            end)
    /\ taskActivity s' = taskActivity store_three_tasks
    /\ taskComments s' = taskComments store_three_tasks.
Proof.
  apply (deleteCompleted_deletes_exactly (ctx_alice 6000) "alice"
           store_three_tasks); reflexivity.
Defined.

Lemma verify_ownership_passes (ctx : Ctx) (u : UserId) (s : Store) :
  forall updates,
    Forall (fun update =>
              exists t, table_get (tasks s) (fst update) = Some t
                        /\ task_userId t = u) updates ->
    TasksEndpoint.verify_ownership ctx u updates s = (inr tt, s).
Proof.
  induction updates as [|update rest IH]; intros Hall; [reflexivity|].
  inversion Hall as [|? ? Hhead Hrest]; subst.
  destruct Hhead as [t [Hget Hown]].
  simpl. unfold bind, Tasks.getTaskById, db_get. simpl.
  rewrite Hget. apply String.eqb_eq in Hown. rewrite Hown. simpl.
  apply IH, Hrest.
Qed.

(** X4.  [reorder], for an authenticated caller whom the bucket admits
    and a batch of tasks that all exist and are the caller's, succeeds:
    a task outside the batch is untouched; when the ids of the batch are
    distinct, each task of the batch gets its new position and the time of
    the call as [updatedAt], and nothing else of it changes; the audit
    trail receives no record. *)
Theorem reorder_writes_positions
    (ctx : Ctx) (u : UserId) (updates : list (Id * Z)) (s : Store) :
  authUser ctx = Some u ->
  rateLimit ctx "batchUpdatePositions" u = RateOk ->
  Forall (fun update =>
            exists t, table_get (tasks s) (fst update) = Some t
                      /\ task_userId t = u) updates ->
  exists s',
    TasksEndpoint.reorder ctx updates s = (inr true, s')
    /\ (forall id, ~ In id (map fst updates) ->
                   table_get (tasks s') id = table_get (tasks s) id)
    /\ (List.NoDup (map fst updates) ->
        forall id p t,
          In (id, p) updates ->
          table_get (tasks s) id = Some t ->
          table_get (tasks s') id
          = Some (mkTask (task_userId t) (task_title t) (task_description t)
                         (task_status t) (task_priority t) (task_dueDate t)
                         (task_completedAt t) p (task_tags t)
                         (task_createdAt t) (now ctx)))
    /\ taskActivity s' = taskActivity s.
Proof.
  intros Hauth Hrate Hall.
  unfold TasksEndpoint.reorder. rewrite Hauth, Hrate.
  unfold bind at 1. rewrite (verify_ownership_passes ctx u s updates Hall).
  unfold Tasks.batchUpdateTaskPositions.
  destruct (promise_all_patch tasksT tasksT_laws fst
              (fun update : nat * Z =>
                 Tasks.patch_task
                   (Tasks.mkUpdateTaskArgs None None None None None None
                                           (Some (snd update)) None)
                   (now ctx))
              (fun _ _ => True) (fun _ => I) (fun _ _ _ _ _ => I)
              (fun _ _ => I) updates s)
    as [t' (Hrun & Hout & _ & _ & Hdistinct)].
  { intros x Hx. rewrite List.Forall_forall in Hall.
    destruct (Hall x Hx) as [t [Hget _]].
    cbn [tget tasksT]. rewrite Hget. discriminate. }
  cbn [tget tasksT] in Hout, Hdistinct.
  unfold bind, ret. rewrite Hrun.
  eexists. split; [reflexivity|].
  cbn [tset tasksT tasks taskActivity].
  split; [exact Hout|]. split; [|reflexivity].
  intros Hnd id p t Hin Hget.
  apply (Hdistinct Hnd (id, p) t Hin Hget).
Qed.

Lemma reorder_writes_positions_witness :
  exists s',
    TasksEndpoint.reorder (ctx_alice 6000) [(2%nat, 1); (1%nat, 2)]
      store_three_tasks = (inr true, s')
    /\ (forall id, ~ In id [2%nat; 1%nat] ->
                   table_get (tasks s') id
                   = table_get (tasks store_three_tasks) id)
    /\ (List.NoDup [2%nat; 1%nat] ->
        forall id p t,
          In (id, p) [(2%nat, 1); (1%nat, 2)] ->
          table_get (tasks store_three_tasks) id = Some t ->
          table_get (tasks s') id
          = Some (mkTask (task_userId t) (task_title t) (task_description t)
                         (task_status t) (task_priority t) (task_dueDate t)
                         (task_completedAt t) p (task_tags t)
                         (task_createdAt t) 6000))
    /\ taskActivity s' = taskActivity store_three_tasks.
Proof.
  apply (reorder_writes_positions (ctx_alice 6000) "alice"
           [(2%nat, 1); (1%nat, 2)] store_three_tasks);
    [reflexivity | reflexivity |].
  repeat constructor; eexists; split; reflexivity.
Defined.

(** *** All or nothing; ownership is never transferred *)

Lemma history_same_tasks (s s' : Store) :
  tasks s' = tasks s -> task_history_kept s s'.
Proof.
  intros Heq id t t' Ht Ht'. rewrite Heq, Ht in Ht'.
  injection Ht' as <-. auto.
Qed.

Lemma history_snoc (s s' : Store) (x : option Task) :
  tasks s' = tasks s ++ [x] -> task_history_kept s s'.
Proof.
  intros Heq id t t' Ht Ht'. rewrite Heq in Ht'.
  rewrite (table_get_snoc_old _ x _ _ Ht) in Ht'. injection Ht' as <-. auto.
Qed.

Lemma history_patch (s s' : Store) (id : Id) (task : Task)
    (args : Tasks.UpdateTaskArgs) (updatedAt : Z) :
  table_get (tasks s) id = Some task ->
  tasks s' = <[id := Some (Tasks.patch_task args updatedAt task)]> (tasks s) ->
  task_history_kept s s'.
Proof.
  intros Hget Heq id' t t' Ht Ht'. rewrite Heq in Ht'.
  destruct (Nat.eq_dec id id') as [<-|Hne].
  - rewrite table_get_insert_eq in Ht'
      by (eapply table_get_Some_lt, Hget).
    injection Ht' as <-. rewrite Hget in Ht. injection Ht as <-. auto.
  - rewrite table_get_insert_ne in Ht' by exact Hne.
    rewrite Ht in Ht'. injection Ht' as <-. auto.
Qed.

Lemma history_delete (s s' : Store) (ids : list Id) :
  tasks s' = delete_all ids (tasks s) -> task_history_kept s s'.
Proof.
  intros Heq id t t' Ht Ht'. rewrite Heq, table_get_delete_all in Ht'.
  destruct (existsb (Nat.eqb id) ids); [discriminate|].
  rewrite Ht in Ht'. injection Ht' as <-. auto.
Qed.

Ltac fails_clean := left; eexists; reflexivity.

Lemma create_settles (ctx : Ctx) (args : TasksEndpoint.CreateArgs) (s : Store) :
  settles (TasksEndpoint.create ctx args) s.
Proof.
  unfold settles, TasksEndpoint.create.
  destruct (authUser ctx) as [u|]; [|fails_clean].
  destruct (rateLimit ctx "createTask" u); [|fails_clean].
  destruct (negb _); [fails_clean|].
  destruct (getMaxPositionForUser_spec ctx u s) as [m [Hmax _]].
  unfold bind. rewrite Hmax.
  right. eexists _, _. split; [reflexivity|].
  eapply history_snoc. reflexivity.
Qed.

Lemma update_settles (ctx : Ctx) (args : TasksEndpoint.UpdateArgs) (s : Store) :
  settles (TasksEndpoint.update ctx args) s.
Proof.
  unfold settles, TasksEndpoint.update.
  destruct (authUser ctx) as [u|]; [|fails_clean].
  destruct (rateLimit ctx "updateTask" u); [|fails_clean].
  unfold bind, Tasks.getTaskById, db_get. cbn [fst snd tget tasksT].
  destruct (table_get (tasks s) (TasksEndpoint.u_id args)) as [task|] eqn:Hget;
    [|fails_clean].
  destruct (negb (String.eqb (task_userId task) u)); [fails_clean|].
  unfold Tasks.updateTask, TaskActivity.createTaskActivity,
    db_patch, db_insert, TasksEndpoint.is_completed_arg.
  match goal with
  | |- context [if ?c then _ else ret tt] =>
      destruct c;
      [ match goal with
        | |- context [if negb ?v then _ else ret tt] => destruct v
        end | ]
  end; cbn [negb]; try fails_clean;
    unfold ret; cbn [tget tset tasksT tasks]; rewrite Hget;
    destruct (TasksEndpoint.u_status args) as [[]|];
    destruct (task_status task);
    destruct (TasksEndpoint.u_priority args) as [[]|];
    destruct (task_priority task);
    right; eexists _, _; (split; [reflexivity|]);
    (eapply history_patch; [exact Hget | reflexivity]).
Qed.

Lemma complete_settles (ctx : Ctx) (id : Id) (s : Store) :
  settles (TasksEndpoint.complete ctx id) s.
Proof.
  unfold settles, TasksEndpoint.complete.
  destruct (authUser ctx) as [u|]; [|fails_clean].
  destruct (rateLimit ctx "updateTask" u); [|fails_clean].
  unfold bind, Tasks.getTaskById, db_get. cbn [fst snd tget tasksT].
  destruct (table_get (tasks s) id) as [task|] eqn:Hget; [|fails_clean].
  destruct (negb (String.eqb (task_userId task) u)); [fails_clean|].
  unfold Tasks.completeTask, db_patch. cbn [tget tasksT]. rewrite Hget.
  right. eexists _, _. split; [reflexivity|].
  eapply history_patch; [exact Hget | reflexivity].
Qed.

Lemma remove_settles (ctx : Ctx) (id : Id) (s : Store) :
  settles (TasksEndpoint.remove ctx id) s.
Proof.
  unfold settles, TasksEndpoint.remove.
  destruct (authUser ctx) as [u|]; [|fails_clean].
  destruct (rateLimit ctx "deleteTask" u); [|fails_clean].
  unfold bind, Tasks.getTaskById, db_get. cbn [fst snd tget tasksT].
  destruct (table_get (tasks s) id) as [task|] eqn:Hget; [|fails_clean].
  destruct (negb (String.eqb (task_userId task) u)); [fails_clean|].
  unfold Tasks.deleteTask, TaskActivity.createTaskActivity,
    db_delete, db_insert.
  cbn [tget tset tasksT taskActivityT tasks]. rewrite Hget.
  right. eexists _, _. split; [reflexivity|].
  apply (history_delete _ _ [id]). reflexivity.
Qed.

Lemma reorder_settles (ctx : Ctx) (updates : list (Id * Z)) (s : Store) :
  settles (TasksEndpoint.reorder ctx updates) s.
Proof.
  unfold settles, TasksEndpoint.reorder.
  destruct (authUser ctx) as [u|] eqn:Hauth; [|fails_clean].
  destruct (rateLimit ctx "batchUpdatePositions" u); [|fails_clean].
  unfold Tasks.batchUpdateTaskPositions, bind, ret.
  pose proof (verify_ownership_reads_only ctx u s updates) as Hreads.
  destruct (TasksEndpoint.verify_ownership ctx u updates s) as [[e|[]] s1] eqn:Hv;
    simpl in Hreads; subst s1; [fails_clean|].
  pose proof (verify_ownership_accepts ctx u s updates s Hv) as Hall.
  destruct (promise_all_patch tasksT tasksT_laws fst
              (fun update : nat * Z =>
                 Tasks.patch_task
                   (Tasks.mkUpdateTaskArgs None None None None None None
                                           (Some (snd update)) None)
                   (now ctx))
              (fun t t' => task_userId t' = task_userId t
                           /\ task_createdAt t' = task_createdAt t)
              (fun _ => conj eq_refl eq_refl)
              (fun _ _ _ H1 H2 =>
                 conj (eq_trans (proj1 H2) (proj1 H1))
                      (eq_trans (proj2 H2) (proj2 H1)))
              (fun _ _ => conj eq_refl eq_refl) updates s)
    as [t' (Hrun & _ & Hrel & _ & _)].
  { intros x Hx. rewrite List.Forall_forall in Hall.
    destruct (Hall x Hx) as [t [Hget _]].
    cbn [tget tasksT]. rewrite Hget. discriminate. }
  rewrite Hrun.
  right. eexists _, _. split; [reflexivity|].
  intros id t t1 Ht Ht1. cbn [tget tset tasksT tasks] in Hrel, Ht1.
  destruct (Hrel id t Ht) as [d' [Hd' HR]].
  rewrite Hd' in Ht1. injection Ht1 as <-. exact HR.
Qed.

Lemma deleteCompleted_settles (ctx : Ctx) (s : Store) :
  settles (TasksEndpoint.deleteCompleted ctx) s.
Proof.
  unfold settles.
  destruct (authUser ctx) as [u|] eqn:Hauth;
    [|unfold TasksEndpoint.deleteCompleted; rewrite Hauth; fails_clean].
  destruct (rateLimit ctx "deleteTask" u) eqn:Hrate;
    [|unfold TasksEndpoint.deleteCompleted; rewrite Hauth, Hrate; fails_clean].
  destruct (deleteCompleted_run ctx u s Hauth Hrate)
    as [s' (Hrun & Htasks & _)].
  right. eexists _, s'. split; [exact Hrun|].
  intros id t t' Ht Ht'. rewrite Htasks, Ht in Ht'.
  destruct (is_completed_task_of u t); [discriminate|].
  injection Ht' as <-. auto.
Qed.

Lemma comment_create_settles (ctx : Ctx) (taskId : Id) (content : string)
    (s : Store) :
  settles (CommentsEndpoint.create ctx taskId content) s.
Proof.
  unfold settles, CommentsEndpoint.create.
  destruct (authUser ctx) as [u|]; [|fails_clean].
  destruct (rateLimit ctx "createComment" u); [|fails_clean].
  unfold bind, Tasks.getTaskById, db_get. cbn [fst snd tget tasksT].
  destruct (table_get (tasks s) taskId) as [task|]; [|fails_clean].
  destruct (negb (String.eqb (task_userId task) u)); [fails_clean|].
  destruct (negb (Validation.isValidCommentContent content)); [fails_clean|].
  right. eexists _, _. split; [reflexivity|].
  apply history_same_tasks. reflexivity.
Qed.

Lemma comment_update_settles (ctx : Ctx) (id : Id) (content : string)
    (s : Store) :
  settles (CommentsEndpoint.update ctx id content) s.
Proof.
  unfold settles, CommentsEndpoint.update.
  destruct (authUser ctx) as [u|]; [|fails_clean].
  destruct (rateLimit ctx "updateComment" u); [|fails_clean].
  unfold bind, TaskComments.getTaskCommentById, db_get.
  cbn [fst snd tget taskCommentsT].
  destruct (table_get (taskComments s) id) as [comment|] eqn:Hget;
    [|fails_clean].
  destruct (negb (String.eqb (comment_userId comment) u)); [fails_clean|].
  destruct (negb (Validation.isValidCommentContent content)); [fails_clean|].
  unfold TaskComments.updateTaskComment, db_patch.
  cbn [tget taskCommentsT]. rewrite Hget.
  right. eexists _, _. split; [reflexivity|].
  apply history_same_tasks. reflexivity.
Qed.

Lemma comment_remove_settles (ctx : Ctx) (id : Id) (s : Store) :
  settles (CommentsEndpoint.remove ctx id) s.
Proof.
  unfold settles, CommentsEndpoint.remove.
  destruct (authUser ctx) as [u|]; [|fails_clean].
  destruct (rateLimit ctx "deleteComment" u); [|fails_clean].
  unfold bind, TaskComments.getTaskCommentById, db_get.
  cbn [fst snd tget taskCommentsT].
  destruct (table_get (taskComments s) id) as [comment|] eqn:Hget;
    [|fails_clean].
  destruct (negb (String.eqb (comment_userId comment) u)); [fails_clean|].
  unfold TaskComments.deleteTaskComment, db_delete.
  cbn [tget taskCommentsT]. rewrite Hget.
  right. eexists _, _. split; [reflexivity|].
  apply history_same_tasks. reflexivity.
Qed.

(** [getOrCreateUserPreferences] always returns a live document of the
    user: the first one there is, or the defaults it has just stored. *)
Lemma getOrCreateUserPreferences_run (ctx : Ctx) (u : UserId) (s : Store) :
  exists id p s1,
    UserPreferences.getOrCreateUserPreferences ctx u s
    = (inr (Some (id, p)), s1)
    /\ table_get (userPreferences s1) id = Some p
    /\ pref_userId p = u
    /\ ((s1 = s
         /\ UserPreferences.getUserPreferencesByUser ctx u s
            = (inr (Some (id, p)), s))
        \/ (UserPreferences.getUserPreferencesByUser ctx u s = (inr None, s)
            /\ id = length (userPreferences s)
            /\ p = mkUserPreferences u system view_list by_position asc
                                     false true (now ctx) (now ctx)
            /\ s1 = tset userPreferencesT (userPreferences s ++ [Some p]) s)).
Proof.
  unfold UserPreferences.getOrCreateUserPreferences,
    UserPreferences.getUserPreferencesByUser, bind, db_query, ret.
  cbn [tget userPreferencesT].
  destruct (head (List.filter
                    (fun d : nat * UserPreferencesDoc =>
                       String.eqb (pref_userId (snd d)) u)
                    (table_docs (userPreferences s))))
    as [[id p]|] eqn:Hhead.
  - exists id, p, s. split; [reflexivity|].
    assert (Hin : In (id, p)
                    (List.filter
                       (fun d : nat * UserPreferencesDoc =>
                          String.eqb (pref_userId (snd d)) u)
                       (table_docs (userPreferences s)))).
    { destruct (List.filter _ _) as [|x l]; [discriminate|].
      injection Hhead as ->. left. reflexivity. }
    apply filter_In in Hin. destruct Hin as [Hdoc Hown].
    apply table_docs_spec in Hdoc. apply String.eqb_eq in Hown.
    split; [exact Hdoc|]. split; [exact Hown|]. left. auto.
  - unfold UserPreferences.createUserPreferences, db_insert, db_get.
    cbn [tget tset userPreferencesT userPreferences patched
         UserPreferences.c_userId UserPreferences.c_theme
         UserPreferences.c_defaultView UserPreferences.c_sortBy
         UserPreferences.c_sortOrder UserPreferences.c_showCompletedTasks
         UserPreferences.c_notificationsEnabled].
    rewrite table_get_snoc_new. cbn [option_map].
    eexists _, _, _. split; [reflexivity|].
    cbn [userPreferences]. split; [apply table_get_snoc_new|].
    split; [reflexivity|]. right. auto.
Qed.

Lemma pref_initialize_settles (ctx : Ctx) (s : Store) :
  settles (PreferencesEndpoint.initialize ctx) s.
Proof.
  unfold settles, PreferencesEndpoint.initialize.
  destruct (authUser ctx) as [u|]; [|fails_clean].
  unfold UserPreferences.getUserPreferencesByUser, bind, db_query, ret.
  destruct (head _) as [existing|];
    right; eexists _, _; (split; [reflexivity|]);
    apply history_same_tasks; reflexivity.
Qed.

(** The three preference updates share their shape: get or create, then
    patch the document found. *)
Lemma pref_patch_settles (ctx : Ctx) (u : UserId)
    (args : UserPreferences.UpdateUserPreferencesArgs) (s : Store) :
  settles
    (preferences <- UserPreferences.getOrCreateUserPreferences ctx u ;;
     match preferences with
     | None => throw PreferencesEndpoint.null_id_error
     | Some preferences =>
         UserPreferences.updateUserPreferences ctx (fst preferences) args ;;;
         ret (fst preferences)
     end) s.
Proof.
  destruct (getOrCreateUserPreferences_run ctx u s)
    as (id & p & s1 & Hrun & Hlive & _ & Hs1).
  unfold settles, bind at 1 3. rewrite Hrun.
  unfold bind, UserPreferences.updateUserPreferences, db_patch, ret.
  cbn [fst tget userPreferencesT]. rewrite Hlive.
  right. eexists _, _. split; [reflexivity|].
  apply history_same_tasks. cbn [tset userPreferencesT tasks].
  destruct Hs1 as [[-> _] | (_ & _ & _ & ->)]; reflexivity.
Qed.

Lemma pref_update_settles (ctx : Ctx)
    (args : UserPreferences.UpdateUserPreferencesArgs) (s : Store) :
  settles (PreferencesEndpoint.update ctx args) s.
Proof.
  unfold PreferencesEndpoint.update.
  destruct (authUser ctx) as [u|]; [|fails_clean].
  destruct (rateLimit ctx "updatePreferences" u); [|fails_clean].
  apply pref_patch_settles.
Qed.

Lemma pref_updateTheme_settles (ctx : Ctx) (theme : Theme) (s : Store) :
  settles (PreferencesEndpoint.updateTheme ctx theme) s.
Proof.
  unfold PreferencesEndpoint.updateTheme.
  destruct (authUser ctx) as [u|]; [|fails_clean].
  destruct (rateLimit ctx "updatePreferences" u); [|fails_clean].
  apply pref_patch_settles.
Qed.

Lemma pref_updateDefaultView_settles (ctx : Ctx) (v : DefaultView) (s : Store) :
  settles (PreferencesEndpoint.updateDefaultView ctx v) s.
Proof.
  unfold PreferencesEndpoint.updateDefaultView.
  destruct (authUser ctx) as [u|]; [|fails_clean].
  destruct (rateLimit ctx "updatePreferences" u); [|fails_clean].
  apply pref_patch_settles.
Qed.

Lemma existsb_filter_ids {A} (p : Id * A -> bool) (q : A -> bool)
    (t : Table A) (id : Id) :
  (forall i d, p (i, d) = q d) ->
  existsb (Nat.eqb id) (map fst (List.filter p (table_docs t)))
  = match table_get t id with
    | Some d => q d
    | None => false
    end.
Proof.
  intros Hpq. rewrite <- (existsb_query_ids p q t id Hpq).
  rewrite map_rev. apply eq_true_iff_eq. rewrite !existsb_exists.
  split; intros [x [Hin Hx]]; exists x; (split; [|exact Hx]).
  - apply in_rev. rewrite rev_involutive. exact Hin.
  - apply in_rev. exact Hin.
Qed.

(** What [deleteMessagesByThread] does: it always succeeds, returns the
    number of messages of the thread and deletes exactly those. *)
Lemma deleteMessagesByThread_run (ctx : Ctx) (threadId : Id) (s : Store) :
  exists s1,
    Messages.deleteMessagesByThread ctx threadId s
    = (inr (arr_length
              (List.filter (fun d => Nat.eqb (message_threadId (snd d)) threadId)
                           (table_docs (messages s)))), s1)
    /\ s1 = tset messagesT
              (delete_all
                 (map fst
                    (List.filter
                       (fun d => Nat.eqb (message_threadId (snd d)) threadId)
                       (table_docs (messages s))))
                 (messages s)) s
    /\ (forall id,
          table_get (messages s1) id
          = match table_get (messages s) id with
            | Some m => if Nat.eqb (message_threadId m) threadId
                        then None else Some m
            | None => None
            end).
Proof.
  unfold Messages.deleteMessagesByThread, Messages.getMessagesByThread,
    bind, db_query, ret. cbn [tget messagesT].
  set (p := fun d : nat * Message => Nat.eqb (message_threadId (snd d)) threadId).
  rewrite (promise_all_delete messagesT messagesT_laws fst
             (List.filter p (table_docs (messages s))) s).
  - eexists. split; [reflexivity|]. cbn [tget messagesT].
    split; [reflexivity|].
    intros id. cbn [tset messagesT messages].
    rewrite table_get_delete_all.
    rewrite (existsb_filter_ids p (fun m => Nat.eqb (message_threadId m) threadId))
      by reflexivity.
    destruct (table_get (messages s) id); reflexivity.
  - apply NoDup_map_fst_filter, table_docs_from_NoDup.
  - intros [id m] Hin. apply filter_In in Hin. destruct Hin as [Hdoc _].
    apply table_docs_spec in Hdoc. cbn [fst tget messagesT].
    rewrite Hdoc. discriminate.
Qed.

Lemma agent_createThread_settles (ctx : Ctx) (title : option string) (s : Store) :
  settles (AgentEndpoint.createThread ctx title) s.
Proof.
  unfold settles, AgentEndpoint.createThread.
  destruct (authUser ctx) as [u|]; [|fails_clean].
  destruct (rateLimit ctx "createThread" u); [|fails_clean].
  destruct (truthy_string title && _); [fails_clean|].
  right. eexists _, _. split; [reflexivity|].
  apply history_same_tasks. reflexivity.
Qed.

Lemma agent_updateThread_settles (ctx : Ctx) (threadId : Id)
    (title : option string) (status : option ThreadStatus) (s : Store) :
  settles (AgentEndpoint.updateThread ctx threadId title status) s.
Proof.
  unfold settles, AgentEndpoint.updateThread.
  destruct (authUser ctx) as [u|]; [|fails_clean].
  unfold bind, Threads.getThreadById, db_get. cbn [fst snd tget threadsT].
  destruct (table_get (threads s) threadId) as [thread|] eqn:Hget;
    [|fails_clean].
  destruct (negb (String.eqb (thread_userId thread) u)); [fails_clean|].
  destruct (truthy_string title && _); [fails_clean|].
  unfold Threads.updateThread, db_patch. cbn [tget threadsT]. rewrite Hget.
  right. eexists _, _. split; [reflexivity|].
  apply history_same_tasks. reflexivity.
Qed.

Lemma agent_archiveThread_settles (ctx : Ctx) (threadId : Id) (s : Store) :
  settles (AgentEndpoint.archiveThread ctx threadId) s.
Proof.
  unfold settles, AgentEndpoint.archiveThread.
  destruct (authUser ctx) as [u|]; [|fails_clean].
  unfold bind, Threads.getThreadById, db_get. cbn [fst snd tget threadsT].
  destruct (table_get (threads s) threadId) as [thread|] eqn:Hget;
    [|fails_clean].
  destruct (negb (String.eqb (thread_userId thread) u)); [fails_clean|].
  unfold Threads.archiveThread, db_patch. cbn [tget threadsT]. rewrite Hget.
  right. eexists _, _. split; [reflexivity|].
  apply history_same_tasks. reflexivity.
Qed.

Lemma agent_deleteThread_settles (ctx : Ctx) (threadId : Id) (s : Store) :
  settles (AgentEndpoint.deleteThread ctx threadId) s.
Proof.
  unfold settles, AgentEndpoint.deleteThread.
  destruct (authUser ctx) as [u|]; [|fails_clean].
  unfold bind, Threads.getThreadById, db_get.
  cbn [fst snd tget threadsT].
  destruct (table_get (threads s) threadId) as [thread|] eqn:Hget;
    [|fails_clean].
  destruct (negb (String.eqb (thread_userId thread) u)); [fails_clean|].
  destruct (deleteMessagesByThread_run ctx threadId s) as (s1 & Hrun & -> & _).
  rewrite Hrun.
  unfold Threads.deleteThread, db_delete.
  cbn [tget tset threadsT messagesT threads]. rewrite Hget.
  right. eexists _, _. split; [reflexivity|].
  apply history_same_tasks. reflexivity.
Qed.

Lemma agent_sendMessage_settles (ctx : Ctx) (threadId : Id) (content : string)
    (s : Store) :
  settles (AgentEndpoint.sendMessage ctx threadId content) s.
Proof.
  unfold settles, AgentEndpoint.sendMessage.
  destruct (authUser ctx) as [u|]; [|fails_clean].
  destruct (rateLimit ctx "sendMessage" u); [|fails_clean].
  unfold bind, Threads.getThreadById, db_get. cbn [fst snd tget threadsT].
  destruct (table_get (threads s) threadId) as [thread|] eqn:Hget;
    [|fails_clean].
  destruct (negb (String.eqb (thread_userId thread) u)); [fails_clean|].
  destruct (negb (ValidationExtra.isValidMessageContent content));
    [fails_clean|].
  unfold Messages.createMessage, Threads.updateThreadLastMessage,
    db_insert, db_patch.
  cbn [tget tset threadsT messagesT threads]. rewrite Hget.
  right. eexists _, _. split; [reflexivity|].
  apply history_same_tasks. reflexivity.
Qed.

Lemma agent_storeAssistantMessage_settles (ctx : Ctx) (threadId : Id)
    (content : string) (metadata : option string) (s : Store) :
  settles (AgentEndpoint.storeAssistantMessage ctx threadId content metadata) s.
Proof.
  unfold settles, AgentEndpoint.storeAssistantMessage.
  destruct (authUser ctx) as [u|]; [|fails_clean].
  unfold bind, Threads.getThreadById, db_get. cbn [fst snd tget threadsT].
  destruct (table_get (threads s) threadId) as [thread|] eqn:Hget;
    [|fails_clean].
  destruct (negb (String.eqb (thread_userId thread) u)); [fails_clean|].
  unfold Messages.createMessage, Threads.updateThreadLastMessage,
    db_insert, db_patch.
  cbn [tget tset threadsT messagesT threads]. rewrite Hget.
  right. eexists _, _. split; [reflexivity|].
  apply history_same_tasks. reflexivity.
Qed.

Lemma endpoint_settles (ctx : Ctx) (op : EndpointMutation) (s : Store) :
  (exists e, run_endpoint ctx op s = (Some e, s))
  \/ (exists s', run_endpoint ctx op s = (None, s')
                 /\ task_history_kept s s').
Proof.
  assert (Hgen : forall A (m : M A),
            settles m s ->
            (exists e, outcome m s = (Some e, s))
            \/ (exists s', outcome m s = (None, s')
                           /\ task_history_kept s s')).
  { intros A m [[e He] | (a & s' & Hs' & Hkept)]; unfold outcome.
    - left. exists e. rewrite He. reflexivity.
    - right. exists s'. rewrite Hs'. split; [reflexivity | exact Hkept]. }
  destruct op; simpl; apply Hgen.
  - apply create_settles.
  - apply update_settles.
  - apply complete_settles.
  - apply reorder_settles.
  - apply remove_settles.
  - apply deleteCompleted_settles.
  - apply comment_create_settles.
  - apply comment_update_settles.
  - apply comment_remove_settles.
  - apply pref_initialize_settles.
  - apply pref_update_settles.
  - apply pref_updateTheme_settles.
  - apply pref_updateDefaultView_settles.
  - apply agent_createThread_settles.
  - apply agent_updateThread_settles.
  - apply agent_archiveThread_settles.
  - apply agent_deleteThread_settles.
  - apply agent_sendMessage_settles.
  - apply agent_storeAssistantMessage_settles.
Qed.

(** X5.  No partial mutation: when any mutation of the endpoint layer
    (task, comment, preferences, assistant) fails, the store it returns
    is the store it was given. *)
Theorem failed_mutation_writes_nothing
    (ctx : Ctx) (op : EndpointMutation) (s s' : Store) (e : Error) :
  run_endpoint ctx op s = (Some e, s') -> s' = s.
Proof.
  intros Hrun.
  destruct (endpoint_settles ctx op s) as [[e' He'] | (s1 & Hs1 & _)];
    rewrite Hrun in *; congruence.
Qed.

Lemma failed_mutation_writes_nothing_witness :
  snd (run_endpoint (ctx_alice 3000)
         (M_task_reorder [(0%nat, 5); (1%nat, 7)]) store_two_owners)
  = store_two_owners.
Proof.
  apply (failed_mutation_writes_nothing (ctx_alice 3000)
           (M_task_reorder [(0%nat, 5); (1%nat, 7)]) store_two_owners _
           (ErrReorderUnauthorized 1%nat)).
  reflexivity.
Defined.

(** X6.  Ownership is never transferred: whatever a mutation of the
    endpoint layer does, a task that is in the store before and after the
    call has the same owner and the same creation time. *)
Theorem task_owner_never_changes
    (ctx : Ctx) (op : EndpointMutation) (s : Store) (id : Id) (t t' : Task) :
  table_get (tasks s) id = Some t ->
  table_get (tasks (snd (run_endpoint ctx op s))) id = Some t' ->
  task_userId t' = task_userId t /\ task_createdAt t' = task_createdAt t.
Proof.
  intros Ht Ht'.
  destruct (endpoint_settles ctx op s) as [[e He] | (s1 & Hs1 & Hkept)].
  - rewrite He in Ht'. simpl in Ht'. rewrite Ht in Ht'.
    injection Ht' as <-. auto.
  - rewrite Hs1 in Ht'. simpl in Ht'. exact (Hkept id t t' Ht Ht').
Qed.

Lemma task_owner_never_changes_witness :
  task_userId (mkTask "alice" "Renamed by Alice" None pending high None None 1
                      None 1000 3000) = "alice"
  /\ task_createdAt (mkTask "alice" "Renamed by Alice" None pending high None
                            None 1 None 1000 3000) = 1000.
Proof.
  apply (task_owner_never_changes (ctx_alice 3000)
           (M_task_update
              (TasksEndpoint.mkUpdateArgs 0%nat (Some "Renamed by Alice")
                                          None None None None None))
           store_one_task 0%nat
           (mkTask "alice" "Buy milk" None pending high None None 1 None
                   1000 1000));
    reflexivity.
Defined.

(** *** The rate limiter *)

(** X7.  Every mutation that names a bucket fails, when that bucket
    denies the authenticated caller, with the rate-limit error carrying
    the bucket's retry-after, and returns the store it was given. *)
Theorem denied_bucket_stops_mutation
    (ctx : Ctx) (u : UserId) (op : EndpointMutation) (name : string)
    (retryAfter : Z) (s : Store) :
  authUser ctx = Some u ->
  endpoint_bucket op = Some name ->
  rateLimit ctx name u = RateDenied retryAfter ->
  run_endpoint ctx op s = (Some (ErrRateLimit retryAfter), s).
Proof.
  intros Hauth Hbucket Hrate.
  destruct op; simpl in Hbucket; try discriminate Hbucket;
    injection Hbucket as <-; simpl;
    unfold outcome,
      TasksEndpoint.create, TasksEndpoint.update, TasksEndpoint.complete,
      TasksEndpoint.reorder, TasksEndpoint.remove, TasksEndpoint.deleteCompleted,
      CommentsEndpoint.create, CommentsEndpoint.update, CommentsEndpoint.remove,
      PreferencesEndpoint.update, PreferencesEndpoint.updateTheme,
      PreferencesEndpoint.updateDefaultView,
      AgentEndpoint.createThread, AgentEndpoint.sendMessage;
    rewrite Hauth, Hrate; reflexivity.
Qed.

Lemma denied_bucket_stops_mutation_witness :
  run_endpoint ctx_alice_limited (M_agent_sendMessage 0%nat "hello")
    store_thread
  = (Some (ErrRateLimit 750), store_thread).
Proof.
  apply (denied_bucket_stops_mutation ctx_alice_limited "alice"
           (M_agent_sendMessage 0%nat "hello") "sendMessage" 750 store_thread);
    reflexivity.
Defined.

(** X8.  The mutations that name no bucket ([initialize] of the
    preferences, [updateThread], [archiveThread], [deleteThread],
    [storeAssistantMessage]) never consult the rate limiter: with the
    same caller and clock, their outcome is the same under any rate
    limiter. *)
Theorem unbucketed_mutation_ignores_rate_limiter
    (ctx : Ctx) (limiter : string -> UserId -> RateLimitStatus)
    (op : EndpointMutation) (s : Store) :
  endpoint_bucket op = None ->
  run_endpoint (mkCtx (authUser ctx) limiter (now ctx)) op s
  = run_endpoint ctx op s.
Proof.
  intros Hbucket.
  destruct op; simpl in Hbucket; try discriminate Hbucket; reflexivity.
Qed.

Lemma unbucketed_mutation_ignores_rate_limiter_witness :
  run_endpoint (mkCtx (Some "alice") (deny_all 750) 6000)
    (M_agent_deleteThread 0%nat) store_chat
  = run_endpoint (ctx_alice 6000) (M_agent_deleteThread 0%nat) store_chat.
Proof.
  apply (unbucketed_mutation_ignores_rate_limiter (ctx_alice 6000)
           (deny_all 750) (M_agent_deleteThread 0%nat) store_chat).
  reflexivity.
Defined.

(* ================================================================= *)
(** ** Further properties of the validation helpers *)

Lemma string_rev_onto_visible (s : string) :
  forall acc,
    has_visible_unit (string_rev_onto s acc)
    = has_visible_unit s || has_visible_unit acc.
Proof.
  induction s as [|c s IH]; intros acc; simpl; [reflexivity|].
  rewrite IH. simpl.
  destruct (is_white_space c), (has_visible_unit s), (has_visible_unit acc);
    reflexivity.
Qed.

Lemma trim_start_visible (s : string) :
  has_visible_unit (trim_start s) = has_visible_unit s.
Proof.
  induction s as [|c s IH]; simpl; [reflexivity|].
  destruct (is_white_space c) eqn:Hc; simpl; [exact IH|].
  rewrite Hc. reflexivity.
Qed.

Lemma trim_start_empty_iff (s : string) :
  (0 <? String.length (trim_start s))%nat = has_visible_unit s.
Proof.
  induction s as [|c s IH]; simpl; [reflexivity|].
  destruct (is_white_space c); simpl; [exact IH | reflexivity].
Qed.

Lemma string_rev_onto_length (s : string) :
  forall acc,
    String.length (string_rev_onto s acc)
    = (String.length s + String.length acc)%nat.
Proof.
  induction s as [|c s IH]; intros acc; simpl; [reflexivity|].
  rewrite IH. simpl. lia.
Qed.

(** The trimmed string is non-empty exactly when the string holds a code
    unit that is not white space. *)
Lemma trim_nonempty (s : string) :
  (str_length (trim s) >? 0) = has_visible_unit s.
Proof.
  unfold str_length, trim, string_rev.
  rewrite string_rev_onto_length. simpl. rewrite Nat.add_0_r.
  rewrite <- (trim_start_visible s).
  rewrite <- (orb_false_r (has_visible_unit (trim_start s))).
  change false with (has_visible_unit EmptyString) at 1.
  rewrite <- string_rev_onto_visible, <- trim_start_empty_iff.
  destruct (String.length _); reflexivity.
Qed.

(** X9.  The "non-empty" test of the validators looks through white
    space: a title, a comment and a message are accepted exactly when
    they hold a code unit that is not white space and are at most 200,
    1000 and 10000 code units long. *)
Theorem validators_need_a_visible_unit (text : string) :
  Validation.isValidTaskTitle text
  = has_visible_unit text && (str_length text <=? 200)
  /\ Validation.isValidCommentContent text
     = has_visible_unit text && (str_length text <=? 1000)
  /\ ValidationExtra.isValidMessageContent text
     = has_visible_unit text && (str_length text <=? 10000).
Proof.
  unfold Validation.isValidTaskTitle, Validation.isValidCommentContent,
    ValidationExtra.isValidMessageContent.
  rewrite trim_nonempty. auto.
Qed.

(** The verdict of [validateTaskInput] and its messages, rule by rule. *)
Lemma validateTaskInput_rules (now : Z) (input : Validation.TaskInput) :
  Validation.valid (Validation.validateTaskInput now input)
  = Validation.isValidTaskTitle (Validation.in_title input)
    && Validation.isValidTaskDescription (Validation.in_description input)
    && negb (truthy_number (Validation.in_dueDate input)
             && (patched (Validation.in_dueDate input) 0 <? now))
    && Validation.isValidTaskTags (Validation.in_tags input)
  /\ Validation.errors (Validation.validateTaskInput now input)
     = (if Validation.isValidTaskTitle (Validation.in_title input)
        then [] else [Validation.title_error])
       ++ (if Validation.isValidTaskDescription (Validation.in_description input)
           then [] else [Validation.description_error])
       ++ (if truthy_number (Validation.in_dueDate input)
              && (patched (Validation.in_dueDate input) 0 <? now)
           then [Validation.dueDate_error] else [])
       ++ (if Validation.isValidTaskTags (Validation.in_tags input)
           then [] else [Validation.tags_error]).
Proof.
  unfold Validation.validateTaskInput, Validation.isValidDueDate.
  destruct (Validation.isValidTaskTitle _),
    (Validation.isValidTaskDescription _),
    (Validation.isValidTaskTags _),
    (Validation.in_dueDate input) as [d|];
    cbn [truthy_number patched negb andb];
    try destruct (d =? 0); try destruct (d <? now);
    split; reflexivity.
Qed.

(** X10.  [validateTaskInput] checks all four rules whatever the earlier
    ones say: the input is valid exactly when every rule passes, and the
    messages are those of the failed rules, once each, in the order
    title, description, due date, tags.  A due date fails only when it is
    non-zero and lies before the time of the call. *)
Theorem validateTaskInput_reports_every_failed_rule
    (now : Z) (input : Validation.TaskInput) :
  Validation.valid (Validation.validateTaskInput now input)
  = Validation.isValidTaskTitle (Validation.in_title input)
    && Validation.isValidTaskDescription (Validation.in_description input)
    && negb (truthy_number (Validation.in_dueDate input)
             && (patched (Validation.in_dueDate input) 0 <? now))
    && Validation.isValidTaskTags (Validation.in_tags input)
  /\ Validation.errors (Validation.validateTaskInput now input)
     = (if Validation.isValidTaskTitle (Validation.in_title input)
        then [] else [Validation.title_error])
       ++ (if Validation.isValidTaskDescription (Validation.in_description input)
           then [] else [Validation.description_error])
       ++ (if truthy_number (Validation.in_dueDate input)
              && (patched (Validation.in_dueDate input) 0 <? now)
           then [Validation.dueDate_error] else [])
       ++ (if Validation.isValidTaskTags (Validation.in_tags input)
           then [] else [Validation.tags_error]).
Proof. exact (validateTaskInput_rules now input). Qed.

(* ================================================================= *)
(** ** What [create] and [update] let into the store *)

(** X11.  A successful [create] stores, under a new id, a task owned by
    the caller with the title given, in status [pending], without completion timestamp, with priority
    [medium] unless one was given, created at the time of the call; its
    title, description and tags pass their validators, and its due date,
    when it has one, is zero or not before the time of the call; the
    audit trail receives one [created] record for it. *)
Theorem create_stores_valid_pending_task
    (ctx : Ctx) (args : TasksEndpoint.CreateArgs) (s s' : Store) (taskId : Id) :
  TasksEndpoint.create ctx args s = (inr taskId, s') ->
  exists u t,
    authUser ctx = Some u
    /\ table_get (tasks s) taskId = None
    /\ table_get (tasks s') taskId = Some t
    /\ task_userId t = u
    /\ task_title t = TasksEndpoint.c_title args
    /\ task_status t = pending
    /\ task_completedAt t = None
    /\ task_priority t = patched (TasksEndpoint.c_priority args) medium
    /\ task_createdAt t = now ctx
    /\ Validation.isValidTaskTitle (task_title t) = true
    /\ Validation.isValidTaskDescription (task_description t) = true
    /\ Validation.isValidTaskTags (task_tags t) = true
    /\ (forall d, task_dueDate t = Some d -> d = 0 \/ now ctx <= d)
    /\ taskActivity s'
       = taskActivity s
         ++ [Some (mkTaskActivity taskId u created None (now ctx))].
Proof.
  unfold TasksEndpoint.create. intros Hrun.
  destruct (authUser ctx) as [u|]; [|discriminate].
  destruct (rateLimit ctx "createTask" u); [|discriminate].
  destruct (Validation.valid _) eqn:Hvalid; [|discriminate].
  rewrite (proj1 (validateTaskInput_rules _ _)) in Hvalid.
  cbn [Validation.in_title Validation.in_description Validation.in_dueDate
       Validation.in_tags] in Hvalid.
  apply andb_true_iff in Hvalid. destruct Hvalid as [Hvalid Htags].
  apply andb_true_iff in Hvalid. destruct Hvalid as [Hvalid Hdue].
  apply andb_true_iff in Hvalid. destruct Hvalid as [Htitle Hdesc].
  destruct (getMaxPositionForUser_spec ctx u s) as [m [Hmax _]].
  cbn [negb] in Hrun. unfold bind in Hrun. rewrite Hmax in Hrun.
  unfold Tasks.createTask, TaskActivity.createTaskActivity, db_insert, ret
    in Hrun.
  simpl in Hrun. injection Hrun as <- <-. simpl.
  eexists u, _. split; [reflexivity|].
  split; [apply table_get_length|].
  split; [apply table_get_snoc_new|]. simpl.
  do 6 (split; [reflexivity|]).
  split; [exact Htitle|]. split; [exact Hdesc|]. split; [exact Htags|].
  split; [|reflexivity].
  intros d Hd. rewrite Hd in Hdue. cbn [truthy_number patched] in Hdue.
  destruct (Z.eq_dec d 0) as [Hz|Hnz]; [left; exact Hz|].
  right. apply Z.eqb_neq in Hnz. rewrite Hnz in Hdue.
  cbn [negb andb] in Hdue. apply negb_true_iff, Z.ltb_ge in Hdue. exact Hdue.
Qed.

Lemma create_stores_valid_pending_task_witness :
  exists u t,
    authUser (ctx_alice 1000) = Some u
    /\ table_get (tasks emptyStore) 0%nat = None
    /\ table_get (tasks store_one_task) 0%nat = Some t
    /\ task_userId t = u
    /\ task_title t = "Buy milk"
    /\ task_status t = pending
    /\ task_completedAt t = None
    /\ task_priority t = high
    /\ task_createdAt t = 1000
    /\ Validation.isValidTaskTitle (task_title t) = true
    /\ Validation.isValidTaskDescription (task_description t) = true
    /\ Validation.isValidTaskTags (task_tags t) = true
    /\ (forall d, task_dueDate t = Some d -> d = 0 \/ 1000 <= d)
    /\ taskActivity store_one_task
       = taskActivity emptyStore
         ++ [Some (mkTaskActivity 0%nat u created None 1000)].
Proof.
  apply (create_stores_valid_pending_task (ctx_alice 1000) buy_milk
           emptyStore store_one_task 0%nat).
  reflexivity.
Defined.

(** What the validation step of [update] guarantees about the fields of
    a call that gets past it. *)
Lemma update_guard_checks (now : Z) (stored : string)
    (title description : option string) (dueDate : option Z)
    (tags : option (list string)) :
  truthy_string title || truthy_string description
  || truthy_number dueDate || truthy_present tags = false
  \/ Validation.valid
       (Validation.validateTaskInput now
          (Validation.mkTaskInput
             (if truthy_string title then patched title stored else stored)
             description dueDate tags)) = true ->
  (forall t, title = Some t -> t = "" \/ Validation.isValidTaskTitle t = true)
  /\ Validation.isValidTaskDescription description = true
  /\ Validation.isValidTaskTags tags = true
  /\ (forall d, dueDate = Some d -> d = 0 \/ now <= d).
Proof.
  intros [Hguard | Hvalid].
  - apply orb_false_iff in Hguard. destruct Hguard as [Hguard Htags].
    apply orb_false_iff in Hguard. destruct Hguard as [Hguard Hdue].
    apply orb_false_iff in Hguard. destruct Hguard as [Htitle Hdesc].
    split; [|split; [|split]].
    + intros t ->. simpl in Htitle. apply negb_false_iff in Htitle.
      left. apply String.eqb_eq, Htitle.
    + unfold Validation.isValidTaskDescription. rewrite Hdesc. reflexivity.
    + destruct tags; [discriminate | reflexivity].
    + intros d ->. simpl in Hdue. apply negb_false_iff in Hdue.
      left. apply Z.eqb_eq, Hdue.
  - rewrite (proj1 (validateTaskInput_rules _ _)) in Hvalid.
    cbn [Validation.in_title Validation.in_description Validation.in_dueDate
         Validation.in_tags] in Hvalid.
    apply andb_true_iff in Hvalid. destruct Hvalid as [Hvalid Htags].
    apply andb_true_iff in Hvalid. destruct Hvalid as [Hvalid Hdue].
    apply andb_true_iff in Hvalid. destruct Hvalid as [Htitle Hdesc].
    split; [|split; [|split]]; try assumption.
    + intros t ->. cbn [truthy_string patched] in Htitle.
      destruct (String.eqb_spec t "") as [Hempty|Hne]; [left; exact Hempty|].
      right. exact Htitle.
    + intros d ->. cbn [truthy_number patched] in Hdue.
      destruct (Z.eq_dec d 0) as [Hz|Hnz]; [left; exact Hz|].
      right. apply Z.eqb_neq in Hnz. rewrite Hnz in Hdue.
      cbn [negb andb] in Hdue. apply negb_true_iff, Z.ltb_ge in Hdue.
      exact Hdue.
Qed.

(** X12.  A successful [update] has checked what it stores, up to the
    falsy values: a title it was given is empty or passes the title
    validator, the description and the tags it was given pass theirs, and
    a due date it was given is zero or not before the time of the call. *)
Theorem update_stores_checked_fields
    (ctx : Ctx) (args : TasksEndpoint.UpdateArgs) (s s' : Store) (id : Id) :
  TasksEndpoint.update ctx args s = (inr id, s') ->
  (forall t, TasksEndpoint.u_title args = Some t ->
             t = "" \/ Validation.isValidTaskTitle t = true)
  /\ Validation.isValidTaskDescription (TasksEndpoint.u_description args) = true
  /\ Validation.isValidTaskTags (TasksEndpoint.u_tags args) = true
  /\ (forall d, TasksEndpoint.u_dueDate args = Some d -> d = 0 \/ now ctx <= d).
Proof.
  unfold TasksEndpoint.update. intros Hrun.
  destruct (authUser ctx) as [u|]; [|discriminate].
  destruct (rateLimit ctx "updateTask" u); [|discriminate].
  unfold bind, Tasks.getTaskById, db_get in Hrun.
  cbn [fst snd tget tasksT] in Hrun.
  destruct (table_get (tasks s) (TasksEndpoint.u_id args)) as [task|];
    [|discriminate].
  destruct (negb (String.eqb (task_userId task) u)); [discriminate|].
  apply (update_guard_checks (now ctx) (task_title task)).
  match type of Hrun with
  | context [if ?c then _ else ret tt] => destruct c; [|left; reflexivity]
  end.
  match type of Hrun with
  | context [if negb ?v then _ else ret tt] =>
      destruct v; [right; reflexivity | discriminate Hrun]
  end.
Qed.

Lemma update_stores_checked_fields_witness :
  (forall t, Some "Buy oat milk" = Some t ->
             t = "" \/ Validation.isValidTaskTitle t = true)
  /\ Validation.isValidTaskDescription None = true
  /\ Validation.isValidTaskTags None = true
  /\ (forall d, @None Z = Some d -> d = 0 \/ 2000 <= d).
Proof.
  apply (update_stores_checked_fields (ctx_alice 2000)
           (TasksEndpoint.mkUpdateArgs 0%nat (Some "Buy oat milk") None None
                                       None None None)
           store_one_task
           (snd (TasksEndpoint.update (ctx_alice 2000)
                   (TasksEndpoint.mkUpdateArgs 0%nat (Some "Buy oat milk") None
                                               None None None None)
                   store_one_task))
           0%nat).
  vm_compute. reflexivity.
Defined.

(* ================================================================= *)
(** ** Lemmas on the order of query results *)

Lemma table_docs_from_increasing {A} (t : Table A) :
  forall i,
    StronglySorted (fun a b : Id * A => (fst a < fst b)%nat)
                   (table_docs_from i t).
Proof.
  induction t as [|o t IH]; intros i; simpl; [constructor|].
  destruct o as [d|]; [|apply IH]. constructor; [apply IH|].
  apply List.Forall_forall. intros [id d'] Hin.
  apply table_docs_from_spec in Hin. simpl. lia.
Qed.

Lemma StronglySorted_filter {A} (R : A -> A -> Prop) (p : A -> bool)
    (l : list A) :
  StronglySorted R l -> StronglySorted R (List.filter p l).
Proof.
  induction 1 as [|a l Hl IH Hall]; simpl; [constructor|].
  destruct (p a); [|exact IH]. constructor; [exact IH|].
  rewrite List.Forall_forall in Hall |- *.
  intros x Hx. apply filter_In in Hx. apply Hall. tauto.
Qed.

Lemma StronglySorted_snoc {A} (R : A -> A -> Prop) (l : list A) (x : A) :
  StronglySorted R l -> List.Forall (fun y => R y x) l ->
  StronglySorted R (l ++ [x]).
Proof.
  induction 1 as [|a l Hl IH Hall]; intros Hx; simpl.
  - constructor; constructor.
  - inversion Hx as [|? ? Hax Hlx]; subst.
    constructor; [apply IH, Hlx|].
    apply List.Forall_app. split; [exact Hall|].
    constructor; [exact Hax | constructor].
Qed.

Lemma StronglySorted_rev {A} (R : A -> A -> Prop) (l : list A) :
  StronglySorted R l -> StronglySorted (fun a b => R b a) (rev l).
Proof.
  induction 1 as [|a l Hl IH Hall]; simpl; [constructor|].
  apply StronglySorted_snoc; [exact IH|].
  rewrite List.Forall_forall in Hall |- *.
  intros x Hx. apply Hall. apply in_rev. exact Hx.
Qed.

Lemma firstn_In {A} (n : nat) :
  forall (l : list A) (x : A), In x (firstn n l) -> In x l.
Proof.
  induction n as [|n IH]; intros l x Hx; [destruct Hx|].
  destruct l as [|a l]; [destruct Hx|]. simpl in Hx.
  destruct Hx as [->|Hx]; [left; reflexivity | right; apply IH, Hx].
Qed.

Lemma StronglySorted_firstn {A} (R : A -> A -> Prop) (n : nat) :
  forall l : list A, StronglySorted R l -> StronglySorted R (firstn n l).
Proof.
  induction n as [|n IH]; intros l Hl; [constructor|].
  destruct l as [|a l]; [constructor|]. simpl.
  inversion Hl as [|? ? Hl' Hall]; subst.
  constructor; [apply IH, Hl'|].
  rewrite List.Forall_forall in Hall |- *.
  intros x Hx. apply Hall. eapply firstn_In. exact Hx.
Qed.

Section IndexOrder.
Context {A : Type} (key : A -> Z).

Let leb (a b : A) : bool := key a <=? key b.

Lemma insert_by_In (x : A) (l : list A) :
  forall y, In y (insert_by leb x l) <-> y = x \/ In y l.
Proof.
  induction l as [|a l IH]; intros y; simpl.
  - intuition.
  - destruct (leb a x); simpl; [rewrite IH|]; intuition.
Qed.

Lemma insert_by_sorted (x : A) (l : list A) :
  StronglySorted (fun a b => key a <= key b) l ->
  StronglySorted (fun a b => key a <= key b) (insert_by leb x l).
Proof.
  induction 1 as [|a l Hl IH Hall]; simpl.
  - constructor; constructor.
  - unfold leb at 1. destruct (Z.leb_spec (key a) (key x)) as [Hle|Hlt].
    + constructor; [exact IH|].
      rewrite List.Forall_forall in Hall |- *.
      intros y Hy. apply insert_by_In in Hy.
      destruct Hy as [->|Hy]; [exact Hle | apply Hall, Hy].
    + constructor; [constructor; assumption|].
      constructor; [lia|].
      rewrite List.Forall_forall in Hall |- *.
      intros y Hy. specialize (Hall y Hy). lia.
Qed.

Lemma fold_insert_by (l : list A) :
  forall acc,
    StronglySorted (fun a b => key a <= key b) acc ->
    StronglySorted (fun a b => key a <= key b)
      (fold_left (fun acc x => insert_by leb x acc) l acc)
    /\ (forall y, In y (fold_left (fun acc x => insert_by leb x acc) l acc)
                  <-> In y l \/ In y acc).
Proof.
  induction l as [|x l IH]; intros acc Hacc; simpl.
  - split; [exact Hacc | intuition].
  - destruct (IH (insert_by leb x acc) (insert_by_sorted x acc Hacc))
      as [Hsorted Hin].
    split; [exact Hsorted|].
    intros y. rewrite Hin, insert_by_In. intuition.
Qed.

(** An index on a numeric field lists the documents by that field,
    lowest first, and lists each of them. *)
Lemma index_order_spec (l : list A) :
  StronglySorted (fun a b => key a <= key b) (index_order leb l)
  /\ (forall y, In y (index_order leb l) <-> In y l).
Proof.
  destruct (fold_insert_by l [] (SSorted_nil _)) as [Hsorted Hin].
  split; [exact Hsorted|].
  intros y. unfold index_order. rewrite Hin. simpl. intuition.
Qed.

End IndexOrder.

(* ================================================================= *)
(** ** Properties of the task queries *)

(** X13.  [list], for an authenticated caller, returns exactly the
    caller's tasks that are in the store, each once and the newest
    first, and leaves the store alone. *)
Theorem list_returns_own_tasks_newest_first
    (ctx : Ctx) (u : UserId) (s : Store) :
  authUser ctx = Some u ->
  exists l,
    TasksQueries.list ctx s = (inr l, s)
    /\ (forall id t, In (id, t) l
                     <-> table_get (tasks s) id = Some t /\ task_userId t = u)
    /\ StronglySorted (fun a b : Id * Task => (fst b < fst a)%nat) l.
Proof.
  intros Hauth. unfold TasksQueries.list. rewrite Hauth.
  destruct (getTasksByUser_spec ctx u s) as [l [Hrun Hl]].
  exists l. split; [exact Hrun|]. split; [exact Hl|].
  unfold Tasks.getTasksByUser, bind, db_query, ret in Hrun.
  injection Hrun as <-.
  apply StronglySorted_rev, StronglySorted_filter, table_docs_from_increasing.
Qed.

Lemma list_returns_own_tasks_newest_first_witness :
  exists l,
    TasksQueries.list (ctx_alice 6000) store_three_tasks = (inr l, store_three_tasks)
    /\ (forall id t, In (id, t) l
                     <-> table_get (tasks store_three_tasks) id = Some t
                         /\ task_userId t = "alice")
    /\ StronglySorted (fun a b : Id * Task => (fst b < fst a)%nat) l.
Proof.
  apply (list_returns_own_tasks_newest_first (ctx_alice 6000) "alice"
           store_three_tasks).
  reflexivity.
Defined.

(** X14.  [get] returns a task exactly when the task is in the store and
    is the caller's: it never shows the task of another user, and it
    leaves the store alone. *)
Theorem get_returns_exactly_own_task
    (ctx : Ctx) (id : Id) (s s' : Store) (t : Task) :
  TasksQueries.get ctx id s = (inr t, s')
  <-> s' = s
      /\ table_get (tasks s) id = Some t
      /\ authUser ctx = Some (task_userId t).
Proof.
  unfold TasksQueries.get. split.
  - intros Hrun.
    destruct (authUser ctx) as [u|]; [|discriminate].
    unfold bind, Tasks.getTaskById, db_get, ret in Hrun.
    cbn [fst snd tget tasksT] in Hrun.
    destruct (table_get (tasks s) id) as [task|]; [|discriminate].
    destruct (String.eqb_spec (task_userId task) u) as [Hown|Hown];
      [|discriminate].
    cbn [negb] in Hrun. injection Hrun as <- <-. subst u. auto.
  - intros (-> & Hget & Hauth). rewrite Hauth.
    unfold bind, Tasks.getTaskById, db_get, ret.
    cbn [fst snd tget tasksT]. rewrite Hget, String.eqb_refl. reflexivity.
Qed.

(** X15.  [listByPosition], for an authenticated caller, returns exactly
    the caller's tasks, by ascending position. *)
Theorem listByPosition_sorted
    (ctx : Ctx) (u : UserId) (s : Store) :
  authUser ctx = Some u ->
  exists l,
    TasksQueries.listByPosition ctx s = (inr l, s)
    /\ (forall id t, In (id, t) l
                     <-> table_get (tasks s) id = Some t /\ task_userId t = u)
    /\ StronglySorted
         (fun a b : Id * Task => task_position (snd a) <= task_position (snd b)) l.
Proof.
  intros Hauth. unfold TasksQueries.listByPosition. rewrite Hauth.
  unfold Tasks.getTasksByUserAndPosition, bind, db_query, ret.
  cbn [tget tasksT].
  destruct (index_order_spec (fun d : nat * Task => task_position (snd d))
              (List.filter
                 (fun d : nat * Task => String.eqb (task_userId (snd d)) u)
                 (table_docs (tasks s))))
    as [Hsorted Hin].
  eexists. split; [reflexivity|]. split; [|exact Hsorted].
  intros id t. rewrite Hin, filter_In, table_docs_spec. simpl.
  rewrite String.eqb_eq. reflexivity.
Qed.

Lemma listByPosition_sorted_witness :
  exists l,
    TasksQueries.listByPosition (ctx_alice 6000) store_three_tasks
    = (inr l, store_three_tasks)
    /\ (forall id t, In (id, t) l
                     <-> table_get (tasks store_three_tasks) id = Some t
                         /\ task_userId t = "alice")
    /\ StronglySorted
         (fun a b : Id * Task => task_position (snd a) <= task_position (snd b)) l.
Proof.
  apply (listByPosition_sorted (ctx_alice 6000) "alice" store_three_tasks).
  reflexivity.
Defined.

(** X16.  [listOverdue], for an authenticated caller, returns exactly the
    caller's tasks that are not completed and whose due date is non-zero
    and before the time of the call. *)
Theorem listOverdue_exact
    (ctx : Ctx) (u : UserId) (s : Store) :
  authUser ctx = Some u ->
  exists l,
    TasksQueries.listOverdue ctx s = (inr l, s)
    /\ (forall id t,
          In (id, t) l
          <-> table_get (tasks s) id = Some t
              /\ task_userId t = u
              /\ task_status t <> completed
              /\ exists d, task_dueDate t = Some d /\ d <> 0 /\ d < now ctx).
Proof.
  intros Hauth. unfold TasksQueries.listOverdue. rewrite Hauth.
  destruct (getTasksByUser_spec ctx u s) as [l [Hrun Hl]].
  unfold Tasks.getOverdueTasksByUser, bind, ret. rewrite Hrun.
  eexists. split; [reflexivity|].
  intros id t. rewrite filter_In, Hl. cbn [snd].
  rewrite !andb_true_iff, negb_true_iff.
  split.
  - intros [[Hget Hown] [[Htruthy Hdue] Hstatus]].
    split; [exact Hget|]. split; [exact Hown|]. split.
    + intros Hc. rewrite Hc in Hstatus. discriminate.
    + destruct (task_dueDate t) as [d|]; [|discriminate].
      exists d. split; [reflexivity|].
      cbn [truthy_number] in Htruthy.
      apply negb_true_iff, Z.eqb_neq in Htruthy.
      apply Z.ltb_lt in Hdue. auto.
  - intros (Hget & Hown & Hstatus & d & Hd & Hnz & Hlt).
    split; [auto|]. rewrite Hd. cbn [truthy_number].
    split; [split|].
    + apply negb_true_iff, Z.eqb_neq, Hnz.
    + apply Z.ltb_lt, Hlt.
    + destruct (task_status t); try reflexivity. congruence.
Qed.

Lemma listOverdue_exact_witness :
  exists l,
    TasksQueries.listOverdue (ctx_alice 8000) store_three_tasks
    = (inr l, store_three_tasks)
    /\ (forall id t,
          In (id, t) l
          <-> table_get (tasks store_three_tasks) id = Some t
              /\ task_userId t = "alice"
              /\ task_status t <> completed
              /\ exists d, task_dueDate t = Some d /\ d <> 0 /\ d < 8000).
Proof.
  apply (listOverdue_exact (ctx_alice 8000) "alice" store_three_tasks).
  reflexivity.
Defined.

(** *** Counting *)

Lemma count_le {A} (f g : A -> bool) (l : list A) :
  (forall x, f x = true -> g x = true) ->
  (length (List.filter f l) <= length (List.filter g l))%nat.
Proof.
  intros Hfg. induction l as [|x l IH]; simpl; [lia|].
  destruct (f x) eqn:Hf.
  - rewrite (Hfg x Hf). simpl. lia.
  - destruct (g x); simpl; lia.
Qed.

Lemma count_split {A} (f g h : A -> bool) (l : list A) :
  (forall x, f x = g x || h x) ->
  (forall x, g x && h x = false) ->
  length (List.filter f l)
  = (length (List.filter g l) + length (List.filter h l))%nat.
Proof.
  intros Hf Hgh. induction l as [|x l IH]; simpl; [reflexivity|].
  rewrite Hf. specialize (Hgh x).
  destruct (g x), (h x); simpl in *; try discriminate; lia.
Qed.

Lemma count_filter_filter {A} (p q : A -> bool) (l : list A) :
  List.filter q (List.filter p l) = List.filter (fun x => p x && q x) l.
Proof.
  induction l as [|x l IH]; simpl; [reflexivity|].
  destruct (p x); simpl; [|exact IH].
  destruct (q x); rewrite IH; reflexivity.
Qed.

Lemma count_rev {A} (q : A -> bool) (l : list A) :
  length (List.filter q (rev l)) = length (List.filter q l).
Proof.
  induction l as [|x l IH]; simpl; [reflexivity|].
  rewrite List.filter_app, length_app, IH. simpl.
  destruct (q x); simpl; lia.
Qed.

(** The three status counts and the overdue count of one user. *)
Lemma status_counts (u : UserId) (now : Z) (docs : list (Id * Task)) :
  let own := fun d : Id * Task => String.eqb (task_userId (snd d)) u in
  let has st := fun d : Id * Task =>
                  own d && TaskStatus_eqb (task_status (snd d)) st in
  let late := fun d : Id * Task =>
                truthy_number (task_dueDate (snd d))
                && match task_dueDate (snd d) with
                   | Some due => due <? now
                   | None => false
                   end
                && negb (TaskStatus_eqb (task_status (snd d)) completed) in
  (length (List.filter (has pending) docs)
   + length (List.filter (has in_progress) docs)
   + length (List.filter (has completed) docs)
   = length (List.filter own docs))%nat
  /\ (length (List.filter late (rev (List.filter own docs)))
      <= length (List.filter (has pending) docs)
         + length (List.filter (has in_progress) docs))%nat.
Proof.
  intros own has late. split.
  - rewrite (count_split own (fun d => has pending d || has in_progress d)
               (has completed)).
    + rewrite (count_split (fun d => has pending d || has in_progress d)
                 (has pending) (has in_progress)); [reflexivity | reflexivity |].
      intros d. unfold has. destruct (own d), (task_status (snd d)); reflexivity.
    + intros d. unfold has. destruct (own d), (task_status (snd d)); reflexivity.
    + intros d. unfold has. destruct (own d), (task_status (snd d)); reflexivity.
  - rewrite count_rev, count_filter_filter.
    rewrite <- (count_split (fun d => has pending d || has in_progress d)
                  (has pending) (has in_progress)); [| reflexivity |].
    + apply count_le. intros d Hd. unfold has.
      apply andb_true_iff in Hd. destruct Hd as [Hown Hlate].
      unfold late in Hlate. apply andb_true_iff in Hlate.
      destruct Hlate as [_ Hstatus]. rewrite Hown.
      destruct (task_status (snd d)); try reflexivity. discriminate.
    + intros d. unfold has. destruct (own d), (task_status (snd d)); reflexivity.
Qed.

(** X17.  [getStats], for an authenticated caller, leaves the store alone
    and returns counts that add up: [total] is the sum of the three
    status counts and is the number of tasks that [list] returns; the
    overdue count is at most [pending + inProgress]; and the completion
    rate of a caller without tasks is 0. *)
Theorem getStats_counts_add_up (ctx : Ctx) (u : UserId) (s : Store) :
  authUser ctx = Some u ->
  exists st l,
    TasksQueries.getStats ctx s = (inr st, s)
    /\ TasksQueries.list ctx s = (inr l, s)
    /\ TasksQueries.total st
       = TasksQueries.pending_count st + TasksQueries.inProgress st
         + TasksQueries.completed_count st
    /\ TasksQueries.total st = arr_length l
    /\ 0 <= TasksQueries.overdue st
       <= TasksQueries.pending_count st + TasksQueries.inProgress st
    /\ (l = [] -> TasksQueries.completionRate st = 0).
Proof.
  intros Hauth. unfold TasksQueries.getStats, TasksQueries.list.
  rewrite Hauth.
  unfold par, bind, ret, Tasks.getTaskCountByUserAndStatus,
    Tasks.getOverdueTasksByUser, Tasks.getTasksByUserAndStatus,
    Tasks.getTasksByUser, bind, db_query, ret.
  cbn [tget tasksT].
  destruct (status_counts u (now ctx) (table_docs (tasks s))) as [Hsum Hlate].
  cbv zeta in Hsum, Hlate.
  eexists _, _. split; [reflexivity|]. split; [reflexivity|].
  cbn [TasksQueries.total TasksQueries.pending_count TasksQueries.inProgress
       TasksQueries.completed_count TasksQueries.overdue
       TasksQueries.completionRate].
  unfold arr_length. rewrite !length_rev.
  split; [reflexivity|]. split; [lia|]. split; [lia|].
  intros Hnil. unfold completion_rate.
  assert (Hzero : length
                    (List.filter
                       (fun d : nat * Task => String.eqb (task_userId (snd d)) u)
                       (table_docs (tasks s))) = 0%nat).
  { rewrite <- length_rev, Hnil. reflexivity. }
  destruct (Z.gtb_spec
              (Z.of_nat (length (List.filter
                 (fun d : nat * Task =>
                    String.eqb (task_userId (snd d)) u
                    && TaskStatus_eqb (task_status (snd d)) pending)
                 (table_docs (tasks s))))
               + Z.of_nat (length (List.filter
                 (fun d : nat * Task =>
                    String.eqb (task_userId (snd d)) u
                    && TaskStatus_eqb (task_status (snd d)) in_progress)
                 (table_docs (tasks s))))
               + Z.of_nat (length (List.filter
                 (fun d : nat * Task =>
                    String.eqb (task_userId (snd d)) u
                    && TaskStatus_eqb (task_status (snd d)) completed)
                 (table_docs (tasks s))))) 0) as [Hpos|Hle];
    [lia | reflexivity].
Qed.

Lemma getStats_counts_add_up_witness :
  exists st l,
    TasksQueries.getStats (ctx_alice 8000) store_three_tasks
    = (inr st, store_three_tasks)
    /\ TasksQueries.list (ctx_alice 8000) store_three_tasks
       = (inr l, store_three_tasks)
    /\ TasksQueries.total st
       = TasksQueries.pending_count st + TasksQueries.inProgress st
         + TasksQueries.completed_count st
    /\ TasksQueries.total st = arr_length l
    /\ 0 <= TasksQueries.overdue st
       <= TasksQueries.pending_count st + TasksQueries.inProgress st
    /\ (l = [] -> TasksQueries.completionRate st = 0).
Proof.
  apply (getStats_counts_add_up (ctx_alice 8000) "alice" store_three_tasks).
  reflexivity.
Defined.

(* ================================================================= *)
(** ** Properties of the dashboard queries *)

Lemma insert_by_ext {A} (leb1 leb2 : A -> A -> bool) (x : A) (l : list A) :
  (forall a b, leb1 a b = leb2 a b) ->
  insert_by leb1 x l = insert_by leb2 x l.
Proof.
  intros Hext. induction l as [|y l IH]; simpl; [reflexivity|].
  rewrite Hext, IH. reflexivity.
Qed.

Lemma index_order_ext {A} (leb1 leb2 : A -> A -> bool) (l : list A) :
  (forall a b, leb1 a b = leb2 a b) ->
  index_order leb1 l = index_order leb2 l.
Proof.
  intros Hext. unfold index_order. generalize (@nil A).
  induction l as [|x l IH]; intros acc; simpl; [reflexivity|].
  rewrite (insert_by_ext leb1 leb2 x acc Hext). apply IH.
Qed.

(** Sorting with a comparator that subtracts keys sorts by the key. *)
Lemma js_sort_by_key {A} (key : A -> Z) (l : list A) :
  StronglySorted (fun a b => key a <= key b)
                 (js_sort (fun a b => key a - key b) l)
  /\ (forall y, In y (js_sort (fun a b => key a - key b) l) <-> In y l).
Proof.
  unfold js_sort.
  rewrite (index_order_ext _ (fun a b => key a <=? key b)).
  - apply index_order_spec.
  - intros a b. apply eq_true_iff_eq. rewrite !Z.leb_le. lia.
Qed.

(** X18.  [upcoming], for an authenticated caller, returns at most ten
    tasks, by ascending due date; each of them is a task of the caller
    that is not completed and has a non-zero due date. *)
Theorem upcoming_sorted_and_bounded (ctx : Ctx) (u : UserId) (s : Store) :
  authUser ctx = Some u ->
  exists l,
    Dashboard.upcoming ctx s = (inr l, s)
    /\ (length l <= 10)%nat
    /\ StronglySorted
         (fun a b : Id * Task =>
            patched (task_dueDate (snd a)) 0 <= patched (task_dueDate (snd b)) 0)
         l
    /\ (forall id t,
          In (id, t) l ->
          table_get (tasks s) id = Some t
          /\ task_userId t = u
          /\ task_status t <> completed
          /\ exists d, task_dueDate t = Some d /\ d <> 0).
Proof.
  intros Hauth. unfold Dashboard.upcoming. rewrite Hauth.
  destruct (getTasksByUser_spec ctx u s) as [all [Hrun Hall]].
  unfold bind, ret. rewrite Hrun.
  match goal with
  | |- context [js_sort ?cmp ?l] =>
      destruct (js_sort_by_key
                  (fun d : nat * Task => patched (task_dueDate (snd d)) 0) l)
        as [Hsorted Hin]
  end.
  eexists. split; [reflexivity|]. unfold slice0.
  split; [apply firstn_le_length|].
  split; [apply StronglySorted_firstn, Hsorted|].
  intros id t Hl. apply firstn_In, Hin, filter_In in Hl.
  destruct Hl as [Hown Hkeep]. apply Hall in Hown.
  cbn [snd] in Hkeep. apply andb_true_iff in Hkeep.
  destruct Hkeep as [Hstatus Hdue]. destruct Hown as [Hget Hu].
  split; [exact Hget|]. split; [exact Hu|]. split.
  - intros Hc. rewrite Hc in Hstatus. discriminate.
  - destruct (task_dueDate t) as [d|]; [|discriminate].
    exists d. split; [reflexivity|].
    cbn [truthy_number] in Hdue. apply negb_true_iff, Z.eqb_neq in Hdue.
    exact Hdue.
Qed.

Lemma upcoming_sorted_and_bounded_witness :
  exists l,
    Dashboard.upcoming (ctx_alice 6000) store_three_tasks
    = (inr l, store_three_tasks)
    /\ (length l <= 10)%nat
    /\ StronglySorted
         (fun a b : Id * Task =>
            patched (task_dueDate (snd a)) 0 <= patched (task_dueDate (snd b)) 0)
         l
    /\ (forall id t,
          In (id, t) l ->
          table_get (tasks store_three_tasks) id = Some t
          /\ task_userId t = "alice"
          /\ task_status t <> completed
          /\ exists d, task_dueDate t = Some d /\ d <> 0).
Proof.
  apply (upcoming_sorted_and_bounded (ctx_alice 6000) "alice" store_three_tasks).
  reflexivity.
Defined.

(** X19.  [highPriority], for an authenticated caller, returns at most
    ten tasks, the most recently created first; each of them is a task of
    the caller with priority [high] that is not completed. *)
Theorem highPriority_sorted_and_bounded (ctx : Ctx) (u : UserId) (s : Store) :
  authUser ctx = Some u ->
  exists l,
    Dashboard.highPriority ctx s = (inr l, s)
    /\ (length l <= 10)%nat
    /\ StronglySorted
         (fun a b : Id * Task => task_createdAt (snd b) <= task_createdAt (snd a))
         l
    /\ (forall id t,
          In (id, t) l ->
          table_get (tasks s) id = Some t
          /\ task_userId t = u
          /\ task_priority t = high
          /\ task_status t <> completed).
Proof.
  intros Hauth. unfold Dashboard.highPriority. rewrite Hauth.
  destruct (getTasksByUser_spec ctx u s) as [all [Hrun Hall]].
  unfold bind, ret. rewrite Hrun.
  match goal with
  | |- context [js_sort ?cmp ?l] =>
      destruct (js_sort_by_key
                  (fun d : nat * Task => - task_createdAt (snd d)) l)
        as [Hsorted Hin];
      assert (Hcmp : js_sort cmp l
                     = js_sort (fun a b : nat * Task =>
                                  - task_createdAt (snd a)
                                  - - task_createdAt (snd b)) l)
  end.
  { unfold js_sort. apply index_order_ext. intros a b.
    apply eq_true_iff_eq. rewrite !Z.leb_le. lia. }
  rewrite Hcmp.
  eexists. split; [reflexivity|]. unfold slice0.
  split; [apply firstn_le_length|].
  split.
  - apply StronglySorted_firstn.
    eapply StronglySorted_ind with
      (P := StronglySorted
              (fun a b : nat * Task =>
                 task_createdAt (snd b) <= task_createdAt (snd a)));
      [constructor | | exact Hsorted].
    intros a l Hl IH Hfa. constructor; [exact IH|].
    rewrite List.Forall_forall in Hfa |- *.
    intros x Hx. specialize (Hfa x Hx). simpl in Hfa. lia.
  - intros id t Hl. apply firstn_In, Hin, filter_In in Hl.
    destruct Hl as [Hown Hkeep]. apply Hall in Hown.
    cbn [snd] in Hkeep. apply andb_true_iff in Hkeep.
    destruct Hkeep as [Hprio Hstatus]. destruct Hown as [Hget Hu].
    split; [exact Hget|]. split; [exact Hu|]. split.
    + destruct (task_priority t); try discriminate. reflexivity.
    + intros Hc. rewrite Hc in Hstatus. discriminate.
Qed.

Lemma highPriority_sorted_and_bounded_witness :
  exists l,
    Dashboard.highPriority (ctx_alice 6000) store_three_tasks
    = (inr l, store_three_tasks)
    /\ (length l <= 10)%nat
    /\ StronglySorted
         (fun a b : Id * Task => task_createdAt (snd b) <= task_createdAt (snd a))
         l
    /\ (forall id t,
          In (id, t) l ->
          table_get (tasks store_three_tasks) id = Some t
          /\ task_userId t = "alice"
          /\ task_priority t = high
          /\ task_status t <> completed).
Proof.
  apply (highPriority_sorted_and_bounded (ctx_alice 6000) "alice"
           store_three_tasks).
  reflexivity.
Defined.

(** X20.  [productivityStats], for an authenticated caller: the counters
    of the last day never exceed those of the last week, and none is
    negative. *)
Theorem productivity_day_within_week (ctx : Ctx) (u : UserId) (s : Store) :
  authUser ctx = Some u ->
  exists p,
    Dashboard.productivityStats ctx s = (inr p, s)
    /\ 0 <= Dashboard.window_created (Dashboard.today p)
       <= Dashboard.window_created (Dashboard.thisWeek p)
    /\ 0 <= Dashboard.window_completed (Dashboard.today p)
       <= Dashboard.window_completed (Dashboard.thisWeek p).
Proof.
  intros Hauth. unfold Dashboard.productivityStats. rewrite Hauth.
  destruct (getTasksByUser_spec ctx u s) as [all [Hrun _]].
  unfold bind, ret. rewrite Hrun.
  eexists. split; [reflexivity|].
  cbn [Dashboard.today Dashboard.thisWeek Dashboard.window_created
       Dashboard.window_completed].
  unfold arr_length. split; (split; [lia|]); apply inj_le, count_le.
  - intros d Hd. apply Z.geb_le in Hd. apply Z.geb_le. lia.
  - intros d Hd. apply andb_true_iff in Hd. destruct Hd as [Htruthy Hd].
    rewrite Htruthy. apply Z.geb_le in Hd. apply Z.geb_le. lia.
Qed.

Lemma productivity_day_within_week_witness :
  exists p,
    Dashboard.productivityStats (ctx_alice 900000000) store_three_tasks
    = (inr p, store_three_tasks)
    /\ 0 <= Dashboard.window_created (Dashboard.today p)
       <= Dashboard.window_created (Dashboard.thisWeek p)
    /\ 0 <= Dashboard.window_completed (Dashboard.today p)
       <= Dashboard.window_completed (Dashboard.thisWeek p).
Proof.
  apply (productivity_day_within_week (ctx_alice 900000000) "alice"
           store_three_tasks).
  reflexivity.
Defined.

(* ================================================================= *)
(** ** Properties of the preferences endpoints *)

Lemma table_get_snoc_inv {A} (t : Table A) (d d' : A) (id : Id) :
  table_get (t ++ [Some d]) id = Some d' ->
  table_get t id = Some d' \/ (id = length t /\ d' = d).
Proof.
  intros Hget.
  pose proof (table_get_Some_lt _ _ _ Hget) as Hlt.
  rewrite length_app in Hlt. simpl in Hlt.
  destruct (Nat.eq_dec id (length t)) as [->|Hne].
  - rewrite table_get_snoc_new in Hget. injection Hget as <-. right. auto.
  - left. unfold table_get in *. rewrite lookup_app_l in Hget by lia.
    exact Hget.
Qed.

(** What [getUserPreferencesByUser] finds: nothing exactly when the user
    has no document, and otherwise a live document of the user. *)
Lemma getUserPreferencesByUser_spec (ctx : Ctx) (u : UserId) (s : Store) :
  exists r,
    UserPreferences.getUserPreferencesByUser ctx u s = (inr r, s)
    /\ match r with
       | None => no_preferences s u
       | Some (id, p) =>
           table_get (userPreferences s) id = Some p /\ pref_userId p = u
       end.
Proof.
  unfold UserPreferences.getUserPreferencesByUser, bind, db_query, ret.
  cbn [tget userPreferencesT]. eexists. split; [reflexivity|].
  destruct (List.filter _ _) as [|[id p] l] eqn:Hfilter; simpl.
  - intros id p Hget Hown.
    assert (Hin : In (id, p)
                    (List.filter
                       (fun d : nat * UserPreferencesDoc =>
                          String.eqb (pref_userId (snd d)) u)
                       (table_docs (userPreferences s)))).
    { apply filter_In. split; [apply table_docs_spec, Hget|].
      apply String.eqb_eq, Hown. }
    rewrite Hfilter in Hin. destruct Hin.
  - assert (Hin : In (id, p)
                    (List.filter
                       (fun d : nat * UserPreferencesDoc =>
                          String.eqb (pref_userId (snd d)) u)
                       (table_docs (userPreferences s))))
      by (rewrite Hfilter; left; reflexivity).
    apply filter_In in Hin. destruct Hin as [Hdoc Hown].
    split; [apply table_docs_spec, Hdoc | apply String.eqb_eq, Hown].
Qed.

Lemma unique_after_insert (s : Store) (p : UserPreferencesDoc) :
  preferences_unique s ->
  no_preferences s (pref_userId p) ->
  preferences_unique (tset userPreferencesT (userPreferences s ++ [Some p]) s).
Proof.
  intros Huniq Hnone id1 id2 p1 p2 H1 H2 Hsame.
  cbn [tset userPreferencesT userPreferences] in H1, H2.
  apply table_get_snoc_inv in H1. apply table_get_snoc_inv in H2.
  destruct H1 as [H1|[-> ->]], H2 as [H2|[-> ->]].
  - exact (Huniq _ _ _ _ H1 H2 Hsame).
  - exfalso. exact (Hnone _ _ H1 Hsame).
  - exfalso. apply (Hnone _ _ H2). symmetry. exact Hsame.
  - reflexivity.
Qed.

Lemma unique_after_patch (s : Store) (id : Id) (p : UserPreferencesDoc)
    (args : UserPreferences.UpdateUserPreferencesArgs) (updatedAt : Z) :
  preferences_unique s ->
  table_get (userPreferences s) id = Some p ->
  preferences_unique
    (tset userPreferencesT
       (<[id := Some (UserPreferences.patch_preferences args updatedAt p)]>
          (userPreferences s)) s).
Proof.
  intros Huniq Hget id1 id2 p1 p2 H1 H2 Hsame.
  pose proof (table_get_Some_lt _ _ _ Hget) as Hlt.
  cbn [tset userPreferencesT userPreferences] in H1, H2.
  assert (Hold : forall i q,
            table_get (<[id := Some (UserPreferences.patch_preferences
                                       args updatedAt p)]>
                         (userPreferences s)) i = Some q ->
            exists q', table_get (userPreferences s) i = Some q'
                       /\ pref_userId q' = pref_userId q).
  { intros i q Hq. destruct (Nat.eq_dec id i) as [<-|Hne].
    - rewrite table_get_insert_eq in Hq by exact Hlt.
      injection Hq as <-. exists p. auto.
    - rewrite table_get_insert_ne in Hq by exact Hne. exists q. auto. }
  destruct (Hold _ _ H1) as [q1 [Hq1 Hu1]].
  destruct (Hold _ _ H2) as [q2 [Hq2 Hu2]].
  apply (Huniq _ _ _ _ Hq1 Hq2). congruence.
Qed.

(** What the three preference updates do after the gates: the caller ends
    up with a live document, and documents stay one per user. *)
Lemma pref_patch_run (ctx : Ctx) (u : UserId)
    (args : UserPreferences.UpdateUserPreferencesArgs) (s : Store) :
  preferences_unique s ->
  exists id p s',
    (preferences <- UserPreferences.getOrCreateUserPreferences ctx u ;;
     match preferences with
     | None => throw PreferencesEndpoint.null_id_error
     | Some preferences =>
         UserPreferences.updateUserPreferences ctx (fst preferences) args ;;;
         ret (fst preferences)
     end) s = (inr id, s')
    /\ table_get (userPreferences s') id
       = Some (UserPreferences.patch_preferences args (now ctx) p)
    /\ pref_userId p = u
    /\ preferences_unique s'.
Proof.
  intros Huniq.
  destruct (getOrCreateUserPreferences_run ctx u s)
    as (id & p & s1 & Hrun & Hlive & Hown & Hs1).
  pose proof (table_get_Some_lt _ _ _ Hlive) as Hlt.
  unfold bind at 1. rewrite Hrun.
  unfold bind, UserPreferences.updateUserPreferences, db_patch, ret.
  cbn [fst tget userPreferencesT]. rewrite Hlive.
  eexists id, p, _. split; [reflexivity|].
  cbn [tset userPreferencesT userPreferences].
  split; [apply table_get_insert_eq, Hlt|]. split; [exact Hown|].
  apply unique_after_patch; [|exact Hlive].
  destruct Hs1 as [[-> _] | (Hnone & _ & Hp & ->)]; [exact Huniq|].
  apply unique_after_insert; [exact Huniq|].
  destruct (getUserPreferencesByUser_spec ctx u s) as [r [Hr Hspec]].
  rewrite Hr in Hnone. injection Hnone as ->.
  rewrite Hp. exact Hspec.
Qed.

(** X21.  The preferences stay a per-user singleton: if no user has two
    preferences documents, then after [initialize], [update],
    [updateTheme] or [updateDefaultView] no user has two, and when the
    call succeeds the caller has one. *)
Theorem preferences_stay_singleton
    (ctx : Ctx) (op : EndpointMutation) (s : Store) :
  preferences_unique s ->
  is_preferences_mutation op = true ->
  preferences_unique (snd (run_endpoint ctx op s))
  /\ (fst (run_endpoint ctx op s) = None ->
      exists u id p,
        authUser ctx = Some u
        /\ table_get (userPreferences (snd (run_endpoint ctx op s))) id = Some p
        /\ pref_userId p = u).
Proof.
  intros Huniq Hop.
  assert (Hpatch : forall u args,
            authUser ctx = Some u ->
            let m := (preferences <-
                        UserPreferences.getOrCreateUserPreferences ctx u ;;
                      match preferences with
                      | None => throw PreferencesEndpoint.null_id_error
                      | Some preferences =>
                          UserPreferences.updateUserPreferences ctx
                            (fst preferences) args ;;;
                          ret (fst preferences)
                      end) in
            preferences_unique (snd (outcome m s))
            /\ (fst (outcome m s) = None ->
                exists u0 id p,
                  authUser ctx = Some u0
                  /\ table_get (userPreferences (snd (outcome m s))) id = Some p
                  /\ pref_userId p = u0)).
  { intros u args Hauth m.
    destruct (pref_patch_run ctx u args s Huniq)
      as (id & p & s' & Hrun & Hlive & Hown & Huniq').
    unfold outcome. fold m in Hrun. rewrite Hrun. simpl.
    split; [exact Huniq'|]. intros _.
    eexists u, id, _. split; [exact Hauth|]. split; [exact Hlive|].
    exact Hown. }
  destruct op; try discriminate Hop; simpl.
  - (* initialize *)
    unfold outcome, PreferencesEndpoint.initialize.
    destruct (authUser ctx) as [u|] eqn:Hauth;
      [|split; [exact Huniq | discriminate]].
    destruct (getUserPreferencesByUser_spec ctx u s) as [r [Hr Hspec]].
    unfold bind. rewrite Hr.
    destruct r as [[id p]|].
    + simpl. split; [exact Huniq|]. intros _.
      exists u, id, p. split; [reflexivity|]. exact Hspec.
    + unfold UserPreferences.createUserPreferences, db_insert, ret.
      cbn [fst snd failure tget userPreferencesT patched
           UserPreferences.c_userId UserPreferences.c_theme
           UserPreferences.c_defaultView UserPreferences.c_sortBy
           UserPreferences.c_sortOrder UserPreferences.c_showCompletedTasks
           UserPreferences.c_notificationsEnabled].
      split; [apply unique_after_insert; [exact Huniq | exact Hspec]|].
      intros _. eexists u, _, _. split; [reflexivity|].
      cbn [tset userPreferencesT userPreferences].
      split; [apply table_get_snoc_new | reflexivity].
  - unfold PreferencesEndpoint.update.
    destruct (authUser ctx) as [u|] eqn:Hauth;
      [|split; [exact Huniq | discriminate]].
    destruct (rateLimit ctx "updatePreferences" u);
      [|split; [exact Huniq | discriminate]].
    apply (Hpatch u args eq_refl).
  - unfold PreferencesEndpoint.updateTheme.
    destruct (authUser ctx) as [u|] eqn:Hauth;
      [|split; [exact Huniq | discriminate]].
    destruct (rateLimit ctx "updatePreferences" u);
      [|split; [exact Huniq | discriminate]].
    apply (Hpatch u _ eq_refl).
  - unfold PreferencesEndpoint.updateDefaultView.
    destruct (authUser ctx) as [u|] eqn:Hauth;
      [|split; [exact Huniq | discriminate]].
    destruct (rateLimit ctx "updatePreferences" u);
      [|split; [exact Huniq | discriminate]].
    apply (Hpatch u _ eq_refl).
Qed.

Lemma preferences_stay_singleton_witness :
  preferences_unique
    (snd (run_endpoint (ctx_alice 5000) (M_pref_updateTheme dark) emptyStore))
  /\ (fst (run_endpoint (ctx_alice 5000) (M_pref_updateTheme dark) emptyStore)
      = None ->
      exists u id p,
        authUser (ctx_alice 5000) = Some u
        /\ table_get
             (userPreferences
                (snd (run_endpoint (ctx_alice 5000) (M_pref_updateTheme dark)
                        emptyStore))) id = Some p
        /\ pref_userId p = u).
Proof.
  apply (preferences_stay_singleton (ctx_alice 5000) (M_pref_updateTheme dark)
           emptyStore).
  - intros id1 id2 p1 p2 H1. destruct id1; discriminate H1.
  - reflexivity.
Defined.

(** X22.  The preferences query never writes.  For a caller without a
    preferences document it returns the defaults (system theme, list
    view, sorted by position ascending, completed tasks hidden,
    notifications on) with a null id; for a caller with one it returns
    that document under its id. *)
Theorem preferences_get_defaults_or_document
    (ctx : Ctx) (u : UserId) (s : Store) :
  authUser ctx = Some u ->
  exists v,
    PreferencesEndpoint.get ctx s = (inr v, s)
    /\ match PreferencesEndpoint.view_id v with
       | None =>
           no_preferences s u
           /\ v = PreferencesEndpoint.mkPreferencesView
                    None u system view_list by_position asc false true
                    None None
       | Some id =>
           exists p,
             table_get (userPreferences s) id = Some p
             /\ pref_userId p = u
             /\ v = PreferencesEndpoint.view_of_doc (id, p)
       end.
Proof.
  intros Hauth. unfold PreferencesEndpoint.get. rewrite Hauth.
  destruct (getUserPreferencesByUser_spec ctx u s) as [r [Hr Hspec]].
  unfold bind. rewrite Hr. destruct r as [[id p]|]; unfold ret.
  - eexists. split; [reflexivity|]. simpl.
    exists p. destruct Hspec as [Hget Hown]. auto.
  - eexists. split; [reflexivity|]. simpl. auto.
Qed.

Lemma preferences_get_defaults_or_document_witness :
  exists v,
    PreferencesEndpoint.get (ctx_carol 6000) store_prefs = (inr v, store_prefs)
    /\ match PreferencesEndpoint.view_id v with
       | None =>
           no_preferences store_prefs "carol"
           /\ v = PreferencesEndpoint.mkPreferencesView
                    None "carol" system view_list by_position asc false true
                    None None
       | Some id =>
           exists p,
             table_get (userPreferences store_prefs) id = Some p
             /\ pref_userId p = "carol"
             /\ v = PreferencesEndpoint.view_of_doc (id, p)
       end.
Proof.
  apply (preferences_get_defaults_or_document (ctx_carol 6000) "carol"
           store_prefs).
  reflexivity.
Defined.

(** X23.  [initialize] is idempotent: for an authenticated caller it
    succeeds, and calling it again, at any later time, returns the same
    id and leaves the store as the first call left it. *)
Theorem initialize_is_idempotent (ctx ctx' : Ctx) (u : UserId) (s : Store) :
  authUser ctx = Some u ->
  authUser ctx' = Some u ->
  exists id s1,
    PreferencesEndpoint.initialize ctx s = (inr id, s1)
    /\ PreferencesEndpoint.initialize ctx' s1 = (inr id, s1).
Proof.
  intros Hauth Hauth'. unfold PreferencesEndpoint.initialize.
  rewrite Hauth, Hauth'.
  destruct (getUserPreferencesByUser_spec ctx u s) as [r [Hr Hspec]].
  unfold bind at 1. rewrite Hr. destruct r as [[id p]|].
  - exists id, s. split; [reflexivity|].
    unfold bind, ret.
    unfold UserPreferences.getUserPreferencesByUser, bind, db_query, ret
      in Hr |- *.
    cbn [tget userPreferencesT] in Hr |- *.
    injection Hr as Hhead. rewrite Hhead. reflexivity.
  - unfold UserPreferences.createUserPreferences, bind, db_insert, ret.
    cbn [tget userPreferencesT patched
         UserPreferences.c_userId UserPreferences.c_theme
         UserPreferences.c_defaultView UserPreferences.c_sortBy
         UserPreferences.c_sortOrder UserPreferences.c_showCompletedTasks
         UserPreferences.c_notificationsEnabled].
    eexists _, _. split; [reflexivity|].
    unfold UserPreferences.getUserPreferencesByUser, bind, db_query, ret
      in Hr |- *.
    cbn [tget tset userPreferencesT userPreferences] in Hr |- *.
    injection Hr as Hhead.
    rewrite table_docs_snoc, List.filter_app.
    cbn [List.filter snd pref_userId]. rewrite String.eqb_refl.
    destruct (List.filter _ (table_docs (userPreferences s))) as [|x l];
      [reflexivity | discriminate Hhead].
Qed.

Lemma initialize_is_idempotent_witness :
  exists id s1,
    PreferencesEndpoint.initialize (ctx_carol 6000) store_prefs = (inr id, s1)
    /\ PreferencesEndpoint.initialize (ctx_carol 7000) s1 = (inr id, s1).
Proof.
  apply (initialize_is_idempotent (ctx_carol 6000) (ctx_carol 7000) "carol"
           store_prefs); reflexivity.
Defined.

(* ================================================================= *)
(** ** Properties of the assistant endpoints *)

(** X24.  [deleteThread] by the owner always succeeds and cascades: the
    thread is gone, every message of the thread is gone, and the other
    threads and the messages of other threads are as they were. *)
Theorem deleteThread_cascades
    (ctx : Ctx) (u : UserId) (threadId : Id) (s : Store) (th : Thread) :
  authUser ctx = Some u ->
  table_get (threads s) threadId = Some th ->
  thread_userId th = u ->
  exists s',
    AgentEndpoint.deleteThread ctx threadId s = (inr true, s')
    /\ table_get (threads s') threadId = None
    /\ (forall id, id <> threadId ->
                   table_get (threads s') id = table_get (threads s) id)
    /\ (forall id,
          table_get (messages s') id
          = match table_get (messages s) id with
            | Some m => if Nat.eqb (message_threadId m) threadId
                        then None else Some m
            | None => None
            end).
Proof.
  intros Hauth Hget Hown.
  pose proof (table_get_Some_lt _ _ _ Hget) as Hlt.
  apply String.eqb_eq in Hown.
  unfold AgentEndpoint.deleteThread. rewrite Hauth.
  unfold bind, Threads.getThreadById, db_get. cbn [fst snd tget threadsT].
  rewrite Hget, Hown. cbn [negb].
  destruct (deleteMessagesByThread_run ctx threadId s) as (s1 & Hrun & Hs1 & Hmsgs).
  rewrite Hrun. subst s1.
  unfold Threads.deleteThread, db_delete.
  cbn [tget tset threadsT messagesT threads]. rewrite Hget.
  eexists. split; [reflexivity|].
  cbn [tset threadsT messagesT threads messages] in Hmsgs |- *.
  split; [apply table_get_insert_eq, Hlt|].
  split; [|exact Hmsgs].
  intros id Hne. apply table_get_insert_ne. congruence.
Qed.

Lemma deleteThread_cascades_witness :
  exists s',
    AgentEndpoint.deleteThread (ctx_alice 6000) 0%nat store_chat = (inr true, s')
    /\ table_get (threads s') 0%nat = None
    /\ (forall id, id <> 0%nat ->
                   table_get (threads s') id = table_get (threads store_chat) id)
    /\ (forall id,
          table_get (messages s') id
          = match table_get (messages store_chat) id with
            | Some m => if Nat.eqb (message_threadId m) 0%nat
                        then None else Some m
            | None => None
            end).
Proof.
  apply (deleteThread_cascades (ctx_alice 6000) "alice" 0%nat store_chat
           (mkThread "alice" (Some "Groceries") active (Some 4500) 4000 4500));
    reflexivity.
Defined.

(** X25.  [sendMessage] by the owner of the thread, admitted by the rate
    limiter and with valid content, succeeds: it stores a new message of
    role [user] with that content under the id it returns, and stamps
    the thread's [lastMessageAt] and [updatedAt] with the time of the
    call; the other threads and the earlier messages are as they were. *)
Theorem sendMessage_stores_and_stamps
    (ctx : Ctx) (u : UserId) (threadId : Id) (content : string)
    (s : Store) (th : Thread) :
  authUser ctx = Some u ->
  rateLimit ctx "sendMessage" u = RateOk ->
  table_get (threads s) threadId = Some th ->
  thread_userId th = u ->
  ValidationExtra.isValidMessageContent content = true ->
  exists s',
    AgentEndpoint.sendMessage ctx threadId content s
    = (inr (length (messages s)), s')
    /\ messages s'
       = messages s
         ++ [Some (mkMessage threadId u role_user content None (now ctx))]
    /\ table_get (threads s') threadId
       = Some (mkThread (thread_userId th) (thread_title th) (thread_status th)
                        (Some (now ctx)) (thread_createdAt th) (now ctx))
    /\ (forall id, id <> threadId ->
                   table_get (threads s') id = table_get (threads s) id).
Proof.
  intros Hauth Hrate Hget Hown Hvalid.
  pose proof (table_get_Some_lt _ _ _ Hget) as Hlt.
  apply String.eqb_eq in Hown.
  unfold AgentEndpoint.sendMessage. rewrite Hauth, Hrate.
  unfold bind, Threads.getThreadById, db_get. cbn [fst snd tget threadsT].
  rewrite Hget, Hown, Hvalid. cbn [negb].
  unfold Messages.createMessage, Threads.updateThreadLastMessage,
    db_insert, db_patch.
  cbn [tget tset threadsT messagesT threads messages]. rewrite Hget.
  eexists. split; [reflexivity|].
  cbn [tset threadsT messagesT threads messages
       Messages.c_threadId Messages.c_userId Messages.c_role
       Messages.c_content Messages.c_metadata].
  split; [reflexivity|].
  split; [apply table_get_insert_eq, Hlt|].
  intros id Hne. apply table_get_insert_ne. congruence.
Qed.

Lemma sendMessage_stores_and_stamps_witness :
  exists s',
    AgentEndpoint.sendMessage (ctx_alice 6000) 0%nat "milk and eggs" store_chat
    = (inr (length (messages store_chat)), s')
    /\ messages s'
       = messages store_chat
         ++ [Some (mkMessage 0%nat "alice" role_user "milk and eggs" None 6000)]
    /\ table_get (threads s') 0%nat
       = Some (mkThread "alice" (Some "Groceries") active (Some 6000) 4000 6000)
    /\ (forall id, id <> 0%nat ->
                   table_get (threads s') id = table_get (threads store_chat) id).
Proof.
  apply (sendMessage_stores_and_stamps (ctx_alice 6000) "alice" 0%nat
           "milk and eggs" store_chat
           (mkThread "alice" (Some "Groceries") active (Some 4500) 4000 4500));
    reflexivity.
Defined.

(** X26.  A thread of another user is refused: [updateThread],
    [archiveThread], [deleteThread], [sendMessage] and
    [storeAssistantMessage] on an existing thread that is not the
    caller's fail with their "not authorized" error and return the store
    they were given, provided the bucket of the mutation, if it has one,
    admits the caller. *)
Theorem foreign_thread_is_refused
    (ctx : Ctx) (u : UserId) (op : EndpointMutation) (threadId : Id)
    (s : Store) (th : Thread) :
  authUser ctx = Some u ->
  bucket_admits ctx u op ->
  thread_target op = Some threadId ->
  table_get (threads s) threadId = Some th ->
  thread_userId th <> u ->
  exists e,
    run_endpoint ctx op s = (Some e, s) /\ is_thread_unauthorized e = true.
Proof.
  intros Hauth Hrate Htarget Hget Hne.
  apply String.eqb_neq in Hne.
  destruct op; simpl in Htarget; try discriminate Htarget;
    injection Htarget as ->; unfold bucket_admits in Hrate; simpl in Hrate |- *;
    unfold outcome, AgentEndpoint.updateThread, AgentEndpoint.archiveThread,
      AgentEndpoint.deleteThread, AgentEndpoint.sendMessage,
      AgentEndpoint.storeAssistantMessage, bind, Threads.getThreadById, db_get;
    rewrite Hauth; try rewrite Hrate;
    cbn [fst snd tget threadsT]; rewrite Hget, Hne; simpl;
    eexists; split; reflexivity.
Qed.

Lemma foreign_thread_is_refused_witness :
  exists e,
    run_endpoint (ctx_bob 6000) (M_agent_deleteThread 0%nat) store_chat
    = (Some e, store_chat)
    /\ is_thread_unauthorized e = true.
Proof.
  apply (foreign_thread_is_refused (ctx_bob 6000) "bob"
           (M_agent_deleteThread 0%nat) 0%nat store_chat
           (mkThread "alice" (Some "Groceries") active (Some 4500) 4000 4500));
    [reflexivity | exact I | reflexivity | reflexivity | discriminate].
Defined.

(* ================================================================= *)
(** ** Properties of the formatting helpers and constants *)

Lemma string_length_append (a b : string) :
  String.length (String.append a b) = (String.length a + String.length b)%nat.
Proof. induction a as [|c a IH]; simpl; [reflexivity | rewrite IH; reflexivity]. Qed.

Lemma string_length_substring0 (n : nat) :
  forall s, String.length (String.substring 0 n s) = Nat.min n (String.length s).
Proof.
  induction n as [|n IH]; intros s; destruct s as [|c s]; simpl;
    try reflexivity.
  rewrite IH. reflexivity.
Qed.

(** X27.  The length of [truncateText text maxLength]: the length of the
    text when the text fits, and otherwise [maxLength] or 3, whichever is
    larger; so for [maxLength] below 3 the result, ["..."], is longer
    than asked for. *)
Theorem truncateText_length (text : string) (maxLength : Z) :
  str_length (Formatting.truncateText text maxLength)
  = if str_length text <=? maxLength then str_length text
    else Z.max 3 maxLength.
Proof.
  unfold Formatting.truncateText, Formatting.substring0, str_length.
  destruct (Z.leb_spec (Z.of_nat (String.length text)) maxLength) as [Hfit|Hlong];
    [reflexivity|].
  rewrite string_length_append, string_length_substring0. simpl. lia.
Qed.

Lemma string_append_empty (s : string) : String.append s "" = s.
Proof. induction s as [|c s IH]; simpl; [reflexivity | rewrite IH; reflexivity]. Qed.

Lemma string_rev_onto_twice (s : string) :
  forall acc acc',
    string_rev_onto (string_rev_onto s acc) acc'
    = string_rev_onto acc (String.append s acc').
Proof.
  induction s as [|c s IH]; intros acc acc'; simpl; [reflexivity|].
  rewrite IH. reflexivity.
Qed.

Lemma string_rev_involutive (s : string) : string_rev (string_rev s) = s.
Proof.
  unfold string_rev. rewrite string_rev_onto_twice. simpl.
  apply string_append_empty.
Qed.

Lemma all_units_rev_onto (p : ascii -> bool) (s : string) :
  forall acc,
    all_units p (string_rev_onto s acc) = all_units p s && all_units p acc.
Proof.
  induction s as [|c s IH]; intros acc; simpl; [reflexivity|].
  rewrite IH. simpl. destruct (p c), (all_units p s); reflexivity.
Qed.

Lemma tag_letter_facts (c : ascii) :
  Formatting.tag_unit c = tag_letter c || is_white_space c
  /\ (tag_letter c = true ->
      is_white_space c = false /\ Formatting.to_lower_unit c = c).
Proof.
  destruct c as [[] [] [] [] [] [] [] []];
    (split; [reflexivity | intros H; try discriminate H; split; reflexivity]).
Qed.

Lemma trim_start_letters (s : string) :
  all_units tag_letter s = true -> trim_start s = s.
Proof.
  destruct s as [|c s]; simpl; [reflexivity|].
  intros H. apply andb_true_iff in H. destruct H as [Hc _].
  destruct (proj2 (tag_letter_facts c) Hc) as [-> _]. reflexivity.
Qed.

Lemma toLowerCase_letters (s : string) :
  all_units tag_letter s = true -> Formatting.toLowerCase s = s.
Proof.
  induction s as [|c s IH]; simpl; [reflexivity|].
  intros Hs. apply andb_true_iff in Hs. destruct Hs as [Hc Hs].
  destruct (proj2 (tag_letter_facts c) Hc) as [_ ->].
  rewrite IH by exact Hs. reflexivity.
Qed.

Lemma strip_special_letters (s : string) :
  all_units tag_letter s = true -> Formatting.strip_special s = s.
Proof.
  induction s as [|c s IH]; simpl; [reflexivity|].
  intros Hs. apply andb_true_iff in Hs. destruct Hs as [Hc Hs].
  rewrite (proj1 (tag_letter_facts c)), Hc. simpl.
  rewrite IH by exact Hs. reflexivity.
Qed.

Lemma hyphenate_from_no_space (s : string) :
  all_units tag_letter s = true -> Formatting.hyphenate_from false s = s.
Proof.
  induction s as [|c s IH]; simpl; [reflexivity|].
  intros Hs. apply andb_true_iff in Hs. destruct Hs as [Hc Hs].
  destruct (proj2 (tag_letter_facts c) Hc) as [-> _].
  rewrite IH by exact Hs. reflexivity.
Qed.

(** A string made of tag letters is its own normal form. *)
Lemma normalizeTag_fixes_letters (s : string) :
  all_units tag_letter s = true -> Formatting.normalizeTag s = s.
Proof.
  intros Hs. unfold Formatting.normalizeTag, Formatting.hyphenate_spaces.
  rewrite (toLowerCase_letters s Hs).
  assert (Htrim : trim s = s).
  { unfold trim. rewrite (trim_start_letters s Hs).
    rewrite trim_start_letters; [apply string_rev_involutive|].
    unfold string_rev. rewrite all_units_rev_onto, Hs. reflexivity. }
  rewrite Htrim, (strip_special_letters s Hs).
  apply hyphenate_from_no_space, Hs.
Qed.

Lemma strip_special_units (s : string) :
  all_units Formatting.tag_unit (Formatting.strip_special s) = true.
Proof.
  induction s as [|c s IH]; simpl; [reflexivity|].
  destruct (Formatting.tag_unit c) eqn:Hc; simpl; [rewrite Hc|]; exact IH.
Qed.

Lemma hyphenate_from_letters (s : string) :
  forall in_run,
    all_units Formatting.tag_unit s = true ->
    all_units tag_letter (Formatting.hyphenate_from in_run s) = true.
Proof.
  induction s as [|c s IH]; intros in_run Hs; simpl in *; [reflexivity|].
  apply andb_true_iff in Hs. destruct Hs as [Hc Hs].
  rewrite (proj1 (tag_letter_facts c)) in Hc.
  destruct (is_white_space c).
  - destruct in_run; simpl; apply IH, Hs.
  - simpl. rewrite orb_false_r in Hc. rewrite Hc. apply IH, Hs.
Qed.

(** X28.  [normalizeTag] yields a string made of the letters a-z, the
    digits and the hyphen only, and normalizing a second time changes
    nothing. *)
Theorem normalizeTag_is_a_normal_form (tag : string) :
  all_units tag_letter (Formatting.normalizeTag tag) = true
  /\ Formatting.normalizeTag (Formatting.normalizeTag tag)
     = Formatting.normalizeTag tag.
Proof.
  assert (Hletters : all_units tag_letter (Formatting.normalizeTag tag) = true).
  { unfold Formatting.normalizeTag, Formatting.hyphenate_spaces.
    apply hyphenate_from_letters, strip_special_units. }
  split; [exact Hletters | apply normalizeTag_fixes_letters, Hletters].
Qed.

(** X29.  The transition table allows exactly the changes of status: for
    statuses [from] and [to], [isValidStatusTransition] holds when they
    differ and fails when they are equal; a string that is no status is
    never a valid target. *)
Theorem status_transition_valid_iff_change (from : TaskStatus) (to : string) :
  Constants.isValidStatusTransition from to
  = existsb (fun st => negb (TaskStatus_eqb from st)
                       && String.eqb to (Constants.status_string st))
            [pending; in_progress; completed].
Proof.
  unfold Constants.isValidStatusTransition.
  destruct from; simpl;
    destruct (String.eqb to "pending"), (String.eqb to "in_progress"),
      (String.eqb to "completed"); reflexivity.
Qed.

(* ================================================================= *)
(** ** Properties of the audit-trail queries *)

(** X30.  [listByTask] of the audit trail, for an authenticated caller.
    When the task is not in the store, also because it has been deleted,
    the query fails with "Task not found", so the records of a deleted
    task cannot be read through it.  When the task is the caller's and
    [limit], if given, is an integer: a negative [limit] makes the query
    fail with the store's own error; otherwise it returns records of
    that task only, the latest first, a positive [limit] bounds their
    number, and a missing or zero [limit] returns them all.  The store is
    never changed. *)
Theorem activity_listByTask_scope
    (ctx : Ctx) (u : UserId) (taskId : Id) (limit : option Z) (s : Store) :
  authUser ctx = Some u ->
  (table_get (tasks s) taskId = None ->
   ActivityEndpoint.listByTask ctx taskId limit s
   = (inl (Err "Task not found"), s))
  /\ (forall t,
        table_get (tasks s) taskId = Some t ->
        task_userId t = u ->
        (forall n, limit = Some n -> n < 0 ->
                   ActivityEndpoint.listByTask ctx taskId limit s
                   = (inl StoreFault, s))
        /\ ((forall n, limit = Some n -> 0 <= n) ->
            exists l,
              ActivityEndpoint.listByTask ctx taskId limit s = (inr l, s)
              /\ (forall id a, In (id, a) l ->
                               table_get (taskActivity s) id = Some a
                               /\ activity_taskId a = taskId)
              /\ StronglySorted
                   (fun a b : Id * TaskActivityDoc =>
                      activity_createdAt (snd b) <= activity_createdAt (snd a)) l
              /\ (forall n, limit = Some n -> 0 < n ->
                            (length l <= Z.to_nat n)%nat)
              /\ (limit = None \/ limit = Some 0 ->
                  forall id a, table_get (taskActivity s) id = Some a ->
                               activity_taskId a = taskId -> In (id, a) l))).
Proof.
  intros Hauth. split.
  { intros Hnone. unfold ActivityEndpoint.listByTask. rewrite Hauth.
    unfold bind, Tasks.getTaskById, db_get. cbn [fst snd tget tasksT].
    rewrite Hnone. reflexivity. }
  intros t Hget Hown.
  assert (Hrun : ActivityEndpoint.listByTask ctx taskId limit s
                 = TaskActivity.getTaskActivityByTaskAndTime ctx taskId limit s).
  { unfold ActivityEndpoint.listByTask. rewrite Hauth.
    unfold bind at 1, Tasks.getTaskById, db_get. cbn [fst snd tget tasksT].
    rewrite Hget. apply String.eqb_eq in Hown. rewrite Hown. reflexivity. }
  rewrite Hrun. clear Hrun.
  unfold TaskActivity.getTaskActivityByTaskAndTime, bind, db_query, db_take,
    ret, throw.
  cbn [tget taskActivityT].
  set (mine := List.filter
                 (fun d : nat * TaskActivityDoc =>
                    Nat.eqb (activity_taskId (snd d)) taskId)
                 (table_docs (taskActivity s))).
  destruct (index_order_spec
              (fun d : nat * TaskActivityDoc => activity_createdAt (snd d)) mine)
    as [Hsorted Hin].
  apply StronglySorted_rev in Hsorted.
  set (query := rev (index_order
                       (fun a b : nat * TaskActivityDoc =>
                          activity_createdAt (snd a) <=? activity_createdAt (snd b))
                       mine)) in *.
  assert (Hquery : forall id a,
            In (id, a) query
            <-> table_get (taskActivity s) id = Some a
                /\ activity_taskId a = taskId).
  { intros id a. unfold query. rewrite <- in_rev, Hin. unfold mine.
    rewrite filter_In, table_docs_spec. cbn [snd]. rewrite Nat.eqb_eq.
    reflexivity. }
  split.
  - intros n -> Hneg. cbn [truthy_number].
    destruct (Z.eqb_spec n 0) as [Hz|_]; [lia|]. cbn [negb].
    apply Z.ltb_lt in Hneg. rewrite Hneg. reflexivity.
  - intros Hlimit. destruct limit as [n|]; cbn [truthy_number].
    + specialize (Hlimit n eq_refl).
      destruct (Z.eqb_spec n 0) as [->|Hnz]; cbn [negb].
      * exists query. split; [reflexivity|].
        split; [intros id a Hl; apply Hquery, Hl|].
        split; [exact Hsorted|]. split; [intros n Hn; injection Hn as <-; lia|].
        intros _ id a Ha Ht. apply Hquery. auto.
      * apply Z.ltb_ge in Hlimit. rewrite Hlimit.
        exists (firstn (Z.to_nat n) query). split; [reflexivity|].
        split; [intros id a Hl; apply Hquery; eapply firstn_In, Hl|].
        split; [apply StronglySorted_firstn, Hsorted|].
        split; [intros n' Hn' _; injection Hn' as <-; apply firstn_le_length|].
        intros [Hnone|Hzero]; [discriminate | congruence].
    + exists query. split; [reflexivity|].
      split; [intros id a Hl; apply Hquery, Hl|].
      split; [exact Hsorted|]. split; [discriminate|].
      intros _ id a Ha Ht. apply Hquery. auto.
Qed.

Lemma activity_listByTask_scope_witness :
  (table_get (tasks store_commented) 0%nat = None ->
   ActivityEndpoint.listByTask (ctx_alice 6000) 0%nat (Some 1) store_commented
   = (inl (Err "Task not found"), store_commented))
  /\ (forall t,
        table_get (tasks store_commented) 0%nat = Some t ->
        task_userId t = "alice" ->
        (forall n, Some 1 = Some n -> n < 0 ->
                   ActivityEndpoint.listByTask (ctx_alice 6000) 0%nat (Some 1)
                     store_commented
                   = (inl StoreFault, store_commented))
        /\ ((forall n, Some 1 = Some n -> 0 <= n) ->
            exists l,
              ActivityEndpoint.listByTask (ctx_alice 6000) 0%nat (Some 1)
                store_commented = (inr l, store_commented)
              /\ (forall id a, In (id, a) l ->
                               table_get (taskActivity store_commented) id
                               = Some a
                               /\ activity_taskId a = 0%nat)
              /\ StronglySorted
                   (fun a b : Id * TaskActivityDoc =>
                      activity_createdAt (snd b) <= activity_createdAt (snd a)) l
              /\ (forall n, Some 1 = Some n -> 0 < n ->
                            (length l <= Z.to_nat n)%nat)
              /\ (Some 1 = None \/ Some 1 = Some 0 ->
                  forall id a,
                    table_get (taskActivity store_commented) id = Some a ->
                    activity_taskId a = 0%nat -> In (id, a) l))).
Proof.
  apply (activity_listByTask_scope (ctx_alice 6000) "alice" 0%nat (Some 1)
           store_commented).
  reflexivity.
Defined.

(* ================================================================= *)
(** ** Properties of the record-access layer *)

Lemma filter_none {A} (p : A -> bool) (l : list A) :
  existsb p l = false -> List.filter p l = [].
Proof.
  induction l as [|x l IH]; simpl; [reflexivity|].
  intros H. apply orb_false_iff in H. destruct H as [Hx Hl].
  rewrite Hx. apply IH, Hl.
Qed.

Lemma filter_none_iff {A} (p : A -> bool) (l : list A) :
  existsb p l = false <-> List.filter p l = [].
Proof.
  split; [apply filter_none|].
  induction l as [|x l IH]; simpl; [reflexivity|].
  destruct (p x); [discriminate | exact IH].
Qed.

Lemma filter_some {A} (p : A -> bool) (l : list A) (x : A) (l' : list A) :
  List.filter p l = x :: l' -> existsb p l = true /\ In x l /\ p x = true.
Proof.
  intros H.
  assert (Hin : In x (List.filter p l)) by (rewrite H; left; reflexivity).
  apply filter_In in Hin. split; [|exact Hin].
  apply existsb_exists. exists x. exact Hin.
Qed.

Lemma no_such_filter {A} (T : TableRef A) (p : Id * A -> bool) (s : Store) :
  no_such T p s = true -> List.filter p (table_docs (tget T s)) = [].
Proof.
  unfold no_such. intros H. apply negb_true_iff in H. apply filter_none, H.
Qed.

Lemma no_such_filter_and {A} (T : TableRef A) (p q : Id * A -> bool)
    (s : Store) :
  no_such T p s = true ->
  List.filter (fun d => p d && q d) (table_docs (tget T s)) = [].
Proof.
  unfold no_such. intros H. apply negb_true_iff in H. apply filter_none.
  induction (table_docs (tget T s)) as [|x l IH]; simpl in *; [reflexivity|].
  apply orb_false_iff in H. destruct H as [Hx Hl].
  rewrite Hx, (IH Hl). reflexivity.
Qed.

Lemma no_such_all {A} (T : TableRef A) (s : Store) :
  no_such T (fun _ => true) s = true -> table_docs (tget T s) = [].
Proof.
  unfold no_such. destruct (table_docs (tget T s)); [reflexivity|discriminate].
Qed.

(** A patch keeps every document where it is. *)
Lemma missing_after_patch {A} (T : TableRef A) (HT : TableLaws T)
    (id : Id) (d : A) (s : Store) (id' : Id) :
  table_get (tget T s) id <> None ->
  missing T id' (tset T (<[id := Some d]> (tget T s)) s) = missing T id' s.
Proof.
  intros Hlive. unfold missing. rewrite (get_set T HT).
  destruct (Nat.eq_dec id id') as [<-|Hne].
  - destruct (table_get (tget T s) id) as [d0|] eqn:Hget; [|congruence].
    rewrite table_get_insert_eq by (eapply table_get_Some_lt, Hget).
    reflexivity.
  - rewrite table_get_insert_ne by exact Hne. reflexivity.
Qed.

(** Patching together documents of which one is missing fails with the
    error of the store. *)
Lemma promise_all_patch_missing {A X} (T : TableRef A) (HT : TableLaws T)
    (key : X -> Id) (g : X -> A -> A) (l : list X) :
  forall s,
    existsb (fun x => missing T (key x) s) l = true ->
    fst (promise_all (map (fun x => db_patch T (key x) (g x)) l) s)
    = inl StoreFault.
Proof.
  induction l as [|a l IH]; intros s Hmiss; simpl in *; [discriminate|].
  unfold db_patch at 1. unfold missing at 1 in Hmiss.
  destruct (table_get (tget T s) (key a)) as [d|] eqn:Hget.
  - simpl in Hmiss.
    assert (Hsame : existsb
                      (fun x => missing T (key x)
                                  (tset T (<[key a := Some (g a d)]> (tget T s)) s))
                      l = true).
    { rewrite <- Hmiss. clear IH Hmiss.
      induction l as [|b l IHl]; simpl; [reflexivity|].
      rewrite IHl. f_equal.
      apply missing_after_patch; [exact HT | congruence]. }
    specialize (IH _ Hsame).
    destruct (promise_all _ _) as [rs s2]. simpl in *.
    rewrite IH. reflexivity.
  - destruct (promise_all _ _) as [rs s2]. reflexivity.
Qed.

Lemma bulk_delete_run {A} (T : TableRef A) (HT : TableLaws T)
    (query : M (list (Id * A))) (l : list (Id * A)) (s : Store) :
  query s = (inr l, s) ->
  List.NoDup (map fst l) ->
  (forall x, In x l -> In x (table_docs (tget T s))) ->
  exists s',
    returning V_number
      (docs <- query ;;
       promise_all (map (fun doc => db_delete T (fst doc)) docs) ;;;
       ret (arr_length docs)) s
    = (inr (V_number (arr_length l)), s')
    /\ (l = [] -> s' = s).
Proof.
  intros Hquery Hnd Hin. unfold returning, bind. rewrite Hquery.
  rewrite (promise_all_delete T HT fst l s Hnd).
  - eexists. split; [reflexivity|]. intros ->. simpl.
    unfold delete_all. simpl. apply (set_get T HT).
  - intros [id d] Hx. apply Hin, table_docs_spec in Hx. simpl.
    rewrite Hx. discriminate.
Qed.

(** C8, as worded, fails: [updateUserPreferencesByUser] throws
    "User preferences not found" for a user without a preferences
    record. *)
Lemma db_layer_raises_nothing_fails : ~ db_layer_raises_nothing.
Proof.
  intros H.
  destruct (H (ctx_alice 1000)
              (Call_updateUserPreferencesByUser "alice"
                 (UserPreferences.mkUpdateUserPreferencesArgs
                    (Some dark) None None None None None))
              emptyStore) as [v [Hv _]].
  vm_compute in Hv. discriminate Hv.
Qed.

(** C8 (amended).  What a function of the record-access layer does, on
    every input and every store, by its kind.  An insert succeeds.  A
    read leaves the store alone and returns a null or empty result
    ([null], the empty array, 0) when the records it refers to are
    absent; it fails only when it hands a negative count to [take], with
    the error of the store (counts are integers here).  A function that patches or deletes by id
    fails with the error of the store when a record it names is absent,
    and succeeds otherwise.  A bulk delete succeeds; when no record of
    its key is there it returns 0 and leaves the store alone.
    [getOrCreateUserPreferences] succeeds, after it the record is there,
    and the store is unchanged when the record was there before.
    [updateUserPreferencesByUser] throws "User preferences not found"
    when the user has no record, and succeeds otherwise. *)
Theorem db_layer_outcome_by_kind (ctx : Ctx) (c : DbCall) (s : Store) :
  match db_kind c with
  | Inserts => exists id s', run_db_call ctx c s = (inr (V_id id), s')
  | Reads =>
      if db_bad_limit c then run_db_call ctx c s = (inl StoreFault, s)
      else exists v, run_db_call ctx c s = (inr v, s)
                     /\ (db_absent c s = true -> null_or_empty v = true)
  | WritesOne =>
      if db_absent c s then fst (run_db_call ctx c s) = inl StoreFault
      else exists s', run_db_call ctx c s = (inr V_void, s')
  | DeletesAll =>
      exists n s', run_db_call ctx c s = (inr (V_number n), s')
                   /\ (db_absent c s = true -> n = 0 /\ s' = s)
  | GetsOrCreates =>
      exists id s', run_db_call ctx c s = (inr (V_doc id), s')
                    /\ db_absent c s' = false
                    /\ (db_absent c s = false -> s' = s)
  | UpdatesByUser =>
      if db_absent c s
      then run_db_call ctx c s = (inl (Err "User preferences not found"), s)
      else exists s', run_db_call ctx c s = (inr V_void, s')
  end.
Proof.
  destruct c; cbn [db_kind run_db_call db_absent db_bad_limit].
  all: try (unfold returning, Tasks.createTask, TaskComments.createTaskComment,
       TaskActivity.createTaskActivity, UserPreferences.createUserPreferences,
       Threads.createThread, Messages.createMessage, db_insert, bind, ret;
     eexists _, _; reflexivity).
  all: try (unfold returning, Tasks.getTaskById, TaskComments.getTaskCommentById,
       TaskActivity.getTaskActivityById, UserPreferences.getUserPreferencesById,
       Threads.getThreadById, Messages.getMessageById, db_get, bind, ret, missing;
       match goal with |- context [table_get ?t ?i] => destruct (table_get t i) end;
       eexists; (split; [reflexivity | intros H; try discriminate H; reflexivity])).
  all: try (unfold returning, Tasks.updateTask, Tasks.completeTask,
       Tasks.updateTaskPosition, Tasks.deleteTask, TaskComments.updateTaskComment,
       TaskComments.deleteTaskComment, TaskActivity.deleteTaskActivity,
       UserPreferences.updateUserPreferences, UserPreferences.deleteUserPreferences,
       Threads.updateThread, Threads.updateThreadLastMessage, Threads.archiveThread,
       Threads.deleteThread, Messages.deleteMessage, db_patch, db_delete, bind, ret, missing;
       match goal with |- context [table_get ?t ?i] => destruct (table_get t i) end;
       [eexists; reflexivity | reflexivity]).
  all: try (unfold returning, Tasks.getTasksByUser, Tasks.getTasksByUserAndStatus,
       Tasks.getTasksByUserAndPosition, Tasks.getTasksByDueDate,
       Tasks.getOverdueTasksByUser, Tasks.getTaskCountByUserAndStatus,
       Tasks.getMaxPositionForUser,
       TaskComments.getTaskCommentCount,
       TaskComments.getTaskCommentsByTask, TaskComments.getTaskCommentsByUser,
       TaskActivity.getTaskActivityByTask, TaskActivity.getTaskActivityByUser,
       UserPreferences.getUserPreferencesByUser,
       Threads.getActiveThreadsByUser,
       Threads.getThreadsByUser, Threads.getThreadsByUserAndStatus,
       Threads.getThreadsByUserOrderedByLastMessage,
       Messages.getMessageCountByThread,
       Messages.getMessagesByThread, Messages.getMessagesByThreadOrdered,
       Tasks.getTasksByUserAndStatus, Tasks.getTasksByUser,
       bind, db_query, ret;
     match goal with
     | |- context [truthy_number ?m] => destruct (truthy_number m)
     | |- context [match map ?f ?l with _ => _ end] => destruct (map f l) eqn:Hmap
     | _ => idtac
     end;
     (eexists; split; [reflexivity|]); intros Habs;
     first [ rewrite (no_such_filter _ _ _ Habs) in *
           | erewrite no_such_filter_and in * by exact Habs
           | rewrite (no_such_all _ _ Habs) in * ];
     first [ reflexivity | discriminate Hmap ]).
  - (* batchUpdateTaskPositions *)
    unfold returning, Tasks.batchUpdateTaskPositions.
    destruct (existsb _ updates) eqn:Hmiss.
    + pose proof (promise_all_patch_missing tasksT tasksT_laws fst
                    (fun update =>
                       Tasks.patch_task
                         (Tasks.mkUpdateTaskArgs None None None None None None
                            (Some (snd update)) None) (now ctx))
                    updates s Hmiss) as Hfail.
      unfold bind. destruct (promise_all _ s) as [r s1]. simpl in Hfail.
      rewrite Hfail. reflexivity.
    + destruct (promise_all_patch tasksT tasksT_laws fst
                  (fun update =>
                     Tasks.patch_task
                       (Tasks.mkUpdateTaskArgs None None None None None None
                          (Some (snd update)) None) (now ctx))
                  (fun _ _ => True) (fun _ => I) (fun _ _ _ _ _ => I)
                  (fun _ _ => I) updates s) as [t' [Hrun _]].
      { intros x Hx Hnone.
        assert (Hex : existsb (fun update => missing tasksT (fst update) s)
                        updates = true); [|congruence].
        apply existsb_exists. exists x. split; [exact Hx|].
        unfold missing. rewrite Hnone. reflexivity. }
      unfold bind. rewrite Hrun. eexists. reflexivity.
  - (* deleteCompletedTasksByUser *)
    destruct (bulk_delete_run tasksT tasksT_laws
                (Tasks.getTasksByUserAndStatus ctx userId completed)
                _ s eq_refl) as [s' [Hrun Hnil]].
    + apply query_ids_NoDup.
    + intros x Hx. apply in_rev, filter_In in Hx. apply Hx.
    + eexists _, s'. split; [exact Hrun|]. intros Habs.
      erewrite no_such_filter_and in * by exact Habs.
      split; [reflexivity | apply Hnil; reflexivity].
  - (* deleteTaskCommentsByTask *)
    destruct (bulk_delete_run taskCommentsT taskCommentsT_laws
                (TaskComments.getTaskCommentsByTask ctx taskId)
                _ s eq_refl) as [s' [Hrun Hnil]].
    + apply query_ids_NoDup.
    + intros x Hx. apply in_rev, filter_In in Hx. apply Hx.
    + eexists _, s'. split; [exact Hrun|]. intros Habs.
      rewrite (no_such_filter _ _ _ Habs) in *.
      split; [reflexivity | apply Hnil; reflexivity].
  - (* getTaskActivityByTaskAndTime *)
    unfold returning, TaskActivity.getTaskActivityByTaskAndTime, bind,
      db_query, db_take, ret, throw.
    destruct limit as [n|]; cbn [patched truthy_number];
      [destruct (Z.eqb_spec n 0) as [->|Hnz]; cbn [negb];
       [|destruct (n <? 0); [reflexivity|]]|];
      (eexists; split; [reflexivity|]); intros Habs;
      rewrite (no_such_filter _ _ _ Habs);
      cbn [rev index_order fold_left app]; rewrite ?firstn_nil; reflexivity.
  - (* getRecentActivityByUser *)
    unfold returning, TaskActivity.getRecentActivityByUser, bind,
      db_query, db_take, ret, throw.
    destruct (patched limit 20 <? 0); [reflexivity|].
    eexists. split; [reflexivity|]. intros Habs.
    rewrite (no_such_filter _ _ _ Habs).
    cbn [rev index_order fold_left app]. rewrite firstn_nil. reflexivity.
  - (* deleteTaskActivityByTask *)
    destruct (bulk_delete_run taskActivityT taskActivityT_laws
                (TaskActivity.getTaskActivityByTask ctx taskId)
                _ s eq_refl) as [s' [Hrun Hnil]].
    + apply query_ids_NoDup.
    + intros x Hx. apply in_rev, filter_In in Hx. apply Hx.
    + eexists _, s'. split; [exact Hrun|]. intros Habs.
      rewrite (no_such_filter _ _ _ Habs) in *.
      split; [reflexivity | apply Hnil; reflexivity].
  - (* getOrCreateUserPreferences *)
    unfold returning, UserPreferences.getOrCreateUserPreferences,
      UserPreferences.createUserPreferences, bind, db_query, db_insert, db_get,
      ret, no_such.
    cbn [tget tset userPreferencesT userPreferences].
    destruct (List.filter _ (table_docs (userPreferences s)))
      as [|[id p] l] eqn:Hfilter; cbn [head].
    + rewrite table_get_snoc_new. cbn [option_map shape_of_first fst].
      eexists _, _. split; [reflexivity|].
      rewrite (proj2 (filter_none_iff _ _) Hfilter).
      cbn [userPreferences UserPreferences.c_userId].
      rewrite table_docs_snoc, existsb_app. cbn [existsb snd pref_userId].
      rewrite String.eqb_refl, orb_true_r. split; [reflexivity | discriminate].
    + destruct (filter_some _ _ _ _ Hfilter) as [Hex _].
      eexists _, _. split; [reflexivity|]. rewrite Hex.
      split; reflexivity.
  - (* updateUserPreferencesByUser *)
    unfold returning, UserPreferences.updateUserPreferencesByUser,
      UserPreferences.getUserPreferencesByUser,
      UserPreferences.updateUserPreferences, bind, db_query, db_patch,
      ret, throw, no_such.
    cbn [tget tset userPreferencesT userPreferences].
    destruct (List.filter _ (table_docs (userPreferences s)))
      as [|[id p] l] eqn:Hfilter; cbn [head].
    + rewrite (proj2 (filter_none_iff _ _) Hfilter). reflexivity.
    + destruct (filter_some _ _ _ _ Hfilter) as [Hex [Hin _]]. rewrite Hex.
      apply table_docs_spec in Hin. cbn [negb fst]. rewrite Hin.
      eexists. reflexivity.
  - (* getRecentThreadsByUser *)
    unfold returning, Threads.getRecentThreadsByUser, bind,
      db_query, db_take, ret, throw.
    destruct (patched limit 10 <? 0); [reflexivity|].
    eexists. split; [reflexivity|]. intros Habs.
    rewrite (no_such_filter _ _ _ Habs).
    cbn [rev index_order fold_left app]. rewrite firstn_nil. reflexivity.
  - (* getRecentMessagesByThread *)
    unfold returning, Messages.getRecentMessagesByThread, bind,
      db_query, db_take, ret, throw.
    destruct (patched limit 50 <? 0); [reflexivity|].
    eexists. split; [reflexivity|]. intros Habs.
    rewrite (no_such_filter _ _ _ Habs).
    cbn [rev index_order fold_left app]. rewrite firstn_nil. reflexivity.
  - (* deleteMessagesByThread *)
    destruct (bulk_delete_run messagesT messagesT_laws
                (Messages.getMessagesByThread ctx threadId)
                _ s eq_refl) as [s' [Hrun Hnil]].
    + apply NoDup_map_fst_filter, table_docs_from_NoDup.
    + intros x Hx. apply filter_In in Hx. apply Hx.
    + eexists _, s'. split; [exact Hrun|]. intros Habs.
      rewrite (no_such_filter _ _ _ Habs) in *.
      split; [reflexivity | apply Hnil; reflexivity].
Qed.
